(** * mediasoup worker: the per-Consumer forwarding engine

    A shallow embedding of

    - [worker/src/RTC/Consumer.cpp]       (the Consumer base class),
    - [worker/src/RTC/SimpleConsumer.cpp] (the simple Consumer variant),
    - [worker/src/handles/UdpSocket.cpp]  (the UDP send path),

    followed by the properties of the forwarding path, of the control
    requests, of the producer events and of the datagram sink.

    Conventions.  A C++ unsigned integer of [w] bits is a [Z] reduced with
    [wrap w]; an [int] is a [Z] reduced with [to_int32].  A method of a
    class is a computation in the monad [M]: it reads and writes the
    object's fields, appends to a log of the calls made on collaborator
    objects (listener, notifier, request, send stream, sequence manager) and
    ends normally, by a C++ exception, or by aborting the worker. *)

From Stdlib Require Import ZArith Bool List String Lia.
From Stdlib Require Import Floats.SpecFloat.
From stdpp Require Import base decidable option list gmap strings.
Import ListNotations.

Local Open Scope string_scope.
Local Open Scope list_scope.
Local Open Scope Z_scope.

#[local] Set Warnings "-register-all".

(** ** Machine integers *)

Definition wrap (w : Z) (x : Z) : Z := x mod 2 ^ w.

Definition uint8 (x : Z) : Z := wrap 8 x.
Definition uint16 (x : Z) : Z := wrap 16 x.
Definition uint32 (x : Z) : Z := wrap 32 x.
Definition uint64 (x : Z) : Z := wrap 64 x.

(** [static_cast<int>(x)] on a 32-bit two's complement [int]. *)
Definition to_int32 (x : Z) : Z := (x + 2 ^ 31) mod 2 ^ 32 - 2 ^ 31.

(** RFC 1982 order on 16-bit sequence numbers: [b] is ahead of [a] by
    less than half the number space. *)
Definition seq16_lt (a b : Z) : Prop := 0 < (b - a) mod 2 ^ 16 < 2 ^ 15.

Definition seq16_ltb (a b : Z) : bool :=
  (0 <? (b - a) mod 2 ^ 16) && ((b - a) mod 2 ^ 16 <? 2 ^ 15).

(** ** JSON values (the payload of requests and notifications) *)

Inductive Json : Type :=
| JNull
| JBool (b : bool)
| JNumber (n : Z)
| JString (s : string)
| JArray (items : list Json)
| JObject (members : list (string * Json)).

Definition is_string (j : Json) : bool :=
  match j with JString _ => true | _ => false end.

Definition is_array (j : Json) : bool :=
  match j with JArray _ => true | _ => false end.

Fixpoint assoc_find (key : string) (members : list (string * Json)) : option Json :=
  match members with
  | [] => None
  | (k, v) :: rest => if String.eqb k key then Some v else assoc_find key rest
  end.

(** [json::find(key)]: [end()] on anything that is not an object. *)
Definition json_find (key : string) (j : Json) : option Json :=
  match j with
  | JObject members => assoc_find key members
  | _ => None
  end.

(** ** RTP packets *)

Record RtpPacket : Type := mkRtpPacket {
  ssrc : Z;            (* uint32_t *)
  sequenceNumber : Z;  (* uint16_t *)
  timestamp : Z;       (* uint32_t *)
  payloadType : Z;     (* uint8_t  *)
  isKeyFrame : bool;
  payloadLength : Z
}.

Definition GetSsrc (p : RtpPacket) : Z := ssrc p.
Definition GetSequenceNumber (p : RtpPacket) : Z := sequenceNumber p.
Definition GetPayloadType (p : RtpPacket) : Z := payloadType p.
Definition IsKeyFrame (p : RtpPacket) : bool := isKeyFrame p.

Definition SetSsrc (v : Z) (p : RtpPacket) : RtpPacket :=
  mkRtpPacket (uint32 v) (sequenceNumber p) (timestamp p) (payloadType p)
              (isKeyFrame p) (payloadLength p).

Definition SetSequenceNumber (v : Z) (p : RtpPacket) : RtpPacket :=
  mkRtpPacket (ssrc p) (uint16 v) (timestamp p) (payloadType p)
              (isKeyFrame p) (payloadLength p).

(** A packet as it sits in memory: every field within its width. *)
Definition packet_wf (p : RtpPacket) : Prop :=
  0 <= ssrc p < 2 ^ 32 /\ 0 <= sequenceNumber p < 2 ^ 16.

(** ** Sequence-number remapper *)

(** Modelled from the spec: the class [RTC::SeqManager<uint16_t>] behind the
    field [rtpSeqManager], whose definition lives in a header outside the
    three translation units above.  Its contract reads: [Sync(base)] fixes
    the internal offset so that the next [Input(inputSeq)] produces
    [base + 1]; subsequent inputs produce outputs that preserve the relative
    gaps of the input stream, with wraparound at 2^16. *)
Record SeqManager : Type := mkSeqManager {
  seqOffset : Z;            (* output - input, modulo 2^16 *)
  seqPending : option Z     (* base of a Sync that no Input has consumed yet *)
}.

Definition SeqManager_init : SeqManager := mkSeqManager 0 None.

Definition SeqManager_Sync (base : Z) (m : SeqManager) : SeqManager :=
  mkSeqManager (seqOffset m) (Some (uint16 base)).

Definition SeqManager_Input (input : Z) (m : SeqManager) : Z * SeqManager :=
  let offset :=
    match seqPending m with
    | Some base => uint16 (base + 1 - input)
    | None => seqOffset m
    end in
  (uint16 (input + offset), mkSeqManager offset None).

(** ** RTCP material built by the send stream *)

Record SenderReport : Type := mkSenderReport {
  srSsrc : Z;
  srPacketCount : Z;
  srOctetCount : Z;
  srNowMs : Z    (* the instant its NTP time and RTP timestamp are taken at *)
}.

Record SdesChunk : Type := mkSdesChunk {
  sdesSsrc : Z;
  sdesCname : string
}.

(** [RTC::RTCP::CompoundPacket], as far as [GetRtcp] touches it. *)
Record CompoundPacket : Type := mkCompoundPacket {
  senderReports : list SenderReport;
  sdesChunks : list SdesChunk
}.

Definition AddSenderReport (r : SenderReport) (p : CompoundPacket) : CompoundPacket :=
  mkCompoundPacket (senderReports p ++ [r]) (sdesChunks p).

Definition AddSdesChunk (c : SdesChunk) (p : CompoundPacket) : CompoundPacket :=
  mkCompoundPacket (senderReports p) (sdesChunks p ++ [c]).

(** A NACK feedback packet: the sequence numbers the receiver asks for. *)
Definition FeedbackRtpNackPacket : Type := list Z.

Inductive FeedbackPsMessageType : Type := PLI | FIR | OtherPs.

(** ** The send-side RTP stream, as an interface

    [RTC::RtpStreamSend] is a collaborator of the Consumer.  The Consumer
    code is verified against every implementation of the operations it
    calls; [S] is the state of the stream object. *)
Module RtpStreamSend.
Class Ops (S : Type) : Type := {
  (* bool ReceivePacket(packet) *)
  ReceivePacket : RtpPacket -> S -> bool * S;
  (* void ReceiveNack(nack): the packets handed back, in order, through
     OnRtpStreamRetransmitRtpPacket, and the state left behind *)
  ReceiveNack : FeedbackRtpNackPacket -> S -> list RtpPacket * S;
  ReceiveKeyFrameRequest : FeedbackPsMessageType -> S -> S;
  (* GetRtcpSenderReport(nowMs): a null report is None *)
  GetRtcpSenderReport : Z -> S -> option SenderReport * S;
  GetRtcpSdesChunk : S -> SdesChunk;
  GetFractionLost : S -> Z;
  GetBitrate : Z -> S -> Z;
  GetScore : S -> Z;
  HasRtx : S -> bool;
  Pause : S -> S
}.
End RtpStreamSend.

(** ** Consumer state *)

Inductive MediaKind : Type := ALL | AUDIO | VIDEO.

Record RtpEncodingParameters : Type := mkEncoding {
  encSsrc : Z;
  hasRtx : bool;
  rtxSsrc : Z
}.

Global Instance RtpEncodingParameters_inhabited : Inhabited RtpEncodingParameters :=
  populate (mkEncoding 0 false 0).

Record PacketEventTypes : Type := mkPacketEventTypes {
  rtp : bool;
  nack : bool;
  pli : bool;
  fir : bool
}.

(** [struct PacketEventTypes newPacketEventTypes;]: every member false. *)
Definition PacketEventTypes_default : PacketEventTypes :=
  mkPacketEventTypes false false false false.

(** A handle on the Producer-side stream ([RTC::RtpStream*]), which the
    Consumer references but does not own. *)
Definition ProducerStream : Type := Z.

(** The fields of [RTC::Consumer] followed by those of
    [RTC::SimpleConsumer]. *)
Record Consumer (S : Type) : Type := mkConsumer {
  id : string;
  kind : MediaKind;
  encodings : list RtpEncodingParameters;             (* rtpParameters.encodings *)
  consumableRtpEncodings : list RtpEncodingParameters;
  supportedCodecPayloadTypes : gset Z;
  packetEventTypes : PacketEventTypes;
  maxRtcpInterval : Z;                                (* uint16_t *)
  lastRtcpSentTime : Z;                               (* uint64_t *)
  transportConnected : bool;
  paused : bool;
  producerPaused : bool;
  producerClosed : bool;
  (* SimpleConsumer *)
  rtpStream : S;
  producerRtpStream : option ProducerStream;
  keyFrameSupported : bool;
  syncRequired : bool;
  rtpSeqManager : SeqManager
}.

Arguments mkConsumer {S}.
Arguments id {S}.
Arguments kind {S}.
Arguments encodings {S}.
Arguments consumableRtpEncodings {S}.
Arguments supportedCodecPayloadTypes {S}.
Arguments packetEventTypes {S}.
Arguments maxRtcpInterval {S}.
Arguments lastRtcpSentTime {S}.
Arguments transportConnected {S}.
Arguments paused {S}.
Arguments producerPaused {S}.
Arguments producerClosed {S}.
Arguments rtpStream {S}.
Arguments producerRtpStream {S}.
Arguments keyFrameSupported {S}.
Arguments syncRequired {S}.
Arguments rtpSeqManager {S}.

(** Field assignments. *)
Section Setters.
Context {S : Type}.
Implicit Type c : Consumer S.

Definition set_packetEventTypes (v : PacketEventTypes) c : Consumer S :=
  mkConsumer (id c) (kind c) (encodings c) (consumableRtpEncodings c)
    (supportedCodecPayloadTypes c) v (maxRtcpInterval c)
    (lastRtcpSentTime c) (transportConnected c) (paused c) (producerPaused c)
    (producerClosed c) (rtpStream c) (producerRtpStream c)
    (keyFrameSupported c) (syncRequired c) (rtpSeqManager c).

Definition set_lastRtcpSentTime (v : Z) c : Consumer S :=
  mkConsumer (id c) (kind c) (encodings c) (consumableRtpEncodings c)
    (supportedCodecPayloadTypes c) (packetEventTypes c) (maxRtcpInterval c)
    v (transportConnected c) (paused c) (producerPaused c)
    (producerClosed c) (rtpStream c) (producerRtpStream c)
    (keyFrameSupported c) (syncRequired c) (rtpSeqManager c).

Definition set_transportConnected (v : bool) c : Consumer S :=
  mkConsumer (id c) (kind c) (encodings c) (consumableRtpEncodings c)
    (supportedCodecPayloadTypes c) (packetEventTypes c) (maxRtcpInterval c)
    (lastRtcpSentTime c) v (paused c) (producerPaused c)
    (producerClosed c) (rtpStream c) (producerRtpStream c)
    (keyFrameSupported c) (syncRequired c) (rtpSeqManager c).

Definition set_paused (v : bool) c : Consumer S :=
  mkConsumer (id c) (kind c) (encodings c) (consumableRtpEncodings c)
    (supportedCodecPayloadTypes c) (packetEventTypes c) (maxRtcpInterval c)
    (lastRtcpSentTime c) (transportConnected c) v (producerPaused c)
    (producerClosed c) (rtpStream c) (producerRtpStream c)
    (keyFrameSupported c) (syncRequired c) (rtpSeqManager c).

Definition set_producerPaused (v : bool) c : Consumer S :=
  mkConsumer (id c) (kind c) (encodings c) (consumableRtpEncodings c)
    (supportedCodecPayloadTypes c) (packetEventTypes c) (maxRtcpInterval c)
    (lastRtcpSentTime c) (transportConnected c) (paused c) v
    (producerClosed c) (rtpStream c) (producerRtpStream c)
    (keyFrameSupported c) (syncRequired c) (rtpSeqManager c).

Definition set_producerClosed (v : bool) c : Consumer S :=
  mkConsumer (id c) (kind c) (encodings c) (consumableRtpEncodings c)
    (supportedCodecPayloadTypes c) (packetEventTypes c) (maxRtcpInterval c)
    (lastRtcpSentTime c) (transportConnected c) (paused c) (producerPaused c)
    v (rtpStream c) (producerRtpStream c)
    (keyFrameSupported c) (syncRequired c) (rtpSeqManager c).

Definition set_rtpStream (v : S) c : Consumer S :=
  mkConsumer (id c) (kind c) (encodings c) (consumableRtpEncodings c)
    (supportedCodecPayloadTypes c) (packetEventTypes c) (maxRtcpInterval c)
    (lastRtcpSentTime c) (transportConnected c) (paused c) (producerPaused c)
    (producerClosed c) v (producerRtpStream c)
    (keyFrameSupported c) (syncRequired c) (rtpSeqManager c).

Definition set_producerRtpStream (v : option ProducerStream) c : Consumer S :=
  mkConsumer (id c) (kind c) (encodings c) (consumableRtpEncodings c)
    (supportedCodecPayloadTypes c) (packetEventTypes c) (maxRtcpInterval c)
    (lastRtcpSentTime c) (transportConnected c) (paused c) (producerPaused c)
    (producerClosed c) (rtpStream c) v
    (keyFrameSupported c) (syncRequired c) (rtpSeqManager c).

Definition set_syncRequired (v : bool) c : Consumer S :=
  mkConsumer (id c) (kind c) (encodings c) (consumableRtpEncodings c)
    (supportedCodecPayloadTypes c) (packetEventTypes c) (maxRtcpInterval c)
    (lastRtcpSentTime c) (transportConnected c) (paused c) (producerPaused c)
    (producerClosed c) (rtpStream c) (producerRtpStream c)
    (keyFrameSupported c) v (rtpSeqManager c).

Definition set_rtpSeqManager (v : SeqManager) c : Consumer S :=
  mkConsumer (id c) (kind c) (encodings c) (consumableRtpEncodings c)
    (supportedCodecPayloadTypes c) (packetEventTypes c) (maxRtcpInterval c)
    (lastRtcpSentTime c) (transportConnected c) (paused c) (producerPaused c)
    (producerClosed c) (rtpStream c) (producerRtpStream c)
    (keyFrameSupported c) (syncRequired c) v.
End Setters.

(** ** Calls on collaborators, errors, and the method monad *)

Inductive UserHook : Type :=
| UserOnTransportConnected_
| UserOnTransportDisconnected_
| UserOnPaused_
| UserOnResumed_.

Inductive MediaSoupError : Type :=
| TypeError (msg : string)     (* MS_THROW_TYPE_ERROR *)
| GenericError (msg : string). (* MS_THROW_ERROR *)

Inductive Call : Type :=
(* RTC::Consumer::Listener *)
| OnConsumerSendRtpPacket (packet : RtpPacket)
| OnConsumerRetransmitRtpPacket (packet : RtpPacket)
| OnConsumerKeyFrameRequested (mappedSsrc : Z)
| OnConsumerProducerClosed
(* Channel::Notifier::Emit(id, event [, data]) *)
| NotifierEmit (target event : string) (data : option Json)
(* Channel::Request::Accept([data]) *)
| RequestAccept (data : option Json)
(* Channel::Request::Reject(reason), at the dispatch boundary *)
| RequestReject (reason : MediaSoupError)
(* this->rtpStream *)
| RtpStream_ReceivePacket (packet : RtpPacket) (accepted : bool)
| RtpStream_ReceiveNack (nackPacket : FeedbackRtpNackPacket)
| RtpStream_ReceiveKeyFrameRequest (messageType : FeedbackPsMessageType)
| RtpStream_GetRtcpSenderReport (nowMs : Z)
| RtpStream_GetRtcpSdesChunk
| RtpStream_Pause
(* this->rtpSeqManager *)
| RtpSeqManager_Sync (base : Z)
| RtpSeqManager_Input (input output : Z)
(* dispatch of a virtual method of the Consumer *)
| Virtual (hook : UserHook).

Inductive Outcome (A : Type) : Type :=
| Done (a : A)
| Thrown (e : MediaSoupError)
| Aborted (msg : string).      (* MS_ASSERT / MS_ABORT *)

Arguments Done {A}.
Arguments Thrown {A}.
Arguments Aborted {A}.

Section Monad.
Context {S : Type}.

(** A method: from the object before the call to how the call ended, the
    object after it and the calls it made, oldest first.  Fields written
    before an exception stay written. *)
Definition M (A : Type) : Type :=
  Consumer S -> Outcome A * Consumer S * list Call.

Definition ret {A} (a : A) : M A := fun c => (Done a, c, []).

Definition bind {A B} (m : M A) (k : A -> M B) : M B :=
  fun c =>
    match m c with
    | (Done a, c1, t1) =>
        match k a c1 with
        | (r, c2, t2) => (r, c2, t1 ++ t2)
        end
    | (Thrown e, c1, t1) => (Thrown e, c1, t1)
    | (Aborted msg, c1, t1) => (Aborted msg, c1, t1)
    end.

Definition gets {A} (f : Consumer S -> A) : M A := fun c => (Done (f c), c, []).
Definition modify (f : Consumer S -> Consumer S) : M unit := fun c => (Done tt, f c, []).
Definition call (e : Call) : M unit := fun c => (Done tt, c, [e]).
Definition throw {A} (e : MediaSoupError) : M A := fun c => (Thrown e, c, []).
Definition abort {A} (msg : string) : M A := fun c => (Aborted msg, c, []).

(** [try { m } catch (const MediaSoupError& e) { handler(e) }] *)
Definition catch {A} (m : M A) (handler : MediaSoupError -> M A) : M A :=
  fun c =>
    match m c with
    | (Thrown e, c1, t1) =>
        match handler e c1 with
        | (r, c2, t2) => (r, c2, t1 ++ t2)
        end
    | r => r
    end.

Definition outcome {A} (r : Outcome A * Consumer S * list Call) : Outcome A := r.1.1.
Definition after {A} (r : Outcome A * Consumer S * list Call) : Consumer S := r.1.2.
Definition calls {A} (r : Outcome A * Consumer S * list Call) : list Call := r.2.
End Monad.

Notation "'let*' x ':=' m 'in' k" := (bind m (fun x => k))
  (at level 10, x name, m at level 100, k at level 200).
Notation "m ';;' k" := (bind m (fun _ => k))
  (at level 100, k at level 200, right associativity).

(** ** What the worker provides around a Consumer *)

Class Environment : Type := {
  (* DepLibUV::GetTimeMs(): the loop clock *)
  GetTimeMs : Z;
  (* packet->FillJson(json): the header snapshot of an 'rtp' event *)
  RtpPacket_FillJson : RtpPacket -> Json;
  (* what the listener (the Transport) leaves in the packet object that
     OnConsumerSendRtpPacket hands to it by pointer *)
  listener_SendRtpPacket : RtpPacket -> RtpPacket;
  (* producerRtpStream->GetScore() *)
  ProducerStream_GetScore : ProducerStream -> Z
}.

(** [data[key] = value] on a JSON object ([null] becomes an object). *)
Fixpoint assoc_set (key : string) (v : Json) (members : list (string * Json))
  : list (string * Json) :=
  match members with
  | [] => [(key, v)]
  | (k, w) :: rest =>
      if String.eqb k key then (k, v) :: rest else (k, w) :: assoc_set key v rest
  end.

Definition json_set (key : string) (v : Json) (j : Json) : Json :=
  match j with
  | JObject members => JObject (assoc_set key v members)
  | _ => JObject [(key, v)]
  end.

(** ** Consumer and SimpleConsumer methods *)

(** The [const] serialisers behind DUMP and GET_STATS ([FillJson],
    [FillJsonStats]); what they print is not inspected here. *)
Class Serialization (S : Type) : Type := {
  FillJson : Consumer S -> Json;
  FillJsonStats : Consumer S -> Json
}.

(** *** The RTCP interval test

    [static_cast<float>((nowMs - lastRtcpSentTime) * 1.15) < maxRtcpInterval]:
    the difference of two [uint64_t] is converted to [double], multiplied by
    the [double] nearest to 1.15, rounded to [float], and compared with the
    [uint16_t] bound converted to [float].  IEEE 754 binary64 has precision
    53 and infinities at exponent 1024, binary32 has 24 and 128. *)
Definition double_of_Z (z : Z) : spec_float := binary_normalize 53 1024 z 0 false.

Definition float_of_Z (z : Z) : spec_float := binary_normalize 24 128 z 0 false.

(** 1.15 as a binary64 literal: 5179139571476070 * 2^-52. *)
Definition double_1_15 : spec_float := S754_finite false 5179139571476070 (-52).

Definition float_of_double (x : spec_float) : spec_float :=
  match x with
  | S754_finite s m e => binary_round 24 128 s m e
  | _ => x
  end.

Definition rtcpTooEarly (nowMs lastRtcpSentTime maxRtcpInterval : Z) : bool :=
  SFltb
    (float_of_double
       (SFmul 53 1024 (double_of_Z (uint64 (nowMs - lastRtcpSentTime))) double_1_15))
    (float_of_Z maxRtcpInterval).

Inductive MethodId : Type :=
| CONSUMER_DUMP
| CONSUMER_GET_STATS
| CONSUMER_PAUSE
| CONSUMER_RESUME
| CONSUMER_ENABLE_PACKET_EVENT
| CONSUMER_REQUEST_KEY_FRAME
| OTHER_METHOD.

Record Request : Type := mkRequest {
  methodId : MethodId;
  method : string;
  data : Json
}.

Section Methods.
Context {S : Type} `{!RtpStreamSend.Ops S} `{!Environment} `{!Serialization S}.

Local Abbreviation M := (@M S).

(** Modelled from the spec: [IsActive()] is an inline method of the class
    declarations (Consumer.hpp, SimpleConsumer.hpp).  The data model gives
    it as [transportConnected && !paused && !producerPaused &&
    !producerClosed && producerRtpStream exists]. *)
Definition IsActive (c : Consumer S) : bool :=
  transportConnected c && negb (paused c) && negb (producerPaused c)
  && negb (producerClosed c) && bool_decide (is_Some (producerRtpStream c)).

(** *** Calls on the owned send stream *)

Definition rtpStream_ReceivePacket (packet : RtpPacket) : M bool :=
  fun c =>
    let r := RtpStreamSend.ReceivePacket packet (rtpStream c) in
    (Done r.1, set_rtpStream r.2 c, [RtpStream_ReceivePacket packet r.1]).

Definition rtpStream_Pause : M unit :=
  fun c =>
    (Done tt, set_rtpStream (RtpStreamSend.Pause (rtpStream c)) c, [RtpStream_Pause]).

Definition rtpStream_ReceiveKeyFrameRequest (messageType : FeedbackPsMessageType) : M unit :=
  fun c =>
    (Done tt,
     set_rtpStream (RtpStreamSend.ReceiveKeyFrameRequest messageType (rtpStream c)) c,
     [RtpStream_ReceiveKeyFrameRequest messageType]).

Definition rtpStream_GetRtcpSenderReport (nowMs : Z) : M (option SenderReport) :=
  fun c =>
    let r := RtpStreamSend.GetRtcpSenderReport nowMs (rtpStream c) in
    (Done r.1, set_rtpStream r.2 c, [RtpStream_GetRtcpSenderReport nowMs]).

Definition rtpStream_GetRtcpSdesChunk : M SdesChunk :=
  fun c => (Done (RtpStreamSend.GetRtcpSdesChunk (rtpStream c)), c, [RtpStream_GetRtcpSdesChunk]).

(** *** Calls on the sequence manager *)

Definition rtpSeqManager_Sync (base : Z) : M unit :=
  fun c =>
    (Done tt, set_rtpSeqManager (SeqManager_Sync base (rtpSeqManager c)) c,
     [RtpSeqManager_Sync (uint16 base)]).

Definition rtpSeqManager_Input (input : Z) : M Z :=
  fun c =>
    let r := SeqManager_Input input (rtpSeqManager c) in
    (Done r.1, set_rtpSeqManager r.2 c, [RtpSeqManager_Input input r.1]).

(** *** Consumer: packet events *)

Definition EmitPacketEventRtpType (packet : RtpPacket) (isRtx : bool) : M unit :=
  let* types := gets packetEventTypes in
  if negb (rtp types) then ret tt
  else
    let info := RtpPacket_FillJson packet in
    let info := if isRtx then json_set "isRtx" (JBool true) info else info in
    let* self := gets id in
    call (NotifierEmit self "packet"
            (Some (JObject [("type", JString "rtp");
                            ("timestamp", JNumber GetTimeMs);
                            ("direction", JString "out");
                            ("info", info)]))).

Definition EmitPacketEventPliType (ssrc : Z) : M unit :=
  let* types := gets packetEventTypes in
  if negb (pli types) then ret tt
  else
    let* self := gets id in
    call (NotifierEmit self "packet"
            (Some (JObject [("type", JString "pli");
                            ("timestamp", JNumber GetTimeMs);
                            ("direction", JString "in");
                            ("info", JObject [("ssrc", JNumber ssrc)])]))).

Definition EmitPacketEventFirType (ssrc : Z) : M unit :=
  let* types := gets packetEventTypes in
  if negb (fir types) then ret tt
  else
    let* self := gets id in
    call (NotifierEmit self "packet"
            (Some (JObject [("type", JString "fir");
                            ("timestamp", JNumber GetTimeMs);
                            ("direction", JString "in");
                            ("info", JObject [("ssrc", JNumber ssrc)])]))).

Definition EmitPacketEventNackType : M unit :=
  let* types := gets packetEventTypes in
  if negb (nack types) then ret tt
  else
    let* self := gets id in
    call (NotifierEmit self "packet"
            (Some (JObject [("type", JString "nack");
                            ("timestamp", JNumber GetTimeMs);
                            ("direction", JString "in");
                            ("info", JObject [])]))).

(** *** SimpleConsumer: key frames and the user hooks *)

Definition RequestKeyFrame : M unit :=
  let* k := gets kind in
  match k with
  | VIDEO =>
      let* encs := gets consumableRtpEncodings in
      let mappedSsrc := encSsrc (encs !!! 0%nat) in
      call (OnConsumerKeyFrameRequested mappedSsrc)
  | _ => ret tt
  end.

Definition UserOnTransportConnected : M unit :=
  modify (set_syncRequired true) ;;
  let* active := gets IsActive in
  if active then RequestKeyFrame else ret tt.

Definition UserOnTransportDisconnected : M unit := rtpStream_Pause.

Definition UserOnPaused : M unit := rtpStream_Pause.

Definition UserOnResumed : M unit :=
  modify (set_syncRequired true) ;;
  let* active := gets IsActive in
  if active then RequestKeyFrame else ret tt.

(** Virtual dispatch from the base class, recorded in the call log. *)
Definition dispatch (hook : UserHook) : M unit :=
  call (Virtual hook) ;;
  match hook with
  | UserOnTransportConnected_ => UserOnTransportConnected
  | UserOnTransportDisconnected_ => UserOnTransportDisconnected
  | UserOnPaused_ => UserOnPaused
  | UserOnResumed_ => UserOnResumed
  end.

(** *** SimpleConsumer::SendRtpPacket *)

Definition SendRtpPacket (packet : RtpPacket) : M RtpPacket :=
  let* active := gets IsActive in
  if negb active then ret packet
  else
    let payloadType := GetPayloadType packet in
    let* supported := gets supportedCodecPayloadTypes in
    if negb (bool_decide (payloadType ∈ supported)) then ret packet
    else
      let* sync := gets syncRequired in
      let* keyFrames := gets keyFrameSupported in
      if sync && keyFrames && negb (IsKeyFrame packet) then ret packet
      else
        (* Whether this is the first packet after re-sync. *)
        let isSyncPacket := sync in
        (if isSyncPacket
         then rtpSeqManager_Sync (GetSequenceNumber packet - 1) ;;
              modify (set_syncRequired false)
         else ret tt) ;;
        let* seq := rtpSeqManager_Input (GetSequenceNumber packet) in
        (* Save original packet fields. *)
        let origSsrc := GetSsrc packet in
        let origSeq := GetSequenceNumber packet in
        (* Rewrite packet. *)
        let* encs := gets encodings in
        let packet := SetSsrc (encSsrc (encs !!! 0%nat)) packet in
        let packet := SetSequenceNumber seq packet in
        (* Process the packet. *)
        let* accepted := rtpStream_ReceivePacket packet in
        let* packet :=
          (if accepted : bool
           then
             call (OnConsumerSendRtpPacket packet) ;;
             let packet := listener_SendRtpPacket packet in
             EmitPacketEventRtpType packet false ;;
             ret packet
           else ret packet) in
        (* Restore packet fields. *)
        let packet := SetSsrc origSsrc packet in
        let packet := SetSequenceNumber origSeq packet in
        ret packet.

(** *** SimpleConsumer::GetRtcp

    [sameStream] tells whether the stream passed in is [this->rtpStream]. *)
Definition GetRtcp (packet : CompoundPacket) (sameStream : bool) (nowMs : Z)
  : M CompoundPacket :=
  if negb sameStream then abort "RTP stream does not match"
  else
    let* last := gets lastRtcpSentTime in
    let* interval := gets maxRtcpInterval in
    if rtcpTooEarly nowMs last interval then ret packet
    else
      let* report := rtpStream_GetRtcpSenderReport nowMs in
      match report with
      | None => ret packet
      | Some report =>
          let packet := AddSenderReport report packet in
          (* Build SDES chunk for this sender. *)
          let* sdesChunk := rtpStream_GetRtcpSdesChunk in
          let packet := AddSdesChunk sdesChunk packet in
          modify (set_lastRtcpSentTime nowMs) ;;
          ret packet
      end.

(** *** SimpleConsumer: feedback from the remote endpoint *)

Definition OnRtpStreamRetransmitRtpPacket (packet : RtpPacket) : M unit :=
  call (OnConsumerRetransmitRtpPacket packet) ;;
  let* stream := gets rtpStream in
  EmitPacketEventRtpType packet (RtpStreamSend.HasRtx stream).

Fixpoint forEach {A} (f : A -> M unit) (l : list A) : M unit :=
  match l with
  | [] => ret tt
  | x :: rest => f x ;; forEach f rest
  end.

Definition rtpStream_ReceiveNack (nackPacket : FeedbackRtpNackPacket) : M unit :=
  let* found :=
    (fun c =>
       let r := RtpStreamSend.ReceiveNack nackPacket (rtpStream c) in
       (Done r.1, set_rtpStream r.2 c, [RtpStream_ReceiveNack nackPacket])) in
  forEach OnRtpStreamRetransmitRtpPacket found.

Definition ReceiveNack (nackPacket : FeedbackRtpNackPacket) : M unit :=
  let* active := gets IsActive in
  if negb active then ret tt
  else
    (* May emit 'packet' event. *)
    EmitPacketEventNackType ;;
    rtpStream_ReceiveNack nackPacket.

Definition ReceiveKeyFrameRequest (messageType : FeedbackPsMessageType) (ssrc : Z)
  : M unit :=
  match messageType with
  | PLI => EmitPacketEventPliType ssrc
  | FIR => EmitPacketEventFirType ssrc
  | OtherPs => ret tt
  end ;;
  rtpStream_ReceiveKeyFrameRequest messageType ;;
  let* active := gets IsActive in
  if active then RequestKeyFrame else ret tt.

(** *** SimpleConsumer: producer streams and the score event *)

Definition FillJsonScore : M Json :=
  let* stream := gets rtpStream in
  let* producer := gets producerRtpStream in
  ret (JObject [("score", JNumber (RtpStreamSend.GetScore stream));
                ("producerScore",
                 JNumber match producer with
                         | Some h => ProducerStream_GetScore h
                         | None => 0
                         end)]).

Definition EmitScore : M unit :=
  let* data := FillJsonScore in
  let* self := gets id in
  call (NotifierEmit self "score" (Some data)).

Definition ProducerRtpStream (stream : ProducerStream) : M unit :=
  modify (set_producerRtpStream (Some stream)) ;;
  EmitScore.

Definition ProducerNewRtpStream (stream : ProducerStream) : M unit :=
  modify (set_producerRtpStream (Some stream)) ;;
  EmitScore.

(** *** Consumer::HandleRequest *)

Definition enablePacketEventType (typeStr : string) (t : PacketEventTypes)
  : PacketEventTypes :=
  if String.eqb typeStr "rtp" then mkPacketEventTypes true (nack t) (pli t) (fir t)
  else if String.eqb typeStr "nack" then mkPacketEventTypes (rtp t) true (pli t) (fir t)
  else if String.eqb typeStr "pli" then mkPacketEventTypes (rtp t) (nack t) true (fir t)
  else if String.eqb typeStr "fir" then mkPacketEventTypes (rtp t) (nack t) (pli t) true
  else t.

(** The loop [for (const auto& type : *jsonTypesIt)]. *)
Fixpoint readPacketEventTypes (items : list Json) (newPacketEventTypes : PacketEventTypes)
  : M PacketEventTypes :=
  match items with
  | [] => ret newPacketEventTypes
  | JString typeStr :: rest =>
      readPacketEventTypes rest (enablePacketEventType typeStr newPacketEventTypes)
  | _ :: _ => throw (TypeError "wrong type (not a string)")
  end.

Definition Consumer_HandleRequest (request : Request) : M unit :=
  match methodId request with
  | CONSUMER_DUMP =>
      let* data := gets FillJson in
      call (RequestAccept (Some data))
  | CONSUMER_GET_STATS =>
      let* data := gets FillJsonStats in
      call (RequestAccept (Some data))
  | CONSUMER_PAUSE =>
      let* isPaused := gets paused in
      if isPaused then call (RequestAccept None)
      else
        let* wasActive := gets IsActive in
        modify (set_paused true) ;;
        (if wasActive then dispatch UserOnPaused_ else ret tt) ;;
        call (RequestAccept None)
  | CONSUMER_RESUME =>
      let* isPaused := gets paused in
      if negb isPaused then call (RequestAccept None)
      else
        modify (set_paused false) ;;
        let* active := gets IsActive in
        (if active then dispatch UserOnResumed_ else ret tt) ;;
        call (RequestAccept None)
  | CONSUMER_ENABLE_PACKET_EVENT =>
      match json_find "types" (data request) with
      | Some (JArray items) =>
          (* Reset packetEventTypes. *)
          let* newPacketEventTypes := readPacketEventTypes items PacketEventTypes_default in
          modify (set_packetEventTypes newPacketEventTypes) ;;
          call (RequestAccept None)
      | _ => throw (TypeError "wrong types (not an array)")
      end
  | CONSUMER_REQUEST_KEY_FRAME | OTHER_METHOD =>
      throw (GenericError
               (String.append "unknown method '" (String.append (method request) "'")))
  end.

Definition SimpleConsumer_HandleRequest (request : Request) : M unit :=
  match methodId request with
  | CONSUMER_REQUEST_KEY_FRAME =>
      let* active := gets IsActive in
      (if active then RequestKeyFrame else ret tt) ;;
      call (RequestAccept None)
  | _ => Consumer_HandleRequest request
  end.

(** *** Consumer: transport and producer events *)

Definition TransportConnected : M unit :=
  modify (set_transportConnected true) ;;
  dispatch UserOnTransportConnected_.

Definition TransportDisconnected : M unit :=
  modify (set_transportConnected false) ;;
  dispatch UserOnTransportDisconnected_.

Definition ProducerPaused : M unit :=
  let* already := gets producerPaused in
  if already then ret tt
  else
    let* wasActive := gets IsActive in
    modify (set_producerPaused true) ;;
    (if wasActive then dispatch UserOnPaused_ else ret tt) ;;
    let* self := gets id in
    call (NotifierEmit self "producerpause" None).

Definition ProducerResumed : M unit :=
  let* isPaused := gets producerPaused in
  if negb isPaused then ret tt
  else
    modify (set_producerPaused false) ;;
    let* active := gets IsActive in
    (if active then dispatch UserOnResumed_ else ret tt) ;;
    let* self := gets id in
    call (NotifierEmit self "producerresume" None).

Definition ProducerClosed : M unit :=
  modify (set_producerClosed true) ;;
  let* self := gets id in
  call (NotifierEmit self "producerclose" None) ;;
  call OnConsumerProducerClosed.
End Methods.

Arguments IsActive : simpl never.
Arguments Consumer_HandleRequest : simpl never.

(** ** The life of a Consumer as a sequence of events *)

Inductive Event : Type :=
| EvSendRtpPacket (packet : RtpPacket)
| EvRequest (request : Request)
| EvTransportConnected
| EvTransportDisconnected
| EvProducerPaused
| EvProducerResumed
| EvProducerClosed
| EvProducerRtpStream (stream : ProducerStream)
| EvProducerNewRtpStream (stream : ProducerStream)
| EvReceiveNack (nackPacket : FeedbackRtpNackPacket)
| EvReceiveKeyFrameRequest (messageType : FeedbackPsMessageType) (ssrc : Z)
| EvGetRtcp (nowMs : Z).

Section Run.
Context {S : Type} `{!RtpStreamSend.Ops S} `{!Environment} `{!Serialization S}.

(** Modelled from the spec: the dispatch boundary that delivers a control
    request belongs to the channel layer.  Errors raised while handling a
    request are caught there and translated to a Reject. *)
Definition deliverRequest (request : Request) : @M S unit :=
  catch (SimpleConsumer_HandleRequest request) (fun e => call (RequestReject e)).

Definition step (e : Event) : @M S unit :=
  match e with
  | EvSendRtpPacket packet => SendRtpPacket packet ;; ret tt
  | EvRequest request => deliverRequest request
  | EvTransportConnected => TransportConnected
  | EvTransportDisconnected => TransportDisconnected
  | EvProducerPaused => ProducerPaused
  | EvProducerResumed => ProducerResumed
  | EvProducerClosed => ProducerClosed
  | EvProducerRtpStream stream => ProducerRtpStream stream
  | EvProducerNewRtpStream stream => ProducerNewRtpStream stream
  | EvReceiveNack nackPacket => ReceiveNack nackPacket
  | EvReceiveKeyFrameRequest messageType ssrc => ReceiveKeyFrameRequest messageType ssrc
  | EvGetRtcp nowMs => GetRtcp (mkCompoundPacket [] []) true nowMs ;; ret tt
  end.

Definition run (events : list Event) : @M S unit := forEach step events.
End Run.

(** The packets handed to the listener's transmission callback. *)
Definition transmitted (log : list Call) : list RtpPacket :=
  omap (fun e => match e with OnConsumerSendRtpPacket p => Some p | _ => None end) log.

Definition isSync (e : Call) : bool :=
  match e with RtpSeqManager_Sync _ => true | _ => false end.

Definition isVirtual (hook : UserHook) (e : Call) : bool :=
  match e, hook with
  | Virtual UserOnTransportConnected_, UserOnTransportConnected_
  | Virtual UserOnTransportDisconnected_, UserOnTransportDisconnected_
  | Virtual UserOnPaused_, UserOnPaused_
  | Virtual UserOnResumed_, UserOnResumed_ => true
  | _, _ => false
  end.

Definition isAccept (e : Call) : bool :=
  match e with RequestAccept _ => true | _ => false end.

(** How many calls of the log satisfy [f]. *)
Definition count (f : Call -> bool) (log : list Call) : nat :=
  length (List.filter f log).

(** ** UdpSocket::Send *)

Module UdpSocket.

(** A send callback object ([onSendCallback*]); [None] is [nullptr]. *)
Definition onSendCallback : Type := nat.

Inductive Call : Type :=
| Invoke (cb : onSendCallback) (sent : bool)   (* the call cb(sent) *)
| Delete (cb : onSendCallback)                 (* delete cb *)
| uv_udp_try_send (len : Z)
| uv_udp_send (len : Z).

Record UdpSocket : Type := mkUdpSocket {
  closed : bool;
  sentBytes : Z;                           (* size_t *)
  (* requests handed to uv_udp_send whose completion is still to come *)
  inFlight : list (option onSendCallback)
}.

Section WithUv.
(** libuv's error code for "try again" (a negative [int]). *)
Variable UV_EAGAIN : Z.

Definition finish (cb : option onSendCallback) (sent : bool) (delete : bool)
  : list Call :=
  match cb with
  | Some f => Invoke f sent :: (if delete then [Delete f] else [])
  | None => []
  end.

(** [Send(data, len, addr, cb)].  [trySent] is what [uv_udp_try_send]
    returns and [sendErr] what [uv_udp_send] returns, when called. *)
Definition Send (len : Z) (cb : option onSendCallback)
           (trySent sendErr : Z) (s : UdpSocket) : UdpSocket * list Call :=
  if closed s then (s, finish cb false false)
  else if len =? 0 then (s, finish cb false false)
  else
    let buffer := uint32 len in            (* uv_buf_init(base, unsigned len) *)
    let sent := trySent in
    (* Entire datagram was sent. Done. *)
    if sent =? to_int32 len then
      (mkUdpSocket (closed s) (uint64 (sentBytes s + sent)) (inFlight s),
       uv_udp_try_send buffer :: finish cb true true)
    else if 0 <=? sent then
      (* datagram truncated *)
      (mkUdpSocket (closed s) (uint64 (sentBytes s + sent)) (inFlight s),
       uv_udp_try_send buffer :: finish cb false true)
    else if negb (sent =? UV_EAGAIN) then
      (s, uv_udp_try_send buffer :: finish cb false true)
    else
      (* UV_EAGAIN: use uv_udp_send() on a copy of the data. *)
      if negb (sendErr =? 0) then
        (s, uv_udp_try_send buffer :: uv_udp_send buffer :: finish cb false true)
      else
        (mkUdpSocket (closed s) (uint64 (sentBytes s + len)) (inFlight s ++ [cb]),
         [uv_udp_try_send buffer; uv_udp_send buffer]).

(** [OnUvSend(status, cb)]. *)
Definition OnUvSend (status : Z) (cb : option onSendCallback) : list Call :=
  if status =? 0 then finish cb true false else finish cb false false.

(** The static completion callback [onSend(req, status)] for the oldest
    request in flight: the socket is only told when it is still open
    ([handle->data] is reset by [Close]); the callback object is deleted
    in any case. *)
Definition onSend (status : Z) (s : UdpSocket) : UdpSocket * list Call :=
  match inFlight s with
  | [] => (s, [])
  | cb :: rest =>
      (mkUdpSocket (closed s) (sentBytes s) rest,
       (if closed s then [] else OnUvSend status cb)
       ++ match cb with Some f => [Delete f] | None => [] end)
  end.
End WithUv.

(** The callback invocations of a log, in order: which callback, told what. *)
Definition reported (log : list Call) : list (onSendCallback * bool) :=
  omap (fun e => match e with Invoke f b => Some (f, b) | _ => None end) log.

End UdpSocket.

(** ** A concrete worker around the Consumer

    The properties below hold for every send stream and every environment.
    To run the code on concrete inputs, one stream and one environment are
    fixed here. *)

Module SendStream.

(** Modelled from the spec: the class [RTC::RtpStreamSend] (component 4.B,
    the send-side RTP stream), known here through the calls the Consumer
    makes on it.  It owns a bounded retransmission buffer indexed by
    sequence number modulo the buffer size, per-stream counters and a pause
    bit; [ReceivePacket] returns false for a duplicate already in the
    buffer; [ReceiveNack] hands back each requested packet it finds;
    [GetRtcpSenderReport] returns null if no packet has been sent since
    startup; [GetRtcpSdesChunk] carries the CNAME. *)
Record t : Type := mk {
  streamSsrc : Z;
  cname : string;
  bufferSize : Z;                 (* 600 when NACK is negotiated, else 0 *)
  buffer : gmap Z RtpPacket;
  packetCount : Z;
  octetCount : Z;
  streamPaused : bool;
  rtx : option (Z * Z);           (* SetRtx(payloadType, ssrc) *)
  score : Z;
  fractionLost : Z
}.

Definition stored (p : RtpPacket) (s : t) : bool :=
  if bufferSize s =? 0 then false
  else
    match buffer s !! (sequenceNumber p mod bufferSize s) with
    | Some q => sequenceNumber q =? sequenceNumber p
    | None => false
    end.

Definition ReceivePacket (p : RtpPacket) (s : t) : bool * t :=
  if stored p s then (false, s)
  else
    (true,
     mk (streamSsrc s) (cname s) (bufferSize s)
        (if bufferSize s =? 0 then buffer s
         else <[sequenceNumber p mod bufferSize s := p]> (buffer s))
        (packetCount s + 1) (octetCount s + payloadLength p)
        (streamPaused s) (rtx s) (score s) (fractionLost s)).

Definition find (s : t) (seq : Z) : option RtpPacket :=
  if bufferSize s =? 0 then None
  else
    match buffer s !! (seq mod bufferSize s) with
    | Some q => if sequenceNumber q =? seq then Some q else None
    | None => None
    end.

Definition ReceiveNack (nackPacket : FeedbackRtpNackPacket) (s : t) : list RtpPacket * t :=
  (omap (find s) nackPacket, s).

Definition GetRtcpSenderReport (nowMs : Z) (s : t) : option SenderReport * t :=
  if packetCount s =? 0 then (None, s)
  else (Some (mkSenderReport (streamSsrc s) (packetCount s) (octetCount s) nowMs), s).

Definition Pause (s : t) : t :=
  mk (streamSsrc s) (cname s) (bufferSize s) (buffer s) (packetCount s)
     (octetCount s) true (rtx s) (score s) (fractionLost s).

#[global] Instance ops : RtpStreamSend.Ops t := {|
  RtpStreamSend.ReceivePacket := ReceivePacket;
  RtpStreamSend.ReceiveNack := ReceiveNack;
  RtpStreamSend.ReceiveKeyFrameRequest := fun _ s => s;
  RtpStreamSend.GetRtcpSenderReport := GetRtcpSenderReport;
  RtpStreamSend.GetRtcpSdesChunk := fun s => mkSdesChunk (streamSsrc s) (cname s);
  RtpStreamSend.GetFractionLost := fractionLost;
  RtpStreamSend.GetBitrate := fun _ _ => 0;
  RtpStreamSend.GetScore := score;
  RtpStreamSend.HasRtx := fun s => bool_decide (is_Some (rtx s));
  RtpStreamSend.Pause := Pause
|}.

Definition create (ssrc : Z) (name : string) (size : Z) : t :=
  mk ssrc name size ∅ 0 0 false None 10 0.

End SendStream.

Module Scenario.

#[global] Instance environment : Environment := {|
  GetTimeMs := 0;
  RtpPacket_FillJson := fun p =>
    JObject [("payloadType", JNumber (payloadType p));
             ("sequenceNumber", JNumber (sequenceNumber p));
             ("timestamp", JNumber (timestamp p));
             ("ssrc", JNumber (ssrc p))];
  listener_SendRtpPacket := fun p => p;
  ProducerStream_GetScore := fun _ => 10
|}.

(** The comma-joined [packetEventTypes] of [Consumer::FillJson]. *)
Definition packetEventTypesString (t : PacketEventTypes) : string :=
  let names :=
    (if rtp t then ["rtp"] else []) ++ (if nack t then ["nack"] else [])
    ++ (if pli t then ["pli"] else []) ++ (if fir t then ["fir"] else []) in
  String.concat "," names.

#[global] Instance serialization : Serialization SendStream.t := {|
  FillJson := fun c =>
    JObject [("id", JString (id c));
             ("paused", JBool (paused c));
             ("producerPaused", JBool (producerPaused c));
             ("packetEventTypes", JString (packetEventTypesString (packetEventTypes c)))];
  FillJsonStats := fun c =>
    JArray [JObject [("packetCount", JNumber (SendStream.packetCount (rtpStream c)))]]
|}.

(** Scenario S1: one encoding, outgoing SSRC 1111, payload type 100, fed
    from SSRC 2222; [maxRtcpInterval] as for audio. *)
Definition created (k : MediaKind) (keyFrames : bool) : Consumer SendStream.t :=
  mkConsumer "consumer" k [mkEncoding 1111 false 0] [mkEncoding 2222 false 0]
    {[ 100 ]} PacketEventTypes_default 5000 0
    false false false false
    (SendStream.create 1111 "cname" 600) None keyFrames false SeqManager_init.

Definition start : list Event := [EvProducerRtpStream 7; EvTransportConnected].

Definition audio : Consumer SendStream.t := after (run start (created AUDIO false)).
Definition video : Consumer SendStream.t := after (run start (created VIDEO true)).

Definition media (seq : Z) (keyFrame : bool) : RtpPacket :=
  mkRtpPacket 2222 seq 90000 100 keyFrame 160.

Definition types (items : list Json) : Request :=
  mkRequest CONSUMER_ENABLE_PACKET_EVENT "consumer.enablePacketEvent"
    (JObject [("types", JArray items)]).

Definition pause : Request := mkRequest CONSUMER_PAUSE "consumer.pause" JNull.
Definition resume : Request := mkRequest CONSUMER_RESUME "consumer.resume" JNull.

End Scenario.

(** ** Vocabulary of the statements about ENABLE_PACKET_EVENT *)

(** The request data is malformed: [types] is missing, is not an array, or
    holds an element that is not a string. *)
Definition typesMalformed (data : Json) : Prop :=
  match json_find "types" data with
  | Some (JArray items) => exists j, In j items /\ is_string j = false
  | _ => True
  end.

(** The string [name] occurs in the [types] array of the request data. *)
Definition typeRequested (name : string) (data : Json) : bool :=
  match json_find "types" data with
  | Some (JArray items) =>
      existsb (fun j => match j with
                        | JString typeStr => String.eqb typeStr name
                        | _ => false
                        end) items
  | _ => false
  end.

(** ** UdpSocket: the handle's life and the receive path *)

Module UdpHandle.

Inductive Call : Type :=
| uv_udp_recv_start
| uv_udp_recv_stop
| uv_udp_getsockname
| uv_close
| UserOnUdpDatagramReceived (len : Z).

(** [SetLocalAddress()]: [err] is what [uv_udp_getsockname] returns. *)
Definition SetLocalAddress (err : Z) : bool * list Call :=
  if negb (err =? 0) then (false, [uv_udp_getsockname])
  else (true, [uv_udp_getsockname]).

Section WithErrorStrings.
(** libuv's [uv_strerror(err)]. *)
Variable uv_strerror : Z -> string.

(** The constructor [UdpSocket(uvHandle)].  [recvStartErr] is what
    [uv_udp_recv_start] returns, [getsocknameErr] what [uv_udp_getsockname]
    returns when called.  A new socket is open and has sent nothing. *)
Definition create (recvStartErr getsocknameErr : Z)
  : Outcome UdpSocket.UdpSocket * list Call :=
  if negb (recvStartErr =? 0) then
    (Thrown (GenericError (String.append "uv_udp_recv_start() failed: "
                                         (uv_strerror recvStartErr))),
     [uv_udp_recv_start; uv_close])
  else
    let r := SetLocalAddress getsocknameErr in
    if negb r.1 then
      (Thrown (GenericError "error setting local IP and port"),
       uv_udp_recv_start :: r.2 ++ [uv_close])
    else (Done (UdpSocket.mkUdpSocket false 0 []), uv_udp_recv_start :: r.2).

(** [Close()].  [recvStopErr] is what [uv_udp_recv_stop] returns. *)
Definition Close (recvStopErr : Z) (s : UdpSocket.UdpSocket)
  : Outcome UdpSocket.UdpSocket * list Call :=
  if UdpSocket.closed s then (Done s, [])
  else
    let s := UdpSocket.mkUdpSocket true (UdpSocket.sentBytes s) (UdpSocket.inFlight s) in
    if negb (recvStopErr =? 0) then
      (Aborted (String.append "uv_udp_recv_stop() failed: " (uv_strerror recvStopErr)),
       [uv_udp_recv_stop])
    else (Done s, [uv_udp_recv_stop; uv_close]).

(** The destructor. *)
Definition destroy (recvStopErr : Z) (s : UdpSocket.UdpSocket)
  : Outcome UdpSocket.UdpSocket * list Call :=
  if negb (UdpSocket.closed s) then Close recvStopErr s else (Done s, []).
End WithErrorStrings.

(** [OnUvRecv(nread, buf, addr, flags)] on the counter [recvBytes]
    ([size_t]).  [UV_UDP_PARTIAL] is libuv's flag bit for a datagram cut
    short by the receive buffer. *)
Definition OnUvRecv (UV_UDP_PARTIAL : Z) (nread flags : Z) (recvBytes : Z)
  : Z * list Call :=
  if nread =? 0 then (recvBytes, [])
  else if negb (Z.land flags UV_UDP_PARTIAL =? 0) then (recvBytes, [])
  else if 0 <? nread then
    (uint64 (recvBytes + nread), [UserOnUdpDatagramReceived nread])
  else (recvBytes, []).

(** Receive callbacks one after the other, each with its [(nread, flags)]. *)
Fixpoint receiveAll (UV_UDP_PARTIAL : Z) (reads : list (Z * Z)) (recvBytes : Z)
  : Z * list Call :=
  match reads with
  | [] => (recvBytes, [])
  | (nread, flags) :: rest =>
      let r := OnUvRecv UV_UDP_PARTIAL nread flags recvBytes in
      let r' := receiveAll UV_UDP_PARTIAL rest r.1 in
      (r'.1, r.2 ++ r'.2)
  end.

(** The lengths of the datagrams handed to the subclass. *)
Definition delivered (log : list Call) : list Z :=
  omap (fun e => match e with UserOnUdpDatagramReceived n => Some n | _ => None end) log.

Definition closes (log : list Call) : nat :=
  length (List.filter (fun e => match e with uv_close => true | _ => false end) log).

End UdpHandle.

(** What a log of [Send] does with one callback object. *)
Definition udpInvokes (f : UdpSocket.onSendCallback) (log : list UdpSocket.Call) : nat :=
  length (List.filter (fun e => match e with
                                | UdpSocket.Invoke g _ => Nat.eqb g f
                                | _ => false
                                end) log).

Definition udpDeletes (f : UdpSocket.onSendCallback) (log : list UdpSocket.Call) : nat :=
  length (List.filter (fun e => match e with
                                | UdpSocket.Delete g => Nat.eqb g f
                                | _ => false
                                end) log).

Definition udpTouchesUv (log : list UdpSocket.Call) : bool :=
  existsb (fun e => match e with
                    | UdpSocket.uv_udp_try_send _ | UdpSocket.uv_udp_send _ => true
                    | _ => false
                    end) log.

(** ** SimpleConsumer: further methods *)

Section MoreMethods.
Context {S : Type} `{!RtpStreamSend.Ops S} `{!Environment} `{!Serialization S}.

(** [NeedWorstRemoteFractionLost(mappedSsrc, worstRemoteFractionLost)]: the
    [uint8_t&] argument goes in and comes out. *)
Definition NeedWorstRemoteFractionLost (worstRemoteFractionLost : Z) : @M S Z :=
  let* active := gets IsActive in
  if negb active then ret worstRemoteFractionLost
  else
    let* stream := gets rtpStream in
    let fractionLost := RtpStreamSend.GetFractionLost stream in
    (* If our fraction lost is worse than the given one, update it. *)
    if worstRemoteFractionLost <? fractionLost then ret fractionLost
    else ret worstRemoteFractionLost.

Definition GetTransmissionRate (nowMs : Z) : @M S Z :=
  let* active := gets IsActive in
  if negb active then ret 0
  else
    let* stream := gets rtpStream in
    ret (RtpStreamSend.GetBitrate nowMs stream).

Definition ProducerRtpStreamScore : @M S unit := EmitScore.

Definition ProducerRtcpSenderReport : @M S unit := ret tt.
End MoreMethods.

(** ** Vocabulary of the further statements *)

(** The packets handed to the listener's retransmission callback. *)
Definition retransmitted (log : list Call) : list RtpPacket :=
  omap (fun e => match e with OnConsumerRetransmitRtpPacket p => Some p | _ => None end) log.

(** The SSRCs for which the listener was asked for a key frame. *)
Definition keyFrameRequests (log : list Call) : list Z :=
  omap (fun e => match e with OnConsumerKeyFrameRequested s => Some s | _ => None end) log.

(** The [type] fields of the 'packet' notifications of a log. *)
Definition packetEvents (log : list Call) : list (option Json) :=
  omap (fun e => match e with
                 | NotifierEmit _ "packet" (Some data) => Some (json_find "type" data)
                 | _ => None
                 end) log.

(** The flag of [packetEventTypes] that a [type] field names. *)
Definition packetEventEnabled (t : PacketEventTypes) (type : option Json) : bool :=
  match type with
  | Some (JString "rtp") => rtp t
  | Some (JString "nack") => nack t
  | Some (JString "pli") => pli t
  | Some (JString "fir") => fir t
  | _ => false
  end.

Definition isResumeRequest (e : Event) : bool :=
  match e with
  | EvRequest request =>
      match methodId request with CONSUMER_RESUME => true | _ => false end
  | _ => false
  end.

Definition isStreamKeyFrameRequest (e : Call) : bool :=
  match e with RtpStream_ReceiveKeyFrameRequest _ => true | _ => false end.

Definition isPacketEvent (e : Call) : bool :=
  match e with NotifierEmit _ "packet" _ => true | _ => false end.

(** The payload of an 'rtp' packet event, as [EmitPacketEventRtpType]
    builds it. *)
Definition rtpEventData `{!Environment} (packet : RtpPacket) (isRtx : bool) : Json :=
  JObject [("type", JString "rtp");
           ("timestamp", JNumber GetTimeMs);
           ("direction", JString "out");
           ("info", if isRtx
                    then json_set "isRtx" (JBool true) (RtpPacket_FillJson packet)
                    else RtpPacket_FillJson packet)].

(** What the retransmission of one packet logs. *)
Definition retransmissionLog {S : Type} `{!RtpStreamSend.Ops S} `{!Environment}
           (c : Consumer S) (packet : RtpPacket) : list Call :=
  OnConsumerRetransmitRtpPacket packet
  :: (if rtp (packetEventTypes c)
      then [NotifierEmit (id c) "packet"
              (Some (rtpEventData packet (RtpStreamSend.HasRtx (rtpStream c))))]
      else []).

Arguments retransmissionLog : simpl never.
Arguments rtpEventData : simpl never.

Definition isVideo (k : MediaKind) : bool :=
  match k with VIDEO => true | _ => false end.

(** The packet event type that a key frame request may surface. *)
Definition keyFrameEventEnabled (t : PacketEventTypes) (m : FeedbackPsMessageType) : bool :=
  match m with PLI => pli t | FIR => fir t | OtherPs => false end.

(** The value [NeedWorstRemoteFractionLost] leaves in its reference
    argument. *)
Definition worstAfter {S : Type} `{!RtpStreamSend.Ops S} (c : Consumer S) (worst : Z) : Z :=
  match outcome (NeedWorstRemoteFractionLost worst c) with
  | Done v => v
  | _ => worst
  end.

(** ** Consumer::FillJson: the [packetEventTypes] entry *)

(** The vector [packetEventTypes] that [FillJson] fills with
    [emplace_back]. *)
Definition packetEventTypesVector (t : PacketEventTypes) : list string :=
  (if rtp t then ["rtp"] else [])
  ++ (if nack t then ["nack"] else [])
  ++ (if pli t then ["pli"] else [])
  ++ (if fir t then ["fir"] else []).

(** [std::copy(first, last, std::ostream_iterator<std::string>(stream, delim))]:
    every element is written and followed by the delimiter. *)
Fixpoint ostreamCopy (items : list string) (delim : string) : string :=
  match items with
  | [] => ""
  | item :: rest => String.append item (String.append delim (ostreamCopy rest delim))
  end.

(** The string stored under ["packetEventTypes"]: all elements but the last
    are copied with a comma after each, then the last one is written. *)
Definition packetEventTypesDump (t : PacketEventTypes) : string :=
  let v := packetEventTypesVector t in
  match v with
  | [] => ""
  | _ :: _ => String.append (ostreamCopy (removelast v) ",") (List.last v "")
  end.

(** ** Construction of a Consumer *)

(** The RTP description types, as far as the constructors read them. *)
Module RtpHeaderExtensionUri.
Inductive Type_ : Type :=
| UNKNOWN
| MID
| RTP_STREAM_ID
| REPAIRED_RTP_STREAM_ID
| ABS_SEND_TIME
| TRANSPORT_WIDE_CC_01
| SSRC_AUDIO_LEVEL
| VIDEO_ORIENTATION.

Definition eqb (a b : Type_) : bool :=
  match a, b with
  | UNKNOWN, UNKNOWN | MID, MID | RTP_STREAM_ID, RTP_STREAM_ID
  | REPAIRED_RTP_STREAM_ID, REPAIRED_RTP_STREAM_ID | ABS_SEND_TIME, ABS_SEND_TIME
  | TRANSPORT_WIDE_CC_01, TRANSPORT_WIDE_CC_01 | SSRC_AUDIO_LEVEL, SSRC_AUDIO_LEVEL
  | VIDEO_ORIENTATION, VIDEO_ORIENTATION => true
  | _, _ => false
  end.
End RtpHeaderExtensionUri.

Module RtpHeaderExtensionParameters.
Record t : Type := mk {
  type : RtpHeaderExtensionUri.Type_;
  id : Z                                (* uint8_t *)
}.
End RtpHeaderExtensionParameters.

Module RtcpFeedback.
Record t : Type := mk {
  type : string;
  parameter : string
}.
End RtcpFeedback.

(** A value of [RTC::Parameters]. *)
Inductive ParameterValue : Type :=
| PBoolean (b : bool)
| PInteger (n : Z)
| PDouble
| PString (s : string)
| PArrayOfIntegers (l : list Z).

Module RtpCodecParameters.
Record t : Type := mk {
  mimeType : string;
  payloadType : Z;                      (* uint8_t *)
  clockRate : Z;
  parameters : gmap string ParameterValue;
  rtcpFeedback : list RtcpFeedback.t
}.

(** [parameters.HasInteger(key)] and [parameters.GetInteger(key)]. *)
Definition HasInteger (key : string) (c : t) : bool :=
  match parameters c !! key with Some (PInteger _) => true | _ => false end.

Definition GetInteger (key : string) (c : t) : Z :=
  match parameters c !! key with Some (PInteger n) => n | _ => 0 end.
End RtpCodecParameters.

Module RtpParameters.
Record t : Type := mk {
  codecs : list RtpCodecParameters.t;
  encodings : list RtpEncodingParameters;
  headerExtensions : list RtpHeaderExtensionParameters.t;
  cname : string                         (* rtcp.cname *)
}.
End RtpParameters.

Module RtpHeaderExtensionIds.
Record t : Type := mk {
  ssrcAudioLevel : Z;
  videoOrientation : Z;
  absSendTime : Z;
  transportWideCc01 : Z;
  mid : Z;
  rid : Z;
  rrid : Z
}.

(** Every id starts unassigned. *)
Definition unassigned : t := mk 0 0 0 0 0 0 0.
End RtpHeaderExtensionIds.

(** What lives in headers and in other translation units: parsers that may
    throw, two predicates on MIME types, the two RTCP interval constants and
    the value [paused] starts with. *)
Class Declarations : Type := {
  GetKind : string -> Outcome MediaKind;                      (* RTC::Media::GetKind *)
  RtpParameters_parse : Json -> Outcome RtpParameters.t;      (* RtpParameters(json) *)
  RtpEncodingParameters_parse : Json -> Outcome RtpEncodingParameters;
  IsMediaCodec : string -> bool;                              (* mimeType.IsMediaCodec() *)
  MaxAudioIntervalMs : Z;
  MaxVideoIntervalMs : Z;
  pausedInitially : bool
}.

(** The members the constructor of [RTC::Consumer] fills. *)
Module Constructed.
Record t : Type := mk {
  kind : MediaKind;
  rtpParameters : RtpParameters.t;
  consumableRtpEncodings : list RtpEncodingParameters;
  rtpHeaderExtensionIds : RtpHeaderExtensionIds.t;
  paused : bool;
  supportedCodecPayloadTypes : gset Z;
  mediaSsrcs : list Z;
  rtxSsrcs : list Z;
  maxRtcpInterval : Z
}.
End Constructed.

(** Sequencing of code that may throw. *)
Definition andThen {A B} (r : Outcome A) (k : A -> Outcome B) : Outcome B :=
  match r with
  | Done a => k a
  | Thrown e => Thrown e
  | Aborted msg => Aborted msg
  end.

Section Construction.
Context `{!Declarations}.

(** [for (auto& encoding : this->rtpParameters.encodings)]: all encodings
    must have SSRCs. *)
Fixpoint checkEncodings (encodings : list RtpEncodingParameters) : Outcome unit :=
  match encodings with
  | [] => Done tt
  | encoding :: rest =>
      if encSsrc encoding =? 0 then
        Thrown (TypeError "invalid encoding in rtpParameters (missing ssrc)")
      else if hasRtx encoding && (rtxSsrc encoding =? 0) then
        Thrown (TypeError "invalid encoding in rtpParameters (missing rtx.ssrc)")
      else checkEncodings rest
  end.

(** The loop over the entries of [consumableRtpEncodings]; [done] holds the
    encodings placed so far. *)
Fixpoint readConsumableRtpEncodings (entries : list Json)
         (done : list RtpEncodingParameters) : Outcome (list RtpEncodingParameters) :=
  match entries with
  | [] => Done done
  | entry :: rest =>
      (* This may throw due the constructor of RTC::RtpEncodingParameters. *)
      andThen (RtpEncodingParameters_parse entry) (fun encoding =>
        (* Verify that it has ssrc field. *)
        if encSsrc encoding =? 0 then
          Thrown (TypeError "wrong encoding in consumableRtpEncodings (missing ssrc)")
        else readConsumableRtpEncodings rest (done ++ [encoding]))
  end.

(** One round of the loop that fills the RTP header extension ids. *)
Definition fillHeaderExtensionId (exten : RtpHeaderExtensionParameters.t)
           (ids : RtpHeaderExtensionIds.t) : RtpHeaderExtensionIds.t :=
  let typeIs u := RtpHeaderExtensionUri.eqb (RtpHeaderExtensionParameters.type exten) u in
  let id := RtpHeaderExtensionParameters.id exten in
  let pick (current : Z) (u : RtpHeaderExtensionUri.Type_) : Z :=
    if (current =? 0) && typeIs u then id else current in
  RtpHeaderExtensionIds.mk
    (pick (RtpHeaderExtensionIds.ssrcAudioLevel ids) RtpHeaderExtensionUri.SSRC_AUDIO_LEVEL)
    (pick (RtpHeaderExtensionIds.videoOrientation ids) RtpHeaderExtensionUri.VIDEO_ORIENTATION)
    (pick (RtpHeaderExtensionIds.absSendTime ids) RtpHeaderExtensionUri.ABS_SEND_TIME)
    (pick (RtpHeaderExtensionIds.transportWideCc01 ids)
          RtpHeaderExtensionUri.TRANSPORT_WIDE_CC_01)
    (pick (RtpHeaderExtensionIds.mid ids) RtpHeaderExtensionUri.MID)
    (pick (RtpHeaderExtensionIds.rid ids) RtpHeaderExtensionUri.RTP_STREAM_ID)
    (pick (RtpHeaderExtensionIds.rrid ids) RtpHeaderExtensionUri.REPAIRED_RTP_STREAM_ID).

Fixpoint fillHeaderExtensionIds (extens : list RtpHeaderExtensionParameters.t)
         (ids : RtpHeaderExtensionIds.t) : Outcome RtpHeaderExtensionIds.t :=
  match extens with
  | [] => Done ids
  | exten :: rest =>
      if RtpHeaderExtensionParameters.id exten =? 0 then
        Thrown (TypeError "RTP extension id cannot be 0")
      else fillHeaderExtensionIds rest (fillHeaderExtensionId exten ids)
  end.

(** Fill supported codec payload types. *)
Fixpoint fillSupportedCodecPayloadTypes (codecs : list RtpCodecParameters.t)
         (supported : gset Z) : gset Z :=
  match codecs with
  | [] => supported
  | codec :: rest =>
      fillSupportedCodecPayloadTypes rest
        (if IsMediaCodec (RtpCodecParameters.mimeType codec)
         then {[ RtpCodecParameters.payloadType codec ]} ∪ supported
         else supported)
  end.

(** Fill media SSRCs vector. *)
Fixpoint fillMediaSsrcs (encodings : list RtpEncodingParameters) (v : list Z) : list Z :=
  match encodings with
  | [] => v
  | encoding :: rest => fillMediaSsrcs rest (v ++ [encSsrc encoding])
  end.

(** Fill RTX SSRCs vector. *)
Fixpoint fillRtxSsrcs (encodings : list RtpEncodingParameters) (v : list Z) : list Z :=
  match encodings with
  | [] => v
  | encoding :: rest =>
      fillRtxSsrcs rest (if hasRtx encoding then v ++ [rtxSsrc encoding] else v)
  end.

(** [Consumer::Consumer(id, listener, data, type)], on the JSON [data]. *)
Definition Consumer_construct (data : Json) : Outcome Constructed.t :=
  match json_find "kind" data with
  | Some (JString kindName) =>
      (* This may throw. *)
      andThen (GetKind kindName) (fun kind =>
      match kind with
      | ALL => Thrown (TypeError "invalid empty kind")
      | _ =>
          match json_find "rtpParameters" data with
          | Some (JObject members) =>
              (* This may throw. *)
              andThen (RtpParameters_parse (JObject members)) (fun rtpParameters =>
              match RtpParameters.encodings rtpParameters with
              | [] => Thrown (TypeError "empty rtpParameters.encodings")
              | _ :: _ =>
                  andThen (checkEncodings (RtpParameters.encodings rtpParameters)) (fun _ =>
                  match json_find "consumableRtpEncodings" data with
                  | Some (JArray []) => Thrown (TypeError "empty consumableRtpEncodings")
                  | Some (JArray entries) =>
                      andThen (readConsumableRtpEncodings entries []) (fun consumable =>
                      andThen (fillHeaderExtensionIds
                                 (RtpParameters.headerExtensions rtpParameters)
                                 RtpHeaderExtensionIds.unassigned) (fun ids =>
                      let paused :=
                        match json_find "paused" data with
                        | Some (JBool b) => b
                        | _ => pausedInitially
                        end in
                      Done (Constructed.mk kind rtpParameters consumable ids paused
                              (fillSupportedCodecPayloadTypes
                                 (RtpParameters.codecs rtpParameters) ∅)
                              (fillMediaSsrcs (RtpParameters.encodings rtpParameters) [])
                              (fillRtxSsrcs (RtpParameters.encodings rtpParameters) [])
                              (* Set the RTCP report generation interval. *)
                              (match kind with
                               | AUDIO => MaxAudioIntervalMs
                               | _ => MaxVideoIntervalMs
                               end))))
                  | _ => Thrown (TypeError "missing consumableRtpEncodings")
                  end)
              end)
          | _ => Thrown (TypeError "missing rtpParameters")
          end
      end)
  | _ => Thrown (TypeError "missing kind")
  end.
End Construction.

(** ** SimpleConsumer::CreateRtpStream *)

Module RtpStreamParams.
(** [RTC::RtpStream::Params]; the flags start false. *)
Record t : Type := mk {
  ssrc : Z;
  payloadType : Z;
  mimeType : string;
  clockRate : Z;
  cname : string;
  useInBandFec : bool;
  useDtx : bool;
  useNack : bool;
  usePli : bool;
  useFir : bool
}.
End RtpStreamParams.

(** One round of [for (auto& fb : mediaCodec->rtcpFeedback)], on the three
    flags [(useNack, usePli, useFir)]. *)
Definition feedbackRound (fb : RtcpFeedback.t) (flags : bool * bool * bool)
  : bool * bool * bool :=
  let '(useNack, usePli, useFir) := flags in
  if negb useNack && String.eqb (RtcpFeedback.type fb) "nack"
     && String.eqb (RtcpFeedback.parameter fb) "" then (true, usePli, useFir)
  else if negb usePli && String.eqb (RtcpFeedback.type fb) "nack"
          && String.eqb (RtcpFeedback.parameter fb) "pli" then (useNack, true, useFir)
  else if negb useFir && String.eqb (RtcpFeedback.type fb) "ccm"
          && String.eqb (RtcpFeedback.parameter fb) "fir" then (useNack, usePli, true)
  else flags.

(** What [CreateRtpStream] asks for: the parameters and the buffer size
    given to [new RtpStreamSend], whether [Pause()] is called on the new
    stream, and the arguments of [SetRtx] if it is called. *)
Record StreamSetup : Type := mkStreamSetup {
  params : RtpStreamParams.t;
  bufferSize : Z;
  pausedAtStart : bool;
  rtxSetup : option (Z * Z)            (* (payloadType, ssrc) *)
}.

(** [CreateRtpStream()].  [encoding] is [rtpParameters.encodings[0]] and
    [encodingDtx] its member [dtx]; [mediaCodec] and [rtxCodec] are what
    [GetCodecForEncoding] and [GetRtxCodecForEncoding] return (the latter
    may be null); [isPaused] and [isProducerPaused] are the two getters. *)
Definition CreateRtpStream (encoding : RtpEncodingParameters) (encodingDtx : bool)
           (mediaCodec : RtpCodecParameters.t) (rtxCodec : option RtpCodecParameters.t)
           (cname : string) (isPaused isProducerPaused : bool) : StreamSetup :=
  (* Check in band FEC in codec parameters. *)
  let useInBandFec :=
    RtpCodecParameters.HasInteger "useinbandfec" mediaCodec
    && (RtpCodecParameters.GetInteger "useinbandfec" mediaCodec =? 1) in
  (* Check DTX in codec parameters. *)
  let useDtx :=
    RtpCodecParameters.HasInteger "usedtx" mediaCodec
    && (RtpCodecParameters.GetInteger "usedtx" mediaCodec =? 1) in
  (* Check DTX in the encoding. *)
  let useDtx := if encodingDtx then true else useDtx in
  let '(useNack, usePli, useFir) :=
    fold_left (fun flags fb => feedbackRound fb flags)
      (RtpCodecParameters.rtcpFeedback mediaCodec) (false, false, false) in
  (* Create a RtpStreamSend for sending a single media stream. *)
  let bufferSize := if useNack then 600 else 0 in
  mkStreamSetup
    (RtpStreamParams.mk (encSsrc encoding) (RtpCodecParameters.payloadType mediaCodec)
       (RtpCodecParameters.mimeType mediaCodec) (RtpCodecParameters.clockRate mediaCodec)
       cname useInBandFec useDtx useNack usePli useFir)
    bufferSize
    (* If the Consumer is paused, tell the RtpStreamSend. *)
    (isPaused || isProducerPaused)
    match rtxCodec with
    | Some codec =>
        if hasRtx encoding
        then Some (RtpCodecParameters.payloadType codec, rtxSsrc encoding)
        else None
    | None => None
    end.

(** A feedback entry of a codec. *)
Definition feedbackIs (type parameter : string) (fb : RtcpFeedback.t) : bool :=
  String.eqb (RtcpFeedback.type fb) type && String.eqb (RtcpFeedback.parameter fb) parameter.

(** The id of the first header extension of a type, 0 if there is none. *)
Definition firstExtensionId (u : RtpHeaderExtensionUri.Type_)
           (extens : list RtpHeaderExtensionParameters.t) : Z :=
  match List.find (fun e => RtpHeaderExtensionUri.eqb (RtpHeaderExtensionParameters.type e) u)
                  extens with
  | Some e => RtpHeaderExtensionParameters.id e
  | None => 0
  end.

(** The value a loop round leaves in one id: the first id seen wins. *)
Definition firstWins (u : RtpHeaderExtensionUri.Type_)
           (extens : list RtpHeaderExtensionParameters.t) (current : Z) : Z :=
  if current =? 0 then firstExtensionId u extens else current.


(** A concrete reading of the declarations, to run the constructor on: two
    kinds are known, an encoding is read from its [ssrc] and [rtx.ssrc]
    members, and the parameters have an Opus codec with its RTX codec and
    three header extensions, two of them of the same type. *)
Module ConstructionScenario.

Definition readEncoding (j : Json) : RtpEncodingParameters :=
  let ssrc := match json_find "ssrc" j with Some (JNumber n) => n | _ => 0 end in
  match json_find "rtx" j with
  | Some rtx =>
      mkEncoding ssrc true
        (match json_find "ssrc" rtx with Some (JNumber n) => n | _ => 0 end)
  | None => mkEncoding ssrc false 0
  end.

Definition opus : RtpCodecParameters.t :=
  RtpCodecParameters.mk "audio/opus" 100 48000
    {[ "useinbandfec" := PInteger 1; "usedtx" := PInteger 0 ]}
    [RtcpFeedback.mk "nack" ""; RtcpFeedback.mk "transport-cc" ""].

Definition rtx : RtpCodecParameters.t :=
  RtpCodecParameters.mk "audio/rtx" 101 48000 {[ "apt" := PInteger 100 ]} [].

Definition vp8 : RtpCodecParameters.t :=
  RtpCodecParameters.mk "video/VP8" 96 90000 ∅
    [RtcpFeedback.mk "nack" ""; RtcpFeedback.mk "nack" "pli"; RtcpFeedback.mk "ccm" "fir"].

#[global] Instance declarations : Declarations := {|
  GetKind := fun name =>
    if String.eqb name "audio" then Done AUDIO
    else if String.eqb name "video" then Done VIDEO
    else Thrown (TypeError "invalid media kind");
  RtpParameters_parse := fun j =>
    Done (RtpParameters.mk [opus; rtx]
            (match json_find "encodings" j with
             | Some (JArray items) => map readEncoding items
             | _ => []
             end)
            [RtpHeaderExtensionParameters.mk RtpHeaderExtensionUri.MID 1;
             RtpHeaderExtensionParameters.mk RtpHeaderExtensionUri.ABS_SEND_TIME 4;
             RtpHeaderExtensionParameters.mk RtpHeaderExtensionUri.MID 9]
            "cname");
  RtpEncodingParameters_parse := fun j => Done (readEncoding j);
  IsMediaCodec := fun mimeType => negb (String.eqb mimeType "audio/rtx");
  MaxAudioIntervalMs := 5000;
  MaxVideoIntervalMs := 1000;
  pausedInitially := false
|}.

Definition encodingJson (ssrc rtxSsrc : Z) : Json :=
  JObject [("ssrc", JNumber ssrc); ("rtx", JObject [("ssrc", JNumber rtxSsrc)])].

Definition data : Json :=
  JObject [("kind", JString "audio");
           ("rtpParameters", JObject [("encodings", JArray [encodingJson 1111 1112])]);
           ("consumableRtpEncodings", JArray [JObject [("ssrc", JNumber 2222)]]);
           ("paused", JBool true)].

Definition constructed : Constructed.t :=
  Constructed.mk AUDIO
    (RtpParameters.mk [opus; rtx] [mkEncoding 1111 true 1112]
       [RtpHeaderExtensionParameters.mk RtpHeaderExtensionUri.MID 1;
        RtpHeaderExtensionParameters.mk RtpHeaderExtensionUri.ABS_SEND_TIME 4;
        RtpHeaderExtensionParameters.mk RtpHeaderExtensionUri.MID 9]
       "cname")
    [mkEncoding 2222 false 0]
    (RtpHeaderExtensionIds.mk 0 0 4 0 1 0 0)
    true
    (fillSupportedCodecPayloadTypes [opus; rtx] ∅)
    [1111] [1112] 5000.

End ConstructionScenario.

(** ** Proof automation *)

(** Symbolic execution of a method: unfold the monad and the helpers the
    method calls, then split on the tests that remain. *)
Ltac unfold_M :=
  unfold bind, gets, modify, call, ret, throw, abort, catch, outcome, after, calls.

Ltac exec :=
  cbv beta delta
    [SendRtpPacket GetRtcp ReceiveNack ReceiveKeyFrameRequest
     EmitPacketEventRtpType EmitPacketEventNackType EmitPacketEventPliType
     EmitPacketEventFirType RequestKeyFrame dispatch
     UserOnPaused UserOnResumed UserOnTransportConnected UserOnTransportDisconnected
     rtpStream_ReceivePacket rtpStream_Pause rtpStream_ReceiveKeyFrameRequest
     rtpStream_GetRtcpSenderReport rtpStream_GetRtcpSdesChunk
     rtpSeqManager_Sync rtpSeqManager_Input
     bind gets modify call ret throw abort catch outcome after calls];
  cbn.

Ltac split_test :=
  match goal with
  | |- context [if ?b then _ else _] =>
      lazymatch b with
      | context [if _ then _ else _] => fail
      | _ => let E := fresh "E" in destruct b eqn:E; cbn
      end
  | |- context [match ?k with ALL => _ | AUDIO => _ | VIDEO => _ end] =>
      let E := fresh "E" in destruct k eqn:E; cbn
  end.

Ltac split_option :=
  match goal with
  | |- context [match ?o with Some _ => _ | None => _ end] =>
      let E := fresh "E" in destruct o eqn:E; cbn
  end.

Ltac exec_all :=
  cbv beta delta
    [step deliverRequest SimpleConsumer_HandleRequest Consumer_HandleRequest
     TransportConnected TransportDisconnected
     ProducerPaused ProducerResumed ProducerClosed
     ProducerRtpStream ProducerNewRtpStream EmitScore FillJsonScore
     rtpStream_ReceiveNack];
  exec.

Ltac exec_more :=
  cbv beta delta [NeedWorstRemoteFractionLost GetTransmissionRate
                  ProducerRtpStreamScore ProducerRtcpSenderReport];
  exec_all.

(** Close a goal about membership in a short explicit log. *)
Ltac in_log Hin :=
  cbn in Hin;
  repeat (destruct Hin as [Hin | Hin]; try discriminate Hin);
  try (destruct Hin; fail).

(** Run one event symbolically, splitting on every test on the way;
    [loops] rewrites the two loops of the code with their lemmas. *)
Ltac run_step loops :=
  exec_more;
  repeat first
    [ loops
    | progress cbn
    | match goal with
      | |- context [json_find ?k ?d] =>
          destruct (json_find k d) as [[| | | | ? |] |]; cbn
      | |- context [match methodId ?r with _ => _ end] => destruct (methodId r); cbn
      | |- context [match ?m with PLI => _ | FIR => _ | OtherPs => _ end] =>
          destruct m; cbn
      end
    | split_test
    | split_option ].

(** * Properties *)

(** ** Sanity checks of the embedding on the scenarios *)

Example S1_three_packets :
  transmitted (calls (run (map (fun s => EvSendRtpPacket (Scenario.media s false))
                               [1000; 1001; 1002]) Scenario.audio))
  = map (fun s => mkRtpPacket 1111 s 90000 100 false 160) [1000; 1001; 1002].
Proof. vm_compute. reflexivity. Qed.

(** Scenario S2: after a reconnect a video Consumer drops packets until a
    key frame arrives, then forwards again. *)
Example S2_sync_on_reconnect :
  map sequenceNumber
    (transmitted
       (calls (run [EvSendRtpPacket (Scenario.media 1000 true);
                    EvTransportDisconnected; EvTransportConnected;
                    EvSendRtpPacket (Scenario.media 1001 false);
                    EvSendRtpPacket (Scenario.media 1002 true);
                    EvSendRtpPacket (Scenario.media 1003 false)] Scenario.video)))
  = [1000; 1002; 1003].
Proof. vm_compute. reflexivity. Qed.

(** Scenario S3: a pause in mid-stream stops the traffic, dispatches
    [UserOnPaused] once and pauses the send stream. *)
Example S3_pause_suppresses_traffic :
  let log := calls (run (EvSendRtpPacket (Scenario.media 1000 false)
                         :: EvRequest Scenario.pause
                         :: map (fun s => EvSendRtpPacket (Scenario.media s false))
                              [1001; 1002; 1003]) Scenario.audio) in
  map sequenceNumber (transmitted log) = [1000]
  /\ count (isVirtual UserOnPaused_) log = 1%nat
  /\ In RtpStream_Pause log.
Proof. vm_compute. repeat split; try reflexivity. auto 10. Qed.

(** The literal [1.15]: of all binary64 numbers, [double_1_15] lies nearest
    to 23/20 (its error is below half a unit in the last place). *)
Example double_1_15_is_nearest :
  double_1_15 = binary_normalize 53 1024 5179139571476070 (-52) false
  /\ Z.abs (20 * 5179139571476070 - 23 * 2 ^ 52) * 2 < 20.
Proof. vm_compute. split; reflexivity. Qed.

(** Scenario S6: with a five-second interval, the test passes from 4348 ms
    on; on the first ten seconds the machine test agrees with the exact
    comparison [115 * elapsed < 100 * interval]. *)
Example S6_rtcp_interval :
  map (fun t => rtcpTooEarly t 0 5000) [1000; 4000; 4347; 4348; 4500]
  = [true; true; true; false; false]
  /\ forallb (fun t => Bool.eqb (rtcpTooEarly t 0 5000) (115 * t <? 100 * 5000))
       (map Z.of_nat (seq 0 (Z.to_nat 10000))) = true.
Proof. vm_compute. split; reflexivity. Qed.

(** ** The forwarding path *)

Section Forwarding.
Context {S : Type} `{!RtpStreamSend.Ops S} `{!Environment} `{!Serialization S}.
Implicit Types (c : Consumer S) (packet q : RtpPacket).

(** Rule 1 of the admission rules: an inactive Consumer returns at once. *)
Lemma SendRtpPacket_inactive c packet :
  IsActive c = false -> SendRtpPacket packet c = (Done packet, c, []).
Proof.
  intros Hc. exec. rewrite Hc. reflexivity.
Qed.

(** [SendRtpPacket] writes none of the fields [IsActive] reads. *)
Lemma SendRtpPacket_keeps_activity c packet :
  IsActive (after (SendRtpPacket packet c)) = IsActive c.
Proof.
  exec. repeat split_test; reflexivity.
Qed.
Lemma IsActive_components c :
  IsActive c = true ->
  transportConnected c = true /\ paused c = false /\ producerPaused c = false
  /\ producerClosed c = false /\ is_Some (producerRtpStream c).
Proof.
  unfold IsActive. intros Hc.
  repeat (apply andb_prop in Hc; destruct Hc as [Hc ?]).
  repeat match goal with
         | Hn : negb _ = true |- _ => apply negb_true_iff in Hn
         | Hd : bool_decide _ = true |- _ => apply bool_decide_eq_true in Hd
         end.
  auto.
Qed.

(** C1 (active gate).  Whenever a call of [SendRtpPacket] reaches the
    listener's transmission callback [OnConsumerSendRtpPacket], the Consumer
    was active when the call began, is still active when it returns (the
    call writes none of the fields of [IsActive]), and every component of
    [IsActive] holds: transport connected, not paused, producer neither
    paused nor closed, and a producer stream present.  Read backwards: an
    inactive Consumer hands nothing to the listener. *)
Theorem C1_active_gate c packet q :
  In (OnConsumerSendRtpPacket q) (calls (SendRtpPacket packet c)) ->
  IsActive c = true
  /\ IsActive (after (SendRtpPacket packet c)) = true
  /\ transportConnected c = true /\ paused c = false /\ producerPaused c = false
  /\ producerClosed c = false /\ is_Some (producerRtpStream c).
Proof.
  intros Hsent.
  destruct (IsActive c) eqn:Hc.
  - split; [reflexivity |]. split.
    + rewrite SendRtpPacket_keeps_activity. exact Hc.
    + apply IsActive_components. exact Hc.
  - rewrite (SendRtpPacket_inactive c packet Hc) in Hsent. destruct Hsent.
Qed.

(** C2 (packet-field restoration).  For every Consumer state, every send
    stream and every listener, [SendRtpPacket] returns, and the packet it
    leaves behind carries the SSRC and the sequence number it had on entry,
    whether it was dropped, refused by the stream or forwarded. *)
Theorem C2_packet_fields_restored c packet :
  packet_wf packet ->
  exists packet',
    outcome (SendRtpPacket packet c) = Done packet'
    /\ ssrc packet' = ssrc packet
    /\ sequenceNumber packet' = sequenceNumber packet.
Proof.
  intros [Hssrc Hseq].
  assert (Hs : uint32 (ssrc packet) = ssrc packet)
    by (apply Z.mod_small; exact Hssrc).
  assert (Hn : uint16 (sequenceNumber packet) = sequenceNumber packet)
    by (apply Z.mod_small; exact Hseq).
  exec. unfold GetSsrc, GetSequenceNumber.
  repeat split_test; eexists; (split; [reflexivity |]); cbn; auto.
Qed.

(** C4 (admission rules 2 and 3).  A packet whose payload type is not in
    [supportedCodecPayloadTypes], or a packet that is not a key frame while
    [syncRequired] and [keyFrameSupported] hold, is dropped: the call makes
    no call at all (nothing reaches the listener or the send stream), leaves
    the packet as it was and the Consumer unchanged, so [syncRequired] stays
    set.  This holds in every state, active or not. *)
Theorem C4_admission_drops c packet :
  GetPayloadType packet ∉ supportedCodecPayloadTypes c
  \/ (syncRequired c = true /\ keyFrameSupported c = true /\ IsKeyFrame packet = false) ->
  SendRtpPacket packet c = (Done packet, c, []).
Proof.
  intros Hdrop. exec.
  destruct (IsActive c); cbn; [| reflexivity].
  destruct Hdrop as [Hpt | (Hsync & Hkey & Hframe)].
  - rewrite bool_decide_eq_false_2 by exact Hpt. reflexivity.
  - destruct (bool_decide _); cbn; [| reflexivity].
    rewrite Hsync, Hkey, Hframe. reflexivity.
Qed.

(** C10.  [ReceiveNack] on an inactive Consumer returns at once: no call is
    made (no 'packet' event, no [ReceiveNack] on the send stream, hence no
    retransmission) and the Consumer is unchanged. *)
Theorem C10_nack_ignored_when_inactive c nackPacket :
  IsActive c = false ->
  ReceiveNack nackPacket c = (Done tt, c, []).
Proof.
  intros Hc. exec. rewrite Hc. reflexivity.
Qed.
End Forwarding.

Lemma C1_witness :
  IsActive Scenario.audio = true
  /\ IsActive (after (SendRtpPacket (Scenario.media 1000 false) Scenario.audio)) = true
  /\ transportConnected Scenario.audio = true /\ paused Scenario.audio = false
  /\ producerPaused Scenario.audio = false /\ producerClosed Scenario.audio = false
  /\ is_Some (producerRtpStream Scenario.audio).
Proof.
  apply (C1_active_gate Scenario.audio (Scenario.media 1000 false)
           (mkRtpPacket 1111 1000 90000 100 false 160)).
  vm_compute. do 3 right. left. reflexivity.
Defined.

Lemma C2_witness :
  exists packet',
    outcome (SendRtpPacket (Scenario.media 1000 false) Scenario.audio) = Done packet'
    /\ ssrc packet' = 2222 /\ sequenceNumber packet' = 1000.
Proof.
  apply (C2_packet_fields_restored Scenario.audio (Scenario.media 1000 false)).
  unfold packet_wf. simpl. lia.
Defined.

Lemma C4_witness :
  SendRtpPacket (Scenario.media 1000 false) Scenario.video
  = (Done (Scenario.media 1000 false), Scenario.video, []).
Proof.
  apply (C4_admission_drops Scenario.video (Scenario.media 1000 false)).
  right. vm_compute. auto.
Defined.

Lemma C10_witness :
  ReceiveNack [1000] (Scenario.created VIDEO true)
  = (Done tt, Scenario.created VIDEO true, []).
Proof.
  apply (C10_nack_ignored_when_inactive (Scenario.created VIDEO true) [1000]).
  vm_compute. reflexivity.
Defined.

(** ** Sequence-number remapping *)

Lemma uint16_gap (a b o : Z) :
  uint16 (b + o) = uint16 (uint16 (a + o) + (b - a)).
Proof.
  unfold uint16, wrap. rewrite Z.add_mod_idemp_l by lia.
  f_equal. lia.
Qed.

Lemma uint16_idem (x : Z) : uint16 (uint16 x) = uint16 x.
Proof. unfold uint16, wrap. apply Z.mod_mod. lia. Qed.

Lemma seq16_lt_shift (a b o : Z) :
  seq16_lt a b <-> seq16_lt (uint16 (a + o)) (uint16 (b + o)).
Proof.
  unfold seq16_lt, uint16, wrap.
  rewrite <- Zminus_mod. replace (b + o - (a + o)) with (b - a) by lia.
  reflexivity.
Qed.

Lemma seq16_ltb_spec (a b : Z) : seq16_ltb a b = true <-> seq16_lt a b.
Proof.
  unfold seq16_ltb, seq16_lt. rewrite andb_true_iff, !Z.ltb_lt. reflexivity.
Qed.

Lemma SeqManager_eta (m : SeqManager) :
  seqPending m = None -> mkSeqManager (seqOffset m) None = m.
Proof. destruct m; simpl; intros ->; reflexivity. Qed.

Section Remapping.
Context {S : Type} `{!RtpStreamSend.Ops S} `{!Environment} `{!Serialization S}.
Implicit Types (c : Consumer S) (packet q : RtpPacket).

(** An admitted packet is handed to the send stream once, rewritten; a
    transmitted packet is that same packet, accepted by the stream. *)
Lemma SendRtpPacket_transmitted_admitted c packet q :
  In (OnConsumerSendRtpPacket q) (calls (SendRtpPacket packet c)) ->
  In (RtpStream_ReceivePacket q true) (calls (SendRtpPacket packet c)).
Proof.
  exec. unfold GetSequenceNumber.
  repeat split_test; cbn; intros Hin;
    repeat (destruct Hin as [Hin | Hin]; try discriminate Hin);
    try (destruct Hin; fail);
    injection Hin as <-;
    repeat match goal with
           | Hr : (RtpStreamSend.ReceivePacket _ _).1 = true |- _ => rewrite Hr
           end; auto 6.
Qed.

(** An admitted packet carries the remapper's output, which is the input
    plus the offset the remapper holds afterwards. *)
Lemma SendRtpPacket_admitted_seq c packet q accepted :
  In (RtpStream_ReceivePacket q accepted) (calls (SendRtpPacket packet c)) ->
  sequenceNumber q
  = uint16 (sequenceNumber packet + seqOffset (rtpSeqManager (after (SendRtpPacket packet c))))
  /\ seqPending (rtpSeqManager (after (SendRtpPacket packet c))) = None.
Proof.
  exec. unfold GetSequenceNumber.
  repeat split_test; cbn; intros Hin;
    repeat (destruct Hin as [Hin | Hin]; try discriminate Hin);
    try (destruct Hin; fail);
    injection Hin as <- _; cbn; rewrite ?uint16_idem; auto.
Qed.

(** Without a [Sync], a call of [SendRtpPacket] leaves the remapper as it
    found it. *)
Lemma SendRtpPacket_same_epoch c packet :
  seqPending (rtpSeqManager c) = None ->
  (forall base, ~ In (RtpSeqManager_Sync base) (calls (SendRtpPacket packet c))) ->
  rtpSeqManager (after (SendRtpPacket packet c)) = rtpSeqManager c.
Proof.
  intros Hpending. exec.
  repeat split_test; cbn; intros Hsync;
    try reflexivity;
    try (exfalso; eapply Hsync; left; reflexivity);
    unfold SeqManager_Input; rewrite Hpending; cbn;
    apply SeqManager_eta; exact Hpending.
Qed.

Lemma SendRtpPacket_done c packet :
  exists packet', outcome (SendRtpPacket packet c) = Done packet'.
Proof.
  exec. repeat split_test; eexists; reflexivity.
Qed.

Lemma bind_Done {A B} (m : @M S A) (k : A -> @M S B) c a :
  outcome (m c) = Done a ->
  bind m k c
  = (outcome (k a (after (m c))), after (k a (after (m c))),
     calls (m c) ++ calls (k a (after (m c)))).
Proof.
  unfold bind, outcome, after, calls.
  destruct (m c) as [[o c1] t1]; simpl. intros ->.
  destruct (k a c1) as [[r c2] t2]; reflexivity.
Qed.

(** The retransmission callbacks write no field of the Consumer. *)
Lemma forEach_retransmit found c :
  exists log,
    forEach OnRtpStreamRetransmitRtpPacket found c = (Done tt, c, log)
    /\ forall base, ~ In (RtpSeqManager_Sync base) log.
Proof.
  induction found as [| packet found IH]; cbn.
  - exists []. split; [reflexivity | intros ? []].
  - destruct IH as (log & Hrun & Hlog).
    unfold OnRtpStreamRetransmitRtpPacket at 1.
    exec.
    destruct (rtp (packetEventTypes c)); cbn; rewrite Hrun;
      eexists; (split; [reflexivity |]);
      intros base Hin; cbn in Hin;
      repeat (destruct Hin as [Hin | Hin]; try discriminate Hin);
      exact (Hlog base Hin).
Qed.

(** The loop over the [types] array is pure: it reads the array and
    nothing else, and fails at the first element that is not a string. *)
Lemma readPacketEventTypes_spec items acc c :
  readPacketEventTypes items acc c
  = if forallb is_string items
    then (Done (fold_left
                  (fun t j => match j with
                              | JString typeStr => enablePacketEventType typeStr t
                              | _ => t
                              end) items acc), c, [])
    else (Thrown (TypeError "wrong type (not a string)"), c, []).
Proof.
  revert acc. induction items as [| j items IH]; intros acc; cbn.
  - reflexivity.
  - destruct j; cbn; try reflexivity. apply IH.
Qed.
End Remapping.

Section Epochs.
Context {S : Type} `{!RtpStreamSend.Ops S} `{!Environment} `{!Serialization S}.
Implicit Types (c : Consumer S) (packet q : RtpPacket).

(** Only [SendRtpPacket] touches the remapper, and only through [Sync] and
    [Input]: an event that logs no [Sync] ends normally and leaves the
    remapper as it was. *)
Lemma step_same_epoch e c :
  seqPending (rtpSeqManager c) = None ->
  (forall base, ~ In (RtpSeqManager_Sync base) (calls (step e c))) ->
  outcome (step e c) = Done tt
  /\ rtpSeqManager (after (step e c)) = rtpSeqManager c.
Proof.
  intros Hpending Hsync. destruct e.
  - destruct (SendRtpPacket_done c packet) as [packet' Hdone].
    unfold step in *. rewrite (bind_Done _ _ c packet' Hdone) in *.
    cbn in *. rewrite app_nil_r in Hsync.
    split; [reflexivity |]. apply SendRtpPacket_same_epoch; assumption.
  - clear Hsync. exec_all. destruct (methodId request); cbn;
      repeat split_test; auto.
    destruct (json_find "types" (data request)) as [[] |]; cbn; auto.
    rewrite readPacketEventTypes_spec.
    destruct (forallb is_string items); cbn; auto.
  - clear Hsync. exec_all. repeat split_test; auto.
  - clear Hsync. exec_all. repeat split_test; auto.
  - clear Hsync. exec_all. repeat split_test; auto.
  - clear Hsync. exec_all. repeat split_test; auto.
  - clear Hsync. exec_all. repeat split_test; auto.
  - clear Hsync. exec_all. repeat split_test; auto.
  - clear Hsync. exec_all. repeat split_test; auto.
  - clear Hsync. exec_all.
    destruct (IsActive c); cbn; auto.
    destruct (nack (packetEventTypes c)); cbn;
      match goal with
      | |- context [forEach OnRtpStreamRetransmitRtpPacket ?l ?c'] =>
          destruct (forEach_retransmit l c') as (log & -> & _)
      end; cbn; auto.
  - clear Hsync. exec_all. destruct messageType; cbn; repeat split_test; auto.
  - clear Hsync. exec_all. repeat split_test; auto. split_option; auto.
Qed.

Lemma run_same_epoch events c :
  seqPending (rtpSeqManager c) = None ->
  (forall base, ~ In (RtpSeqManager_Sync base) (calls (run events c))) ->
  outcome (run events c) = Done tt
  /\ rtpSeqManager (after (run events c)) = rtpSeqManager c.
Proof.
  revert c. induction events as [| e events IH]; intros c Hpending Hsync.
  - split; reflexivity.
  - change (run (e :: events) c) with (bind (step e) (fun _ => run events) c) in *.
    assert (Hstep : forall base, ~ In (RtpSeqManager_Sync base) (calls (step e c))).
    { intros base Hin. apply (Hsync base).
      unfold bind, calls in *. destruct (step e c) as [[[] c1] t1]; cbn in *; auto.
      destruct (run events c1) as [[r c2] t2]. cbn. apply in_or_app. left. exact Hin. }
    destruct (step_same_epoch e c Hpending Hstep) as [Hdone Hframe].
    rewrite (bind_Done _ _ c tt Hdone) in *. cbn in *.
    destruct (IH (after (step e c))) as [Hdone' Hframe'].
    + rewrite Hframe. exact Hpending.
    + intros base Hin. apply (Hsync base). apply in_or_app. right. exact Hin.
    + split; [exact Hdone' |]. rewrite Hframe'. exact Hframe.
Qed.

(** C3 (gap preservation), as amended.  Let [p1] be admitted and handed to
    the send stream as [q1], let any events follow, and let [p2] then be
    admitted as [q2], with no [Sync] of the remapper after [p1]'s call.
    Then the output numbers differ by what the input numbers differ by,
    modulo 2^16; hence [q2] is ahead of [q1] in the RFC 1982 order exactly
    when [p2] is ahead of [p1] (packets that arrive in order leave in order;
    a reordered input stays reordered).  Whatever the listener receives in
    the two calls is [q1], respectively [q2].  And the first [Input] after
    [Sync(base)] yields [base + 1] modulo 2^16. *)
Theorem C3_gap_preservation c p1 events p2 q1 q2 accepted1 accepted2 :
  let r1 := SendRtpPacket p1 c in
  let r2 := run events (after r1) in
  let r3 := SendRtpPacket p2 (after r2) in
  In (RtpStream_ReceivePacket q1 accepted1) (calls r1) ->
  In (RtpStream_ReceivePacket q2 accepted2) (calls r3) ->
  (forall base, ~ In (RtpSeqManager_Sync base) (calls r2 ++ calls r3)) ->
  sequenceNumber q2
  = uint16 (sequenceNumber q1 + (sequenceNumber p2 - sequenceNumber p1))
  /\ (seq16_lt (sequenceNumber q1) (sequenceNumber q2)
      <-> seq16_lt (sequenceNumber p1) (sequenceNumber p2))
  /\ (forall q, In (OnConsumerSendRtpPacket q) (calls r1) ->
                sequenceNumber q = sequenceNumber q1)
  /\ (forall q, In (OnConsumerSendRtpPacket q) (calls r3) ->
                sequenceNumber q = sequenceNumber q2)
  /\ (forall base input m,
        (SeqManager_Input input (SeqManager_Sync base m)).1 = uint16 (base + 1)).
Proof.
  intros r1 r2 r3 Hq1 Hq2 Hsync.
  destruct (SendRtpPacket_admitted_seq c p1 q1 accepted1 Hq1) as [Hs1 Hpending].
  fold r1 in Hs1, Hpending.
  destruct (run_same_epoch events (after r1) Hpending) as [_ Hrun].
  { intros base Hin. apply (Hsync base). apply in_or_app. left. exact Hin. }
  fold r2 in Hrun.
  destruct (SendRtpPacket_admitted_seq (after r2) p2 q2 accepted2 Hq2) as [Hs2 _].
  fold r3 in Hs2.
  assert (Hsame : rtpSeqManager (after r3) = rtpSeqManager (after r1)).
  { rewrite <- Hrun. apply SendRtpPacket_same_epoch.
    - rewrite Hrun. exact Hpending.
    - intros base Hin. apply (Hsync base). apply in_or_app. right. exact Hin. }
  split; [| split; [| split; [| split]]].
  - rewrite Hs2, Hsame, Hs1. apply uint16_gap.
  - rewrite Hs2, Hsame, Hs1. symmetry. apply seq16_lt_shift.
  - intros q Hq. apply SendRtpPacket_transmitted_admitted in Hq.
    destruct (SendRtpPacket_admitted_seq c p1 q true Hq) as [-> _]. fold r1.
    symmetry. exact Hs1.
  - intros q Hq. apply SendRtpPacket_transmitted_admitted in Hq.
    destruct (SendRtpPacket_admitted_seq (after r2) p2 q true Hq) as [-> _]. fold r3.
    symmetry. exact Hs2.
  - intros base input m. unfold SeqManager_Input, SeqManager_Sync. cbn.
    unfold uint16, wrap. rewrite Z.add_mod_idemp_r by lia.
    replace (input + (base mod 2 ^ 16 + 1 - input)) with (base mod 2 ^ 16 + 1) by lia.
    apply Z.add_mod_idemp_l. lia.
Qed.
End Epochs.

Lemma C3_witness :
  let q1 := mkRtpPacket 1111 1000 90000 100 false 160 in
  let q2 := mkRtpPacket 1111 1005 90000 100 false 160 in
  let p1 := Scenario.media 1000 false in
  let p2 := Scenario.media 1005 false in
  let events := [EvSendRtpPacket (Scenario.media 1003 false); EvReceiveNack [1000];
                 EvGetRtcp 6000] in
  let r1 := SendRtpPacket p1 Scenario.audio in
  let r3 := SendRtpPacket p2 (after (run events (after r1))) in
  sequenceNumber q2
  = uint16 (sequenceNumber q1 + (sequenceNumber p2 - sequenceNumber p1))
  /\ (seq16_lt (sequenceNumber q1) (sequenceNumber q2)
      <-> seq16_lt (sequenceNumber p1) (sequenceNumber p2))
  /\ (forall q, In (OnConsumerSendRtpPacket q) (calls r1) ->
                sequenceNumber q = sequenceNumber q1)
  /\ (forall q, In (OnConsumerSendRtpPacket q) (calls r3) ->
                sequenceNumber q = sequenceNumber q2)
  /\ (forall base input m,
        (SeqManager_Input input (SeqManager_Sync base m)).1 = uint16 (base + 1)).
Proof.
  apply (C3_gap_preservation Scenario.audio (Scenario.media 1000 false)
           [EvSendRtpPacket (Scenario.media 1003 false); EvReceiveNack [1000];
            EvGetRtcp 6000]
           (Scenario.media 1005 false)
           (mkRtpPacket 1111 1000 90000 100 false 160)
           (mkRtpPacket 1111 1005 90000 100 false 160) true true).
  - vm_compute. do 2 right. left. reflexivity.
  - vm_compute. do 1 right. left. reflexivity.
  - vm_compute. intros base Hin.
    repeat (destruct Hin as [Hin | Hin]; try discriminate Hin). exact Hin.
Defined.

(** Two packets that reach the Consumer out of order, 1001 before 1000, are
    both transmitted within one epoch, with output numbers 1001 and then
    1000: the second is not ahead of the first. *)
Lemma C3_counterexample :
  let r1 := SendRtpPacket (Scenario.media 1001 false) Scenario.audio in
  let r2 := SendRtpPacket (Scenario.media 1000 false) (after r1) in
  map sequenceNumber (transmitted (calls r1)) = [1001]
  /\ map sequenceNumber (transmitted (calls r2)) = [1000]
  /\ existsb isSync (calls r2) = false
  /\ ~ seq16_lt 1001 1000.
Proof.
  vm_compute. repeat split; try reflexivity.
  intros [_ Hlt]; discriminate Hlt.
Qed.

(** ** Periodic RTCP *)

Section Rtcp.
Context {S : Type} `{!RtpStreamSend.Ops S} `{!Environment} `{!Serialization S}.
Implicit Types (c : Consumer S) (packet : CompoundPacket).

(** C5 (RTCP cadence), as amended.  Called with its own stream, [GetRtcp]
    does nothing while [(nowMs - lastRtcpSentTime) * 1.15 < maxRtcpInterval]
    (the test as the machine computes it).  Otherwise it asks the stream for
    a sender report.  If the stream has one, the report and then an SDES
    chunk are appended to the compound packet and [lastRtcpSentTime] becomes
    [nowMs].  If the stream has none, nothing is appended and
    [lastRtcpSentTime] keeps its value. *)
Theorem C5_GetRtcp c packet nowMs :
  let r := GetRtcp packet true nowMs c in
  let asked := RtpStreamSend.GetRtcpSenderReport nowMs (rtpStream c) in
  if rtcpTooEarly nowMs (lastRtcpSentTime c) (maxRtcpInterval c)
  then r = (Done packet, c, [])
  else
    match asked.1 with
    | Some report =>
        outcome r
        = Done (AddSdesChunk (RtpStreamSend.GetRtcpSdesChunk asked.2)
                  (AddSenderReport report packet))
        /\ after r = set_lastRtcpSentTime nowMs (set_rtpStream asked.2 c)
        /\ lastRtcpSentTime (after r) = nowMs
        /\ calls r = [RtpStream_GetRtcpSenderReport nowMs; RtpStream_GetRtcpSdesChunk]
    | None =>
        r = (Done packet, set_rtpStream asked.2 c, [RtpStream_GetRtcpSenderReport nowMs])
        /\ lastRtcpSentTime (after r) = lastRtcpSentTime c
    end.
Proof.
  exec.
  destruct (rtcpTooEarly nowMs (lastRtcpSentTime c) (maxRtcpInterval c)); cbn.
  - reflexivity.
  - destruct (RtpStreamSend.GetRtcpSenderReport nowMs (rtpStream c)) as [[report |] s'];
      cbn; auto.
Qed.
End Rtcp.

(** A Consumer whose stream has sent nothing yet is asked for RTCP ten
    seconds after the last report, with a five-second interval: the interval
    has passed, yet the compound packet stays empty and [lastRtcpSentTime]
    stays 0. *)
Lemma C5_counterexample :
  let r := GetRtcp (mkCompoundPacket [] []) true 10000 Scenario.audio in
  rtcpTooEarly 10000 (lastRtcpSentTime Scenario.audio) (maxRtcpInterval Scenario.audio) = false
  /\ outcome r = Done (mkCompoundPacket [] [])
  /\ lastRtcpSentTime (after r) = 0
  /\ lastRtcpSentTime (after r) <> 10000.
Proof.
  vm_compute. repeat split; try reflexivity. discriminate.
Qed.

(** ** Control requests *)

Lemma enablePacketEventType_flags typeStr t :
  rtp (enablePacketEventType typeStr t) = rtp t || String.eqb typeStr "rtp"
  /\ nack (enablePacketEventType typeStr t) = nack t || String.eqb typeStr "nack"
  /\ pli (enablePacketEventType typeStr t) = pli t || String.eqb typeStr "pli"
  /\ fir (enablePacketEventType typeStr t) = fir t || String.eqb typeStr "fir".
Proof.
  unfold enablePacketEventType.
  destruct (String.eqb typeStr "rtp") eqn:E1;
    [apply String.eqb_eq in E1; subst; cbn; rewrite !orb_true_r, !orb_false_r; auto |].
  destruct (String.eqb typeStr "nack") eqn:E2;
    [apply String.eqb_eq in E2; subst; cbn; rewrite !orb_true_r, !orb_false_r; auto |].
  destruct (String.eqb typeStr "pli") eqn:E3;
    [apply String.eqb_eq in E3; subst; cbn; rewrite !orb_true_r, !orb_false_r; auto |].
  destruct (String.eqb typeStr "fir") eqn:E4;
    [apply String.eqb_eq in E4; subst; cbn; rewrite !orb_true_r, !orb_false_r; auto |].
  cbn. rewrite !orb_false_r. auto.
Qed.

Lemma readTypes_flags items acc :
  let t := fold_left
             (fun t j => match j with
                         | JString typeStr => enablePacketEventType typeStr t
                         | _ => t
                         end) items acc in
  let has name :=
    existsb (fun j => match j with
                      | JString typeStr => String.eqb typeStr name
                      | _ => false
                      end) items in
  rtp t = rtp acc || has "rtp" /\ nack t = nack acc || has "nack"
  /\ pli t = pli acc || has "pli" /\ fir t = fir acc || has "fir".
Proof.
  cbv zeta. revert acc. induction items as [| j items IH]; intros acc; cbn.
  - rewrite !orb_false_r. auto.
  - destruct (IH (match j with
                  | JString typeStr => enablePacketEventType typeStr acc
                  | _ => acc
                  end)) as (Hr & Hn & Hp & Hf).
    rewrite Hr, Hn, Hp, Hf.
    destruct j; cbn; auto.
    destruct (enablePacketEventType_flags s acc) as (-> & -> & -> & ->).
    rewrite !orb_assoc. auto.
Qed.

Lemma forallb_is_string items :
  forallb is_string items = false <-> exists j, In j items /\ is_string j = false.
Proof.
  induction items as [| j items IH]; cbn.
  - split; [discriminate | intros (j & [] & _)].
  - rewrite andb_false_iff, IH. split.
    + intros [Hj | (k & Hin & Hk)]; eauto.
    + intros (k & [<- | Hin] & Hk); eauto.
Qed.

Section Requests.
Context {S : Type} `{!RtpStreamSend.Ops S} `{!Environment} `{!Serialization S}.
Implicit Types (c : Consumer S).

(** C6 (ENABLE_PACKET_EVENT).  The request is rejected with a TypeError
    exactly when [types] is missing, is not an array, or holds an element
    that is not a string.  A rejected request makes no call and leaves the
    Consumer, hence [packetEventTypes], unchanged.  An accepted request is
    acknowledged once and replaces [packetEventTypes] by the set of the
    recognised names (rtp, nack, pli, fir) that occur in the array; other
    strings have no effect, and no other field changes. *)
Theorem C6_enable_packet_event c name payload :
  let r := Consumer_HandleRequest (mkRequest CONSUMER_ENABLE_PACKET_EVENT name payload) c in
  ((exists msg, outcome r = Thrown (TypeError msg)) <-> typesMalformed payload)
  /\ (typesMalformed payload -> after r = c /\ calls r = [])
  /\ (~ typesMalformed payload ->
      outcome r = Done tt
      /\ calls r = [RequestAccept None]
      /\ packetEventTypes (after r)
         = mkPacketEventTypes (typeRequested "rtp" payload) (typeRequested "nack" payload)
                              (typeRequested "pli" payload) (typeRequested "fir" payload)
      /\ rtp (packetEventTypes (after r)) = typeRequested "rtp" payload
      /\ nack (packetEventTypes (after r)) = typeRequested "nack" payload
      /\ pli (packetEventTypes (after r)) = typeRequested "pli" payload
      /\ fir (packetEventTypes (after r)) = typeRequested "fir" payload
      /\ after r
         = set_packetEventTypes
             (mkPacketEventTypes (typeRequested "rtp" payload) (typeRequested "nack" payload)
                                 (typeRequested "pli" payload) (typeRequested "fir" payload)) c).
Proof.
  unfold typesMalformed, typeRequested.
  cbv beta delta [Consumer_HandleRequest]. cbn [methodId data].
  destruct (json_find "types" payload) as [[| | | | items |] |]; exec;
    try (split; [split; [auto | intros _; eexists; reflexivity] |];
         split; [auto | intros Hn; destruct Hn; exact I]).
  rewrite readPacketEventTypes_spec.
  destruct (forallb is_string items) eqn:Hall; cbn.
  - assert (Hok : ~ exists j, In j items /\ is_string j = false).
    { intros Hbad. apply forallb_is_string in Hbad. congruence. }
    split; [split; [intros [msg Hmsg]; discriminate Hmsg | intros Hbad; destruct (Hok Hbad)] |].
    split; [intros Hbad; destruct (Hok Hbad) |].
    intros _. split; [reflexivity |]. split; [reflexivity |].
    destruct (readTypes_flags items PacketEventTypes_default) as (Hr & Hn & Hp & Hf).
    cbn in Hr, Hn, Hp, Hf.
    destruct (fold_left _ items PacketEventTypes_default) as [r0 n0 p0 f0].
    cbn in Hr, Hn, Hp, Hf. subst. repeat split; reflexivity.
  - apply forallb_is_string in Hall.
    split; [split; [intros _; exact Hall | intros _; eexists; reflexivity] |].
    split; [auto |]. intros Hn; destruct (Hn Hall).
Qed.
End Requests.

(** Scenario S5: [types = ["rtp", "garbage", "nack"]] is accepted and
    enables rtp and nack only. *)
Lemma C6_witness :
  let r := Consumer_HandleRequest
             (Scenario.types [JString "rtp"; JString "garbage"; JString "nack"])
             Scenario.audio in
  outcome r = Done tt
  /\ calls r = [RequestAccept None]
  /\ packetEventTypes (after r) = mkPacketEventTypes true true false false
  /\ rtp (packetEventTypes (after r)) = true
  /\ nack (packetEventTypes (after r)) = true
  /\ pli (packetEventTypes (after r)) = false
  /\ fir (packetEventTypes (after r)) = false
  /\ after r = set_packetEventTypes (mkPacketEventTypes true true false false) Scenario.audio.
Proof.
  apply (C6_enable_packet_event Scenario.audio "consumer.enablePacketEvent"
           (JObject [("types", JArray [JString "rtp"; JString "garbage"; JString "nack"])])).
  vm_compute. intros (j & Hin & Hj).
  repeat (destruct Hin as [<- | Hin]; try discriminate Hj). exact Hin.
Defined.

Section PauseResume.
Context {S : Type} `{!RtpStreamSend.Ops S} `{!Environment} `{!Serialization S}.
Implicit Types (c : Consumer S).

Lemma pause_when_paused c name payload :
  paused c = true ->
  Consumer_HandleRequest (mkRequest CONSUMER_PAUSE name payload) c
  = (Done tt, c, [RequestAccept None]).
Proof.
  intros Hp. cbv beta delta [Consumer_HandleRequest]. cbn [methodId]. exec.
  rewrite Hp. reflexivity.
Qed.

Lemma pause_when_running c name payload :
  paused c = false ->
  Consumer_HandleRequest (mkRequest CONSUMER_PAUSE name payload) c
  = if IsActive c
    then (Done tt, set_rtpStream (RtpStreamSend.Pause (rtpStream c)) (set_paused true c),
          [Virtual UserOnPaused_; RtpStream_Pause; RequestAccept None])
    else (Done tt, set_paused true c, [RequestAccept None]).
Proof.
  intros Hp. cbv beta delta [Consumer_HandleRequest]. cbn [methodId]. exec.
  rewrite Hp. cbn. destruct (IsActive c); reflexivity.
Qed.

Lemma resume_when_running c name payload :
  paused c = false ->
  Consumer_HandleRequest (mkRequest CONSUMER_RESUME name payload) c
  = (Done tt, c, [RequestAccept None]).
Proof.
  intros Hp. cbv beta delta [Consumer_HandleRequest]. cbn [methodId]. exec.
  rewrite Hp. reflexivity.
Qed.

Lemma resume_when_paused c name payload :
  paused c = true ->
  Consumer_HandleRequest (mkRequest CONSUMER_RESUME name payload) c
  = if IsActive (set_paused false c)
    then (Done tt, set_syncRequired true (set_paused false c),
          Virtual UserOnResumed_
          :: match kind c with
             | VIDEO =>
                 [OnConsumerKeyFrameRequested (encSsrc (consumableRtpEncodings c !!! 0%nat))]
             | _ => []
             end ++ [RequestAccept None])
    else (Done tt, set_paused false c, [RequestAccept None]).
Proof.
  intros Hp. cbv beta delta [Consumer_HandleRequest]. cbn [methodId]. exec.
  rewrite Hp. cbn.
  destruct (IsActive (set_paused false c)) eqn:Ha; cbn; [| reflexivity].
  change (IsActive (set_syncRequired true (set_paused false c)))
    with (IsActive (set_paused false c)).
  rewrite Ha. cbn. destruct (kind c); reflexivity.
Qed.

(** C7 (PAUSE and RESUME).  Both requests always end normally with exactly
    one acknowledgement.  PAUSE on a paused Consumer, and RESUME on one that
    is not paused, acknowledge and do nothing else, so a repeated request
    has no further effect.  Otherwise PAUSE sets [paused] and dispatches
    [UserOnPaused] once if the Consumer was active before the change, and
    not at all if it was not; RESUME clears [paused] and dispatches
    [UserOnResumed] once if the Consumer is active after the change, and not
    at all if it is not. *)
Theorem C7_pause_resume c name payload :
  let pause := Consumer_HandleRequest (mkRequest CONSUMER_PAUSE name payload) in
  let resume := Consumer_HandleRequest (mkRequest CONSUMER_RESUME name payload) in
  (outcome (pause c) = Done tt /\ count isAccept (calls (pause c)) = 1%nat
   /\ outcome (resume c) = Done tt /\ count isAccept (calls (resume c)) = 1%nat)
  /\ (paused c = true -> pause c = (Done tt, c, [RequestAccept None]))
  /\ (paused c = false -> resume c = (Done tt, c, [RequestAccept None]))
  /\ (paused (after (pause c)) = true /\ paused (after (resume c)) = false)
  /\ count (isVirtual UserOnPaused_) (calls (pause c))
     = (if negb (paused c) && IsActive c then 1%nat else 0%nat)
  /\ count (isVirtual UserOnResumed_) (calls (resume c))
     = (if paused c && IsActive (set_paused false c) then 1%nat else 0%nat)
  /\ pause (after (pause c)) = (Done tt, after (pause c), [RequestAccept None])
  /\ resume (after (resume c)) = (Done tt, after (resume c), [RequestAccept None]).
Proof.
  cbv zeta.
  destruct (paused c) eqn:Hp.
  - rewrite (pause_when_paused c name payload Hp).
    rewrite (resume_when_paused c name payload Hp).
    destruct (IsActive (set_paused false c)); cbn;
      rewrite resume_when_running by reflexivity; rewrite ?Hp;
      destruct (kind c); cbn; repeat split; auto;
      try (intros; discriminate); apply pause_when_paused; exact Hp.
  - rewrite (pause_when_running c name payload Hp).
    rewrite (resume_when_running c name payload Hp).
    destruct (IsActive c); cbn;
      rewrite pause_when_paused by reflexivity; rewrite ?Hp;
      cbn; repeat split; auto;
      try (intros; discriminate); apply resume_when_running; exact Hp.
Qed.
End PauseResume.

(** Scenario S3: pausing the running audio Consumer dispatches
    [UserOnPaused] once; resuming a Consumer that is not paused only
    acknowledges. *)
Lemma C7_witness :
  Consumer_HandleRequest (mkRequest CONSUMER_RESUME "consumer" JNull) Scenario.audio
  = (Done tt, Scenario.audio, [RequestAccept None])
  /\ count (isVirtual UserOnPaused_)
       (calls (Consumer_HandleRequest (mkRequest CONSUMER_PAUSE "consumer" JNull)
                 Scenario.audio)) = 1%nat.
Proof.
  destruct (C7_pause_resume Scenario.audio "consumer" JNull)
    as (_ & _ & Hresume & _ & Hcount & _).
  split.
  - apply Hresume. reflexivity.
  - rewrite Hcount. reflexivity.
Defined.

(** ** Producer events *)

Section ProducerEvents.
Context {S : Type} `{!RtpStreamSend.Ops S} `{!Environment} `{!Serialization S}.
Implicit Types (c : Consumer S).

Lemma ProducerPaused_sets_flag c :
  outcome (ProducerPaused c) = Done tt /\ producerPaused (after (ProducerPaused c)) = true.
Proof.
  exec_all. destruct (producerPaused c) eqn:Hp; cbn; [auto |].
  destruct (IsActive c); cbn; auto.
Qed.

Lemma ProducerResumed_clears_flag c :
  outcome (ProducerResumed c) = Done tt /\ producerPaused (after (ProducerResumed c)) = false.
Proof.
  exec_all. destruct (producerPaused c) eqn:Hp; cbn; [| auto].
  destruct (IsActive (set_producerPaused false c)) eqn:Ha; cbn; [| auto].
  change (IsActive (set_syncRequired true (set_producerPaused false c)))
    with (IsActive (set_producerPaused false c)).
  rewrite Ha. cbn. destruct (kind c); cbn; auto.
Qed.

(** C8 (producer events), as amended.  [ProducerPaused] in a state where the
    producer is already paused, and [ProducerResumed] in a state where it is
    not, return early: no call is made and no field changes; in particular
    a second call right after a first one does nothing.  [ProducerClosed]
    has no such guard: every call, the first or a later one, sets
    [producerClosed], emits the [producerclose] notification and signals the
    listener. *)
Theorem C8_producer_events c :
  (producerPaused c = true -> ProducerPaused c = (Done tt, c, []))
  /\ ProducerPaused (after (ProducerPaused c)) = (Done tt, after (ProducerPaused c), [])
  /\ (producerPaused c = false -> ProducerResumed c = (Done tt, c, []))
  /\ ProducerResumed (after (ProducerResumed c)) = (Done tt, after (ProducerResumed c), [])
  /\ ProducerClosed c
     = (Done tt, set_producerClosed true c,
        [NotifierEmit (id c) "producerclose" None; OnConsumerProducerClosed]).
Proof.
  assert (Hpaused : forall c', producerPaused c' = true -> ProducerPaused c' = (Done tt, c', [])).
  { intros c' Hp. exec_all. rewrite Hp. reflexivity. }
  assert (Hresumed : forall c', producerPaused c' = false -> ProducerResumed c' = (Done tt, c', [])).
  { intros c' Hp. exec_all. rewrite Hp. reflexivity. }
  split; [apply Hpaused |].
  split; [apply Hpaused, ProducerPaused_sets_flag |].
  split; [apply Hresumed |].
  split; [apply Hresumed, ProducerResumed_clears_flag |].
  reflexivity.
Qed.
End ProducerEvents.

Lemma C8_witness :
  ProducerPaused (after (ProducerPaused Scenario.audio))
  = (Done tt, after (ProducerPaused Scenario.audio), [])
  /\ ProducerResumed Scenario.audio = (Done tt, Scenario.audio, []).
Proof.
  destruct (C8_producer_events (after (ProducerPaused Scenario.audio)))
    as (Hpaused & _).
  destruct (C8_producer_events Scenario.audio) as (_ & _ & Hresumed & _).
  split.
  - apply Hpaused. reflexivity.
  - apply Hresumed. reflexivity.
Defined.

(** A second [ProducerClosed], in the state the first one established,
    emits the notification and signals the listener again. *)
Lemma C8_counterexample :
  let closed := after (ProducerClosed Scenario.audio) in
  producerClosed closed = true
  /\ calls (ProducerClosed closed)
     = [NotifierEmit "consumer" "producerclose" None; OnConsumerProducerClosed]
  /\ calls (ProducerClosed closed) <> [].
Proof.
  vm_compute. repeat split; try reflexivity. discriminate.
Qed.

(** ** The UDP send path *)

(** C9 (truncated datagram).  On an open socket, for a datagram whose
    length fits an [int] (a UDP datagram is at most 65535 bytes long), when
    [uv_udp_try_send] reports that only [sent] bytes of [len] went out
    ([0 <= sent < len]): [sentBytes] grows by [sent], in 64-bit arithmetic
    and so by exactly [sent] unless the counter overflows; the callback, if
    the caller gave one, is invoked once, with [false], and then deleted;
    nothing is queued for an asynchronous send. *)
Theorem C9_truncated_send UV_EAGAIN len cb sent sendErr (s : UdpSocket.UdpSocket) :
  UdpSocket.closed s = false ->
  len < 2 ^ 31 ->
  0 <= sent < len ->
  let r := UdpSocket.Send UV_EAGAIN len cb sent sendErr s in
  UdpSocket.sentBytes r.1 = uint64 (UdpSocket.sentBytes s + sent)
  /\ (0 <= UdpSocket.sentBytes s -> UdpSocket.sentBytes s + sent < 2 ^ 64 ->
      UdpSocket.sentBytes r.1 = UdpSocket.sentBytes s + sent)
  /\ UdpSocket.reported r.2
     = match cb with Some f => [(f, false)] | None => [] end
  /\ UdpSocket.closed r.1 = false
  /\ UdpSocket.inFlight r.1 = UdpSocket.inFlight s.
Proof.
  intros Hopen Hint Hsent. cbv zeta. unfold UdpSocket.Send.
  rewrite Hopen.
  assert (Hlen : (len =? 0) = false) by (apply Z.eqb_neq; lia).
  assert (Hcast : to_int32 len = len).
  { unfold to_int32. rewrite Z.mod_small by lia. lia. }
  assert (Hneq : (sent =? to_int32 len) = false)
    by (rewrite Hcast; apply Z.eqb_neq; lia).
  assert (Hnonneg : (0 <=? sent) = true) by (apply Z.leb_le; lia).
  rewrite Hlen, Hneq, Hnonneg. cbn.
  split; [reflexivity |].
  split; [intros Hlow Hhigh; unfold uint64, wrap; apply Z.mod_small; lia |].
  split; [destruct cb; reflexivity |].
  auto.
Qed.

(** 100 bytes out of 1200 were sent: the counter moves from 5000 to 5100
    and callback 1 hears [false]. *)
Lemma C9_witness :
  let r := UdpSocket.Send (-11) 1200 (Some 1%nat) 100 0
             (UdpSocket.mkUdpSocket false 5000 []) in
  UdpSocket.sentBytes r.1 = uint64 (5000 + 100)
  /\ (0 <= 5000 -> 5000 + 100 < 2 ^ 64 -> UdpSocket.sentBytes r.1 = 5000 + 100)
  /\ UdpSocket.reported r.2 = [(1%nat, false)]
  /\ UdpSocket.closed r.1 = false
  /\ UdpSocket.inFlight r.1 = [].
Proof.
  apply (C9_truncated_send (-11) 1200 (Some 1%nat) 100 0
           (UdpSocket.mkUdpSocket false 5000 [])).
  - reflexivity.
  - lia.
  - lia.
Defined.

(** * Further properties of the code *)

(** ** The datagram sink *)

(** X1.  Whatever libuv answers, [Send] settles the caller's callback once:
    either it invokes the callback now, exactly once, and queues nothing,
    or it invokes nothing and queues the request with that callback for
    the completion to come.  It deletes the callback at most once, exactly
    when libuv was tried and the request was not queued, and then as the
    last thing it does, right after having invoked it: the log ends with
    the invocation followed by the deletion, and holds neither before. *)
Theorem X1_send_settles_callback UV_EAGAIN len f sent sendErr (s : UdpSocket.UdpSocket) :
  let r := UdpSocket.Send UV_EAGAIN len (Some f) sent sendErr s in
  (udpInvokes f r.2 = 1%nat /\ UdpSocket.inFlight r.1 = UdpSocket.inFlight s
   \/ udpInvokes f r.2 = 0%nat /\ udpDeletes f r.2 = 0%nat
      /\ UdpSocket.inFlight r.1 = UdpSocket.inFlight s ++ [Some f])
  /\ (udpDeletes f r.2 <= udpInvokes f r.2)%nat
  /\ (udpDeletes f r.2 = 1%nat
      <-> udpTouchesUv r.2 = true /\ UdpSocket.inFlight r.1 = UdpSocket.inFlight s)
  /\ (forall g b, In (UdpSocket.Invoke g b) r.2 \/ In (UdpSocket.Delete g) r.2 -> g = f)
  /\ (udpDeletes f r.2 = 1%nat ->
      exists before told,
        r.2 = before ++ [UdpSocket.Invoke f told; UdpSocket.Delete f]
        /\ udpInvokes f before = 0%nat /\ udpDeletes f before = 0%nat)
  /\ (forall before later,
        r.2 = before ++ UdpSocket.Delete f :: later ->
        later = [] /\ udpInvokes f before = 1%nat).
Proof.
  cbv zeta. unfold UdpSocket.Send, udpInvokes, udpDeletes, udpTouchesUv.
  assert (Hneq : forall l : list (option UdpSocket.onSendCallback), l ++ [Some f] <> l).
  { intros l Hl. apply (f_equal (@length _)) in Hl. rewrite length_app in Hl. cbn in Hl. lia. }
  destruct (UdpSocket.closed s); [| destruct (len =? 0);
    [| destruct (sent =? to_int32 len);
       [| destruct (0 <=? sent);
          [| destruct (negb (sent =? UV_EAGAIN));
             [| destruct (negb (sendErr =? 0))]]]]];
    cbn; rewrite ?Nat.eqb_refl; cbn;
    (split; [auto |]); (split; [lia |]);
    (split; [split; [intros Hd; try discriminate Hd; auto
                    | intros [Hu Hq]; try discriminate Hu; try reflexivity;
                      exfalso; exact (Hneq _ Hq)] |]);
    (split;
     [intros g b Hgb;
      repeat match goal with
             | Hor : _ \/ _ |- _ => destruct Hor as [Hor | Hor]
             | Hf : False |- _ => destruct Hf
             | He : UdpSocket.Invoke _ _ = UdpSocket.Invoke _ _ |- _ => injection He as <- _
             | He : UdpSocket.Delete _ = UdpSocket.Delete _ |- _ => injection He as <-
             | He : _ = _ |- _ => discriminate He
             end; reflexivity |]);
    (split;
     [intros Hd; try discriminate Hd;
      first [ eexists [_], _; split; [reflexivity | split; reflexivity]
            | eexists [_; _], _; split; [reflexivity | split; reflexivity] ] |]);
    intros before later Hlog;
    repeat (destruct before as [| ? before]; cbn in Hlog;
            [ first [discriminate Hlog
                    | injection Hlog; intros; subst; cbn; rewrite ?Nat.eqb_refl; cbn;
                      split; reflexivity ]
            | first [discriminate Hlog | injection Hlog as <- Hlog] ]);
    try discriminate Hlog;
    destruct before; discriminate Hlog.
Qed.

(** X2.  On a closed socket, or for an empty datagram, [Send] leaves the
    socket as it is and does not go to libuv; the callback is told [false]
    and is not deleted. *)
Theorem X2_send_refused UV_EAGAIN len cb sent sendErr (s : UdpSocket.UdpSocket) :
  UdpSocket.closed s = true \/ len = 0 ->
  let r := UdpSocket.Send UV_EAGAIN len cb sent sendErr s in
  r.1 = s
  /\ udpTouchesUv r.2 = false
  /\ UdpSocket.reported r.2 = match cb with Some f => [(f, false)] | None => [] end
  /\ (forall f, ~ In (UdpSocket.Delete f) r.2).
Proof.
  intros Hedge. cbv zeta. unfold UdpSocket.Send.
  assert (Hlog : forall f, ~ In (UdpSocket.Delete f) (UdpSocket.finish cb false false)).
  { intros f. destruct cb; cbn; intros Hin;
      repeat (destruct Hin as [Hin | Hin]; try discriminate Hin); exact Hin. }
  destruct (UdpSocket.closed s) eqn:Hc.
  - destruct cb; cbn; auto using Hlog.
  - destruct Hedge as [Hedge | ->]; [discriminate Hedge |].
    destruct cb; cbn; auto using Hlog.
Qed.

Lemma X2_witness :
  let r := UdpSocket.Send (-11) 1200 (Some 1%nat) 1200 0
             (UdpSocket.mkUdpSocket true 5000 []) in
  r.1 = UdpSocket.mkUdpSocket true 5000 []
  /\ udpTouchesUv r.2 = false
  /\ UdpSocket.reported r.2 = [(1%nat, false)]
  /\ (forall f, ~ In (UdpSocket.Delete f) r.2).
Proof.
  apply (X2_send_refused (-11) 1200 (Some 1%nat) 1200 0
           (UdpSocket.mkUdpSocket true 5000 [])).
  left. reflexivity.
Defined.

(** X3.  [Send] tells a callback [true] only when the socket was open, the
    datagram was not empty and [uv_udp_try_send] took all of it at once;
    the bytes are then counted in [sentBytes], and nothing is queued. *)
Theorem X3_send_success_means_sent UV_EAGAIN len cb sent sendErr f
        (s : UdpSocket.UdpSocket) :
  In (UdpSocket.Invoke f true) (UdpSocket.Send UV_EAGAIN len cb sent sendErr s).2 ->
  let r := UdpSocket.Send UV_EAGAIN len cb sent sendErr s in
  cb = Some f
  /\ UdpSocket.closed s = false /\ len <> 0 /\ sent = to_int32 len
  /\ UdpSocket.sentBytes r.1 = uint64 (UdpSocket.sentBytes s + sent)
  /\ UdpSocket.inFlight r.1 = UdpSocket.inFlight s
  /\ r.2 = [UdpSocket.uv_udp_try_send (uint32 len); UdpSocket.Invoke f true;
            UdpSocket.Delete f].
Proof.
  cbv zeta. unfold UdpSocket.Send.
  destruct (UdpSocket.closed s); [| destruct (len =? 0) eqn:Hlen;
    [| destruct (sent =? to_int32 len) eqn:Hsent;
       [| destruct (0 <=? sent);
          [| destruct (negb (sent =? UV_EAGAIN));
             [| destruct (negb (sendErr =? 0))]]]]];
    destruct cb as [g |]; cbn; intros Hin;
    repeat (destruct Hin as [Hin | Hin]; try discriminate Hin);
    try (destruct Hin; fail).
  injection Hin as ->.
  apply Z.eqb_neq in Hlen. apply Z.eqb_eq in Hsent. auto 10.
Qed.

Lemma X3_witness :
  let r := UdpSocket.Send (-11) 1200 (Some 1%nat) 1200 0
             (UdpSocket.mkUdpSocket false 5000 []) in
  Some 1%nat = Some 1%nat
  /\ false = false /\ 1200 <> 0 /\ 1200 = to_int32 1200
  /\ UdpSocket.sentBytes r.1 = uint64 (5000 + 1200)
  /\ UdpSocket.inFlight r.1 = []
  /\ r.2 = [UdpSocket.uv_udp_try_send (uint32 1200); UdpSocket.Invoke 1%nat true;
            UdpSocket.Delete 1%nat].
Proof.
  apply (X3_send_success_means_sent (-11) 1200 (Some 1%nat) 1200 0 1%nat
           (UdpSocket.mkUdpSocket false 5000 [])).
  vm_compute. right. left. reflexivity.
Defined.

(** X4.  A datagram that libuv cannot take at once ([UV_EAGAIN]) and that
    [uv_udp_send] accepts is counted in [sentBytes] at once.  Its completion
    tells the callback whether the status was 0, deletes it, and leaves
    [sentBytes] alone even when the status reports a failure.  If the
    socket is closed before the completion, the callback is deleted without
    being invoked. *)
Theorem X4_queued_send_completes uv_strerror UV_EAGAIN len f sendErr status stopErr
        (s : UdpSocket.UdpSocket) :
  UdpSocket.closed s = false ->
  UdpSocket.inFlight s = [] ->
  0 < len < 2 ^ 31 ->
  UV_EAGAIN < 0 ->
  sendErr = 0 ->
  let queued := UdpSocket.Send UV_EAGAIN len (Some f) UV_EAGAIN sendErr s in
  let done := UdpSocket.onSend status queued.1 in
  let shut := UdpHandle.Close uv_strerror stopErr queued.1 in
  UdpSocket.reported queued.2 = []
  /\ UdpSocket.sentBytes queued.1 = uint64 (UdpSocket.sentBytes s + len)
  /\ UdpSocket.reported done.2 = [(f, status =? 0)]
  /\ udpDeletes f done.2 = 1%nat
  /\ UdpSocket.sentBytes done.1 = UdpSocket.sentBytes queued.1
  /\ UdpSocket.inFlight done.1 = []
  /\ (forall late, shut.1 = Done late ->
        UdpSocket.reported (UdpSocket.onSend status late).2 = []
        /\ udpDeletes f (UdpSocket.onSend status late).2 = 1%nat).
Proof.
  intros Hopen Hfree Hlen Hneg ->. cbv zeta.
  unfold UdpSocket.Send. rewrite Hopen.
  assert (Hcast : to_int32 len = len).
  { unfold to_int32. rewrite Z.mod_small by lia. lia. }
  replace (len =? 0) with false by (symmetry; apply Z.eqb_neq; lia).
  replace (UV_EAGAIN =? to_int32 len) with false
    by (symmetry; rewrite Hcast; apply Z.eqb_neq; lia).
  replace (0 <=? UV_EAGAIN) with false by (symmetry; apply Z.leb_gt; lia).
  rewrite Z.eqb_refl. cbn. rewrite Hfree. cbn.
  unfold UdpSocket.onSend, UdpSocket.OnUvSend, udpDeletes. cbn.
  split; [reflexivity |]. split; [reflexivity |].
  split; [destruct (status =? 0); reflexivity |].
  split; [destruct (status =? 0); cbn; rewrite Nat.eqb_refl; reflexivity |].
  split; [reflexivity |]. split; [reflexivity |].
  intros late Hlate. unfold UdpHandle.Close in Hlate. cbn in Hlate.
  destruct (negb (stopErr =? 0)); cbn in Hlate; [discriminate Hlate |].
  injection Hlate as <-. cbn. rewrite Nat.eqb_refl. split; reflexivity.
Qed.

Lemma X4_witness :
  let queued := UdpSocket.Send (-11) 1200 (Some 1%nat) (-11) 0
                  (UdpSocket.mkUdpSocket false 5000 []) in
  let done := UdpSocket.onSend (-101) queued.1 in
  let shut := UdpHandle.Close (fun _ => "unknown error") 0 queued.1 in
  UdpSocket.reported queued.2 = []
  /\ UdpSocket.sentBytes queued.1 = uint64 (5000 + 1200)
  /\ UdpSocket.reported done.2 = [(1%nat, -101 =? 0)]
  /\ udpDeletes 1%nat done.2 = 1%nat
  /\ UdpSocket.sentBytes done.1 = UdpSocket.sentBytes queued.1
  /\ UdpSocket.inFlight done.1 = []
  /\ (forall late, shut.1 = Done late ->
        UdpSocket.reported (UdpSocket.onSend (-101) late).2 = []
        /\ udpDeletes 1%nat (UdpSocket.onSend (-101) late).2 = 1%nat).
Proof.
  apply (X4_queued_send_completes (fun _ => "unknown error") (-11) 1200 1%nat 0 (-101) 0
           (UdpSocket.mkUdpSocket false 5000 [])).
  - reflexivity.
  - reflexivity.
  - lia.
  - lia.
  - reflexivity.
Defined.

(** X5.  [Close] is idempotent.  On an open socket it stops the reads and
    then closes the handle, once, unless [uv_udp_recv_stop] fails, which
    aborts with libuv's message before the handle is closed.  On a closed
    socket it does nothing.  On the socket it leaves behind, a second
    [Close] and the destructor do nothing, and every [Send] is refused
    without reaching libuv.  It never throws. *)
Theorem X5_close_idempotent uv_strerror stopErr stopErr' (s : UdpSocket.UdpSocket) :
  let r := UdpHandle.Close uv_strerror stopErr s in
  match r.1 with
  | Done s' =>
      UdpSocket.closed s' = true
      /\ UdpHandle.closes r.2 = (if UdpSocket.closed s then 0%nat else 1%nat)
      /\ UdpSocket.sentBytes s' = UdpSocket.sentBytes s
      /\ UdpHandle.Close uv_strerror stopErr' s' = (Done s', [])
      /\ UdpHandle.destroy uv_strerror stopErr' s' = (Done s', [])
      /\ (forall eagain len cb sent sendErr,
            (UdpSocket.Send eagain len cb sent sendErr s').1 = s'
            /\ udpTouchesUv (UdpSocket.Send eagain len cb sent sendErr s').2 = false)
  | Aborted _ =>
      UdpSocket.closed s = false /\ stopErr <> 0
      /\ r.2 = [UdpHandle.uv_udp_recv_stop]
  | Thrown _ => False
  end
  /\ (UdpSocket.closed s = true -> r = (Done s, []))
  /\ (UdpSocket.closed s = false -> stopErr = 0 ->
      r.2 = [UdpHandle.uv_udp_recv_stop; UdpHandle.uv_close]
      /\ exists s', r.1 = Done s'
                    /\ UdpSocket.closed s' = true
                    /\ UdpSocket.sentBytes s' = UdpSocket.sentBytes s
                    /\ UdpSocket.inFlight s' = UdpSocket.inFlight s)
  /\ (UdpSocket.closed s = false -> stopErr <> 0 ->
      r.2 = [UdpHandle.uv_udp_recv_stop]
      /\ r.1 = Aborted (String.append "uv_udp_recv_stop() failed: " (uv_strerror stopErr))).
Proof.
  cbv zeta. unfold UdpHandle.Close, UdpHandle.destroy.
  destruct (UdpSocket.closed s) eqn:Hc; cbn.
  - rewrite Hc. cbn.
    split; [| split; [reflexivity | split; intros Hx; discriminate Hx]].
    repeat split; auto.
    + unfold UdpSocket.Send. rewrite Hc. reflexivity.
    + unfold UdpSocket.Send. rewrite Hc. destruct cb; reflexivity.
  - destruct (stopErr =? 0) eqn:He; cbn.
    + apply Z.eqb_eq in He.
      split; [| split; [intros Hx; discriminate Hx | split]].
      * repeat split; auto. destruct cb; reflexivity.
      * intros _ _. split; [reflexivity |]. eexists. split; [reflexivity |]. auto.
      * intros _ Hn. destruct (Hn He).
    + apply Z.eqb_neq in He.
      split; [auto | split; [intros Hx; discriminate Hx | split]].
      * intros _ Hz. destruct (He Hz).
      * intros _ _. split; reflexivity.
Qed.

Lemma OnUvRecv_cases UV_UDP_PARTIAL nread flags recvBytes :
  UdpHandle.OnUvRecv UV_UDP_PARTIAL nread flags recvBytes
  = if (0 <? nread) && (Z.land flags UV_UDP_PARTIAL =? 0)
    then (uint64 (recvBytes + nread), [UdpHandle.UserOnUdpDatagramReceived nread])
    else (recvBytes, []).
Proof.
  unfold UdpHandle.OnUvRecv.
  destruct (nread =? 0) eqn:H0.
  - apply Z.eqb_eq in H0. subst. reflexivity.
  - destruct (Z.land flags UV_UDP_PARTIAL =? 0); cbn.
    + rewrite andb_true_r. reflexivity.
    + rewrite andb_false_r. reflexivity.
Qed.

(** X6.  Over any series of receive callbacks, [recvBytes] grows by the
    total length of the datagrams handed to the subclass, in 64-bit
    arithmetic: a datagram is counted exactly when it is delivered.  Only
    reads of positive length without the partial flag are delivered. *)
Theorem X6_receive_accounting UV_UDP_PARTIAL reads recvBytes :
  0 <= recvBytes < 2 ^ 64 ->
  let r := UdpHandle.receiveAll UV_UDP_PARTIAL reads recvBytes in
  r.1 = uint64 (recvBytes + fold_right Z.add 0 (UdpHandle.delivered r.2))
  /\ UdpHandle.delivered r.2
     = map fst (List.filter (fun x => (0 <? fst x)
                                      && (Z.land (snd x) UV_UDP_PARTIAL =? 0)) reads).
Proof.
  cbv zeta. revert recvBytes.
  induction reads as [| [nread flags] reads IH]; intros recvBytes Hrange.
  - cbn. split; [| reflexivity].
    rewrite Z.add_0_r. symmetry. apply Z.mod_small. exact Hrange.
  - cbn [UdpHandle.receiveAll List.filter fst snd]. rewrite OnUvRecv_cases.
    destruct ((0 <? nread) && (Z.land flags UV_UDP_PARTIAL =? 0)) eqn:Hgood;
      cbn [fst snd app].
    + destruct (IH (uint64 (recvBytes + nread))) as [Hsum Hlog].
      { unfold uint64, wrap. apply Z.mod_pos_bound. lia. }
      unfold UdpHandle.delivered in *. cbn [omap list_omap map fold_right].
      rewrite Hlog in Hsum |- *. split; [| reflexivity].
      rewrite Hsum. unfold uint64, wrap.
      rewrite Z.add_mod_idemp_l by lia. f_equal. lia.
    + apply IH. exact Hrange.
Qed.

Lemma X6_witness :
  let r := UdpHandle.receiveAll 2 [(100, 0); (0, 0); (200, 2); (-5, 0); (300, 0)] 1000 in
  r.1 = uint64 (1000 + fold_right Z.add 0 (UdpHandle.delivered r.2))
  /\ UdpHandle.delivered r.2
     = map fst (List.filter (fun x => (0 <? fst x) && (Z.land (snd x) 2 =? 0))
                  [(100, 0); (0, 0); (200, 2); (-5, 0); (300, 0)]).
Proof.
  apply (X6_receive_accounting 2 [(100, 0); (0, 0); (200, 2); (-5, 0); (300, 0)] 1000).
  lia.
Defined.

(** X7.  The constructor succeeds exactly when [uv_udp_recv_start] and
    [uv_udp_getsockname] both return 0, and then leaves the handle open.
    When either fails it throws, having closed the handle exactly once, as
    its last call.  It never asks for the local address after a failed
    start. *)
Theorem X7_failed_construction_closes uv_strerror recvStartErr getsocknameErr :
  let r := UdpHandle.create uv_strerror recvStartErr getsocknameErr in
  match r.1 with
  | Done s =>
      recvStartErr = 0 /\ getsocknameErr = 0 /\ UdpHandle.closes r.2 = 0%nat
      /\ UdpSocket.closed s = false
  | Thrown _ =>
      (recvStartErr <> 0 \/ getsocknameErr <> 0)
      /\ UdpHandle.closes r.2 = 1%nat
      /\ last r.2 = Some UdpHandle.uv_close
      /\ (recvStartErr <> 0 -> ~ In UdpHandle.uv_udp_getsockname r.2)
  | Aborted _ => False
  end.
Proof.
  cbv zeta. unfold UdpHandle.create, UdpHandle.SetLocalAddress.
  destruct (recvStartErr =? 0) eqn:Hs; cbn.
  - apply Z.eqb_eq in Hs.
    destruct (getsocknameErr =? 0) eqn:Hg; cbn.
    + apply Z.eqb_eq in Hg. auto.
    + apply Z.eqb_neq in Hg.
      split; [right; exact Hg |]. split; [reflexivity |]. split; [reflexivity |].
      intros Hn. destruct (Hn Hs).
  - apply Z.eqb_neq in Hs.
    split; [left; exact Hs |]. split; [reflexivity |]. split; [reflexivity |].
    intros _ Hin. cbn in Hin.
    repeat (destruct Hin as [Hin | Hin]; try discriminate Hin). exact Hin.
Qed.

(** ** Control requests, as a whole *)

Section RequestsAsAWhole.
Context {S : Type} `{!RtpStreamSend.Ops S} `{!Environment} `{!Serialization S}.
Implicit Types (c : Consumer S).

Lemma request_key_frame_cases c name payload :
  SimpleConsumer_HandleRequest (mkRequest CONSUMER_REQUEST_KEY_FRAME name payload) c
  = (Done tt, c,
     (if IsActive c
      then match kind c with
           | VIDEO => [OnConsumerKeyFrameRequested
                         (encSsrc (consumableRtpEncodings c !!! 0%nat))]
           | _ => []
           end
      else []) ++ [RequestAccept None]).
Proof.
  cbv beta delta [SimpleConsumer_HandleRequest]. cbn [methodId]. exec.
  destruct (IsActive c); cbn; [| reflexivity].
  destruct (kind c); reflexivity.
Qed.

(** How a request ends, by outcome. *)
Lemma request_outcomes c request :
  let r := SimpleConsumer_HandleRequest request c in
  match outcome r with
  | Done _ =>
      count isAccept (calls r) = 1%nat
      /\ (exists ack, last (calls r) = Some (RequestAccept ack))
      /\ methodId request <> OTHER_METHOD
      /\ (methodId request = CONSUMER_ENABLE_PACKET_EVENT ->
          ~ typesMalformed (data request))
  | Thrown (GenericError _) =>
      calls r = [] /\ after r = c /\ methodId request = OTHER_METHOD
  | Thrown (TypeError _) =>
      calls r = [] /\ after r = c
      /\ methodId request = CONSUMER_ENABLE_PACKET_EVENT
      /\ typesMalformed (data request)
  | Aborted _ => False
  end.
Proof.
  cbv zeta. destruct request as [m name payload].
  destruct m.
  - exec_all. split; [reflexivity |]. split; [eexists; reflexivity |].
    split; [discriminate | intros Hm; discriminate Hm].
  - exec_all. split; [reflexivity |]. split; [eexists; reflexivity |].
    split; [discriminate | intros Hm; discriminate Hm].
  - change (SimpleConsumer_HandleRequest (mkRequest CONSUMER_PAUSE name payload) c)
      with (Consumer_HandleRequest (mkRequest CONSUMER_PAUSE name payload) c).
    destruct (paused c) eqn:Hp.
    + rewrite pause_when_paused by exact Hp. cbn.
      split; [reflexivity |]. split; [eexists; reflexivity |].
      split; [discriminate | intros Hm; discriminate Hm].
    + rewrite pause_when_running by exact Hp.
      destruct (IsActive c); cbn;
        (split; [reflexivity |]); (split; [eexists; reflexivity |]);
        (split; [discriminate | intros Hm; discriminate Hm]).
  - change (SimpleConsumer_HandleRequest (mkRequest CONSUMER_RESUME name payload) c)
      with (Consumer_HandleRequest (mkRequest CONSUMER_RESUME name payload) c).
    destruct (paused c) eqn:Hp.
    + rewrite resume_when_paused by exact Hp.
      destruct (IsActive (set_paused false c)); cbn; [destruct (kind c); cbn |];
        (split; [reflexivity |]); (split; [eexists; reflexivity |]);
        (split; [discriminate | intros Hm; discriminate Hm]).
    + rewrite resume_when_running by exact Hp. cbn.
      split; [reflexivity |]. split; [eexists; reflexivity |].
      split; [discriminate | intros Hm; discriminate Hm].
  - unfold typesMalformed. cbv beta delta [SimpleConsumer_HandleRequest Consumer_HandleRequest].
    cbn [methodId data].
    destruct (json_find "types" payload) as [[| | | | items |] |]; exec; auto.
    rewrite readPacketEventTypes_spec.
    destruct (forallb is_string items) eqn:Hall; cbn.
    + split; [reflexivity |]. split; [eexists; reflexivity |].
      split; [discriminate |]. intros _ Hbad.
      apply forallb_is_string in Hbad. congruence.
    + apply forallb_is_string in Hall. auto.
  - rewrite request_key_frame_cases. cbn.
    destruct (IsActive c); [destruct (kind c) |]; cbn;
      (split; [reflexivity |]); (split; [eexists; reflexivity |]);
      (split; [discriminate | intros Hm; discriminate Hm]).
  - exec_all. auto.
Qed.

(** X8.  Every control request is all or nothing.  Handling it either ends
    normally with exactly one acknowledgement, which is the last call made,
    or throws before any call is made and before any field is written; it
    never aborts the worker.  It throws a generic error exactly for a
    method the Consumer does not know, and a type error exactly for an
    ENABLE_PACKET_EVENT request with malformed [types]: such a request is
    never acknowledged, and every other request of a known method is. *)
Theorem X8_requests_are_atomic c request :
  let r := SimpleConsumer_HandleRequest request c in
  match outcome r with
  | Done _ =>
      count isAccept (calls r) = 1%nat
      /\ (exists ack, last (calls r) = Some (RequestAccept ack))
      /\ methodId request <> OTHER_METHOD
      /\ (methodId request = CONSUMER_ENABLE_PACKET_EVENT ->
          ~ typesMalformed (data request))
  | Thrown (GenericError _) =>
      calls r = [] /\ after r = c /\ methodId request = OTHER_METHOD
  | Thrown (TypeError _) =>
      calls r = [] /\ after r = c
      /\ methodId request = CONSUMER_ENABLE_PACKET_EVENT
      /\ typesMalformed (data request)
  | Aborted _ => False
  end
  /\ ((exists msg, outcome r = Thrown (TypeError msg))
      <-> methodId request = CONSUMER_ENABLE_PACKET_EVENT
          /\ typesMalformed (data request))
  /\ ((exists msg, outcome r = Thrown (GenericError msg))
      <-> methodId request = OTHER_METHOD)
  /\ (outcome r = Done tt
      <-> methodId request <> OTHER_METHOD
          /\ ~ (methodId request = CONSUMER_ENABLE_PACKET_EVENT
                /\ typesMalformed (data request))).
Proof.
  cbv zeta. pose proof (request_outcomes c request) as Hcases. cbv zeta in Hcases.
  split; [exact Hcases |].
  destruct (outcome (SimpleConsumer_HandleRequest request c)) as [[] | [msg | msg] | msg].
  - destruct Hcases as (_ & _ & Hknown & Hwell).
    split; [| split].
    + split; [intros [m Hm]; discriminate Hm | intros [Hm Hbad]; destruct (Hwell Hm Hbad)].
    + split; [intros [m Hm]; discriminate Hm | intros Hm; destruct (Hknown Hm)].
    + split; [intros _; split; [exact Hknown | intros [Hm Hbad]; exact (Hwell Hm Hbad)]
             | reflexivity].
  - destruct Hcases as (_ & _ & Hm & Hbad).
    split; [| split].
    + split; [auto | intros _; eexists; reflexivity].
    + split; [intros [m Hx]; discriminate Hx | intros Hx; congruence].
    + split; [intros Hx; discriminate Hx | intros [_ Hn]; destruct (Hn (conj Hm Hbad))].
  - destruct Hcases as (_ & _ & Hm).
    split; [| split].
    + split; [intros [m Hx]; discriminate Hx | intros [Hx _]; congruence].
    + split; [auto | intros _; eexists; reflexivity].
    + split; [intros Hx; discriminate Hx | intros [Hn _]; destruct (Hn Hm)].
  - destruct Hcases.
Qed.
End RequestsAsAWhole.

(** ** Feedback from the remote endpoint *)

Section Feedback.
Context {S : Type} `{!RtpStreamSend.Ops S} `{!Environment} `{!Serialization S}.
Implicit Types (c : Consumer S).

Lemma retransmit_one packet c :
  OnRtpStreamRetransmitRtpPacket packet c = (Done tt, c, retransmissionLog c packet).
Proof.
  unfold OnRtpStreamRetransmitRtpPacket, retransmissionLog, rtpEventData. exec.
  destruct (rtp (packetEventTypes c)); reflexivity.
Qed.

(** The retransmission callbacks, one packet after the other. *)
Lemma forEach_retransmit_log found c :
  forEach OnRtpStreamRetransmitRtpPacket found c
  = (Done tt, c, flat_map (retransmissionLog c) found).
Proof.
  induction found as [| packet found IH]; cbn [forEach flat_map].
  - reflexivity.
  - unfold bind. rewrite retransmit_one, IH. reflexivity.
Qed.


End Feedback.

Section KeyFrames.
Context {S : Type} `{!RtpStreamSend.Ops S} `{!Environment} `{!Serialization S}.
Implicit Types (c : Consumer S).

Lemma keyFrameRequests_retransmissions c found :
  keyFrameRequests (flat_map (retransmissionLog c) found) = []
  /\ transmitted (flat_map (retransmissionLog c) found) = []
  /\ Forall (fun t => t = Some (JString "rtp") /\ rtp (packetEventTypes c) = true)
       (packetEvents (flat_map (retransmissionLog c) found)).
Proof.
  induction found as [| p found (IH1 & IH2 & IH3)]; cbn; [auto |].
  unfold keyFrameRequests, transmitted, packetEvents in *.
  unfold retransmissionLog at 1 3 5. unfold rtpEventData.
  destruct (rtp (packetEventTypes c)) eqn:Hr; cbn; auto.
Qed.

(** X10.  A key frame request from the remote endpoint is always recorded
    by the send stream, exactly once, whether the Consumer is active or
    not, and the stream is the only field written.  It surfaces as one
    'packet' event when it is a PLI or a FIR whose event type is enabled,
    and as none otherwise.  It is passed up to the listener only by an
    active video Consumer, and then for the Consumer's own consumable SSRC,
    not for the SSRC named in the feedback. *)
Theorem X10_key_frame_request_from_remote c messageType ssrc :
  let r := ReceiveKeyFrameRequest messageType ssrc c in
  outcome r = Done tt
  /\ after r
     = set_rtpStream (RtpStreamSend.ReceiveKeyFrameRequest messageType (rtpStream c)) c
  /\ count isStreamKeyFrameRequest (calls r) = 1%nat
  /\ count isPacketEvent (calls r)
     = (if keyFrameEventEnabled (packetEventTypes c) messageType then 1%nat else 0%nat)
  /\ keyFrameRequests (calls r)
     = (if IsActive c && isVideo (kind c)
        then [encSsrc (consumableRtpEncodings c !!! 0%nat)] else []).
Proof.
  cbv zeta. exec.
  destruct messageType; cbn;
    repeat match goal with
           | |- context [pli ?t] => destruct (pli t); cbn
           | |- context [fir ?t] => destruct (fir t); cbn
           end;
    match goal with
    | |- context [IsActive (set_rtpStream ?s c)] =>
        change (IsActive (set_rtpStream s c)) with (IsActive c)
    end;
    destruct (IsActive c); cbn; try destruct (kind c); cbn; auto.
Qed.
End KeyFrames.

(** ** What no event ever does *)

Section Lifetime.
Context {S : Type} `{!RtpStreamSend.Ops S} `{!Environment} `{!Serialization S}.
Implicit Types (c : Consumer S).

(** Every event ends normally and leaves the Consumer's description alone;
    none reopens a closed producer; only a RESUME request clears [paused]. *)
Lemma step_frames e c :
  outcome (step e c) = Done tt
  /\ kind (after (step e c)) = kind c
  /\ consumableRtpEncodings (after (step e c)) = consumableRtpEncodings c
  /\ (producerClosed c = true -> producerClosed (after (step e c)) = true)
  /\ (isResumeRequest e = false -> paused c = true -> paused (after (step e c)) = true).
Proof.
  destruct e; cbn [isResumeRequest];
    run_step ltac:(first [rewrite readPacketEventTypes_spec | rewrite forEach_retransmit_log]);
    repeat split; auto; try discriminate.
Qed.

(** An inactive Consumer hands nothing to the listener, whatever arrives. *)
Lemma step_quiet e c :
  IsActive c = false ->
  transmitted (calls (step e c)) = [] /\ retransmitted (calls (step e c)) = [].
Proof.
  intros Hc. destruct e;
    run_step ltac:(first [rewrite Hc | rewrite readPacketEventTypes_spec
                         | rewrite forEach_retransmit_log]);
    auto.
Qed.

(** X11.  Whatever the event, the listener is asked for a key frame only by
    a video Consumer that is active once the event has been handled, and
    only for the Consumer's first consumable SSRC.  An audio Consumer never
    asks. *)
Theorem X11_key_frames_only_when_active_video e c ssrc :
  In ssrc (keyFrameRequests (calls (step e c))) ->
  kind c = VIDEO
  /\ IsActive (after (step e c)) = true
  /\ ssrc = encSsrc (consumableRtpEncodings c !!! 0%nat).
Proof.
  destruct e;
    run_step ltac:(first [rewrite readPacketEventTypes_spec
                         | rewrite forEach_retransmit_log]);
    unfold keyFrameRequests; rewrite ?omap_app; cbn;
    try (fold (keyFrameRequests (flat_map (retransmissionLog
           (set_rtpStream (RtpStreamSend.ReceiveNack nackPacket (rtpStream c)).2 c))
           (RtpStreamSend.ReceiveNack nackPacket (rtpStream c)).1));
         rewrite (proj1 (keyFrameRequests_retransmissions _ _)));
    intros Hin; in_log Hin; subst; auto.
Qed.

Lemma packetEvents_retransmissions c c' found t :
  packetEventTypes c' = packetEventTypes c ->
  In t (packetEvents (flat_map (retransmissionLog c') found)) ->
  packetEventEnabled (packetEventTypes c) t = true.
Proof.
  intros Hsame Hin.
  destruct (keyFrameRequests_retransmissions c' found) as (_ & _ & Hall).
  rewrite Forall_forall in Hall. destruct (Hall t) as [-> Hr].
  - apply list_elem_of_In. exact Hin.
  - cbn. rewrite <- Hsame. exact Hr.
Qed.

(** X12.  Whatever the event, every 'packet' notification it emits has a
    type (rtp, nack, pli or fir) that was enabled in [packetEventTypes]
    when the event arrived: a type that is switched off never surfaces. *)
Theorem X12_only_enabled_packet_events e c t :
  In t (packetEvents (calls (step e c))) ->
  packetEventEnabled (packetEventTypes c) t = true.
Proof.
  destruct e;
    run_step ltac:(first [rewrite readPacketEventTypes_spec
                         | rewrite forEach_retransmit_log]);
    unfold packetEvents; rewrite ?omap_app; cbn;
    repeat match goal with
           | Hn : negb _ = false |- _ => apply negb_false_iff in Hn
           end;
    try (intros Hin; in_log Hin; subst; cbn; auto; fail).
  all: intros Hin;
    repeat match goal with
           | Hx : _ \/ _ |- _ =>
               destruct Hx as [Hx | Hx]; [subst; cbn; auto; fail |]
           end;
    eapply packetEvents_retransmissions; [| exact Hin]; reflexivity.
Qed.

(** A condition that keeps the Consumer inactive and that the events at
    hand preserve keeps the listener silent over the whole run. *)
Lemma run_quiet (inv : Consumer S -> Prop) (allowed : Event -> bool) :
  (forall c, inv c -> IsActive c = false) ->
  (forall e c, allowed e = true -> inv c -> inv (after (step e c))) ->
  forall events c,
    forallb allowed events = true -> inv c ->
    outcome (run events c) = Done tt
    /\ inv (after (run events c))
    /\ transmitted (calls (run events c)) = []
    /\ retransmitted (calls (run events c)) = [].
Proof.
  intros Hinactive Hkeeps events.
  induction events as [| e events IH]; intros c Hall Hinv.
  - cbn. auto.
  - cbn in Hall. apply andb_prop in Hall. destruct Hall as [He Hall].
    change (run (e :: events) c) with (bind (step e) (fun _ => run events) c).
    destruct (step_frames e c) as (Hdone & _).
    rewrite (bind_Done _ _ c tt Hdone). cbn.
    destruct (step_quiet e c (Hinactive c Hinv)) as [Ht Hr].
    destruct (IH (after (step e c)) Hall (Hkeeps e c He Hinv)) as (Hd & Hi & Ht' & Hr').
    unfold transmitted, retransmitted in *. rewrite !omap_app.
    unfold calls in *. rewrite Ht, Hr, Ht', Hr'. auto.
Qed.

(** X13.  A closed producer is final.  Once [producerClosed] is set, no
    series of events clears it: every event still ends normally, the
    Consumer stays inactive, and the listener receives neither a packet nor
    a retransmission, whatever packets, requests and feedback follow. *)
Theorem X13_producer_closed_is_final events c :
  producerClosed c = true ->
  let r := run events c in
  outcome r = Done tt
  /\ producerClosed (after r) = true
  /\ IsActive (after r) = false
  /\ transmitted (calls r) = []
  /\ retransmitted (calls r) = [].
Proof.
  intros Hclosed. cbv zeta.
  assert (Hinactive : forall c', producerClosed c' = true -> IsActive c' = false).
  { intros c' Hc'. unfold IsActive. rewrite Hc'. cbn.
    rewrite andb_false_r. reflexivity. }
  destruct (run_quiet (fun c' => producerClosed c' = true) (fun _ => true) Hinactive)
    with (events := events) (c := c) as (Hd & Hi & Ht & Hr).
  - intros e c' _ Hc'. apply step_frames. exact Hc'.
  - clear. induction events; cbn; auto.
  - exact Hclosed.
  - auto.
Qed.

(** X14.  A pause holds until a RESUME request.  From a paused Consumer, a
    series of events without RESUME request leaves [paused] set and hands
    nothing to the listener: no packet and no retransmission, whatever
    arrives and whatever the transport and the producer do. *)
Theorem X14_paused_until_resumed events c :
  paused c = true ->
  forallb (fun e => negb (isResumeRequest e)) events = true ->
  let r := run events c in
  outcome r = Done tt
  /\ paused (after r) = true
  /\ transmitted (calls r) = []
  /\ retransmitted (calls r) = [].
Proof.
  intros Hpaused Hevents. cbv zeta.
  assert (Hinactive : forall c', paused c' = true -> IsActive c' = false).
  { intros c' Hc'. unfold IsActive. rewrite Hc'. cbn.
    rewrite andb_false_r. reflexivity. }
  apply (run_quiet (fun c' => paused c' = true) (fun e => negb (isResumeRequest e))
           Hinactive); auto.
  intros e c' He Hc'. apply negb_true_iff in He. apply step_frames; assumption.
Qed.
End Lifetime.

(** ** More on the forwarding path *)

Section ForwardingShape.
Context {S : Type} `{!RtpStreamSend.Ops S} `{!Environment} `{!Serialization S}.
Implicit Types (c : Consumer S) (packet q : RtpPacket).

(** X15.  What the listener receives from [SendRtpPacket] is the packet it
    was given with two fields rewritten: the SSRC is the Consumer's first
    outgoing SSRC, and timestamp, payload type, key-frame mark and payload
    are untouched.  Its payload type is one the Consumer supports.  The
    send stream accepted that very packet just before: in the log the
    stream's acceptance comes right before the transmission, after calls to
    the sequence-number remapper only, and only a notification may follow.
    The listener receives one packet per call at most. *)
Theorem X15_transmitted_packet_shape c packet q :
  In (OnConsumerSendRtpPacket q) (calls (SendRtpPacket packet c)) ->
  ssrc q = uint32 (encSsrc (encodings c !!! 0%nat))
  /\ timestamp q = timestamp packet
  /\ payloadType q = payloadType packet
  /\ isKeyFrame q = isKeyFrame packet
  /\ payloadLength q = payloadLength packet
  /\ payloadType packet ∈ supportedCodecPayloadTypes c
  /\ In (RtpStream_ReceivePacket q true) (calls (SendRtpPacket packet c))
  /\ transmitted (calls (SendRtpPacket packet c)) = [q]
  /\ (exists before later,
        calls (SendRtpPacket packet c)
        = before ++ RtpStream_ReceivePacket q true :: OnConsumerSendRtpPacket q :: later
        /\ Forall (fun e => match e with
                            | RtpSeqManager_Sync _ | RtpSeqManager_Input _ _ => True
                            | _ => False
                            end) before
        /\ Forall (fun e => match e with
                            | NotifierEmit _ _ _ => True
                            | _ => False
                            end) later).
Proof.
  exec. unfold GetPayloadType.
  repeat split_test; cbn; intros Hin; in_log Hin;
    injection Hin as <-; cbn;
    repeat match goal with
           | Hn : negb _ = false |- _ => apply negb_false_iff in Hn
           | Hd : bool_decide _ = true |- _ => apply bool_decide_eq_true in Hd
           | Hr : (RtpStreamSend.ReceivePacket _ _).1 = true |- _ => rewrite Hr
           end;
    do 8 (split; [solve [auto] |]);
    first [ eexists [_], _; split; [reflexivity |]; split; repeat constructor
          | eexists [_; _], _; split; [reflexivity |]; split; repeat constructor ].
Qed.

(** X16.  Resynchronisation happens once per epoch.  When [syncRequired] is
    set, the packet that is admitted is a key frame if the codec has key
    frames; its call resynchronises the remapper once, on the packet's
    number minus one, before the remapper is asked, and clears
    [syncRequired], so that the next call does not resynchronise.
    [TransportConnected] always sets [syncRequired]. *)
Theorem X16_resync_once_per_epoch c packet q accepted next :
  syncRequired c = true ->
  In (RtpStream_ReceivePacket q accepted) (calls (SendRtpPacket packet c)) ->
  let r := SendRtpPacket packet c in
  (keyFrameSupported c = true -> isKeyFrame packet = true)
  /\ (exists rest,
        calls r
        = RtpSeqManager_Sync (uint16 (sequenceNumber packet - 1))
          :: RtpSeqManager_Input (sequenceNumber packet) (sequenceNumber q) :: rest
        /\ existsb isSync rest = false)
  /\ syncRequired (after r) = false
  /\ existsb isSync (calls (SendRtpPacket next (after r))) = false
  /\ syncRequired (after (TransportConnected (after r))) = true.
Proof.
  intros Hsync Hadm. cbv zeta.
  assert (Hnext : forall c', syncRequired c' = false ->
                    existsb isSync (calls (SendRtpPacket next c')) = false).
  { intros c' Hc'. exec. repeat split_test; try reflexivity; congruence. }
  assert (Hconnected : forall c', syncRequired (after (TransportConnected c')) = true).
  { intros c'. exec_all. repeat split_test; reflexivity. }
  split; [| split; [| split; [| split]]]; try apply Hconnected.
  - revert Hadm. exec. unfold IsKeyFrame.
    repeat split_test; cbn; intros Hin Hkey; in_log Hin; try congruence.
    all: rewrite Hkey in *; cbn in *;
      repeat match goal with
             | Hn : negb _ = false |- _ => apply negb_false_iff in Hn
             end; congruence.
  - revert Hadm. exec. unfold GetSequenceNumber.
    repeat split_test; cbn; intros Hin; in_log Hin; try congruence;
      injection Hin as <- _; cbn; rewrite ?uint16_idem;
      eexists; (split; [reflexivity |]); reflexivity.
  - revert Hadm. exec.
    repeat split_test; cbn; intros Hin; in_log Hin; try congruence; reflexivity.
  - apply Hnext. revert Hadm. exec.
    repeat split_test; cbn; intros Hin; in_log Hin; try congruence; reflexivity.
Qed.
End ForwardingShape.

(** ** Statistics and the dump *)

Section Statistics.
Context {S : Type} `{!RtpStreamSend.Ops S} `{!Environment} `{!Serialization S}.
Implicit Types (c : Consumer S).

Lemma worstAfter_max c worst :
  worstAfter c worst
  = if IsActive c
    then Z.max worst (RtpStreamSend.GetFractionLost (rtpStream c))
    else worst.
Proof.
  unfold worstAfter. exec_more.
  destruct (IsActive c); cbn; [| reflexivity].
  destruct (worst <? RtpStreamSend.GetFractionLost (rtpStream c)) eqn:Hlt; cbn.
  - apply Z.ltb_lt in Hlt. lia.
  - apply Z.ltb_ge in Hlt. lia.
Qed.

(** X17.  [NeedWorstRemoteFractionLost] only reads the Consumer.  It never
    lowers the value it is given; an active Consumer raises it to its own
    fraction lost when that is worse, an inactive one leaves it alone: the
    value that comes out of an active Consumer is the larger of the value
    that went in and the fraction lost of its send stream, no more.  Asking
    the same Consumer twice changes nothing more, and the order in which
    two Consumers are asked does not matter. *)
Theorem X17_worst_fraction_lost c c' worst :
  NeedWorstRemoteFractionLost worst c = (Done (worstAfter c worst), c, [])
  /\ worst <= worstAfter c worst
  /\ (IsActive c = true ->
      RtpStreamSend.GetFractionLost (rtpStream c) <= worstAfter c worst)
  /\ (IsActive c = false -> worstAfter c worst = worst)
  /\ worstAfter c (worstAfter c worst) = worstAfter c worst
  /\ worstAfter c' (worstAfter c worst) = worstAfter c (worstAfter c' worst)
  /\ worstAfter c worst
     = (if IsActive c
        then Z.max worst (RtpStreamSend.GetFractionLost (rtpStream c))
        else worst)
  /\ (IsActive c = true ->
      outcome (NeedWorstRemoteFractionLost worst c)
      = Done (Z.max worst (RtpStreamSend.GetFractionLost (rtpStream c)))).
Proof.
  split; [| split; [| split; [| split; [| split; [| split]]]]].
  - unfold worstAfter. exec_more. repeat split_test; reflexivity.
  - rewrite !worstAfter_max. destruct (IsActive c); lia.
  - rewrite !worstAfter_max. intros ->. lia.
  - rewrite !worstAfter_max. intros ->. reflexivity.
  - rewrite !worstAfter_max. destruct (IsActive c); lia.
  - rewrite !worstAfter_max. destruct (IsActive c), (IsActive c'); lia.
  - split; [apply worstAfter_max |].
    intros Hactive. exec_more. rewrite Hactive. cbn.
    destruct (worst <? RtpStreamSend.GetFractionLost (rtpStream c)) eqn:Hlt; cbn; f_equal.
    + apply Z.ltb_lt in Hlt. lia.
    + apply Z.ltb_ge in Hlt. lia.
Qed.

(** X18.  The [packetEventTypes] string of a dump is the list of the
    enabled types in the order rtp, nack, pli, fir, joined by commas, with
    no comma at the end and empty when none is enabled.  It determines the
    setting: two different settings never dump to the same string.  Fed
    back as the [types] of an ENABLE_PACKET_EVENT request, the dumped names
    restore the very setting they were dumped from. *)
Theorem X18_packet_event_types_round_trip c name (t t' : PacketEventTypes) :
  let request :=
    mkRequest CONSUMER_ENABLE_PACKET_EVENT name
      (JObject [("types", JArray (map JString (packetEventTypesVector t)))]) in
  packetEventTypesDump t = String.concat "," (packetEventTypesVector t)
  /\ (packetEventTypesDump t = packetEventTypesDump t' -> t = t')
  /\ outcome (Consumer_HandleRequest request c) = Done tt
  /\ packetEventTypes (after (Consumer_HandleRequest request c)) = t.
Proof.
  cbv zeta. split; [| split].
  - destruct t as [[] [] [] []]; reflexivity.
  - destruct t as [[] [] [] []], t' as [[] [] [] []];
      vm_compute; intros Heq; first [reflexivity | discriminate Heq].
  - cbv beta delta [Consumer_HandleRequest]. cbn [methodId data json_find assoc_find].
    cbn. exec. rewrite readPacketEventTypes_spec.
    destruct t as [[] [] [] []]; cbn; auto.
Qed.
End Statistics.

(** ** Construction *)

Section ConstructionProperties.
Context `{!Declarations}.

Lemma checkEncodings_Done encodings u :
  checkEncodings encodings = Done u ->
  Forall (fun e => encSsrc e <> 0 /\ (hasRtx e = true -> rtxSsrc e <> 0)) encodings.
Proof.
  induction encodings as [| e rest IH]; cbn; intros Hdone; [constructor |].
  destruct (encSsrc e =? 0) eqn:Hssrc; [discriminate Hdone |].
  destruct (hasRtx e) eqn:Hrtx; cbn in Hdone.
  - destruct (rtxSsrc e =? 0) eqn:Hrtxssrc; [discriminate Hdone |].
    constructor; [split; [lia | intros _; lia] | auto].
  - constructor; [split; [lia | intros Hhas; congruence] | auto].
Qed.

Lemma readConsumableRtpEncodings_Done entries :
  forall done r,
    readConsumableRtpEncodings entries done = Done r ->
    exists placed,
      r = done ++ placed
      /\ Forall2 (fun entry e => RtpEncodingParameters_parse entry = Done e) entries placed
      /\ Forall (fun e => encSsrc e <> 0) placed.
Proof.
  induction entries as [| entry rest IH]; cbn; intros done r Hdone.
  - exists []. inversion Hdone; subst. rewrite app_nil_r. repeat constructor.
  - destruct (RtpEncodingParameters_parse entry) as [e | |] eqn:Hparse;
      cbn in Hdone; try discriminate Hdone.
    destruct (encSsrc e =? 0) eqn:Hssrc; [discriminate Hdone |].
    destruct (IH _ _ Hdone) as (placed & -> & Hall & Hnz).
    exists (e :: placed). rewrite <- app_assoc. cbn.
    split; [reflexivity |]. split; constructor; auto. lia.
Qed.

Lemma fillMediaSsrcs_map encodings :
  forall v, fillMediaSsrcs encodings v = v ++ map encSsrc encodings.
Proof.
  induction encodings as [| e rest IH]; cbn; intros v.
  - now rewrite app_nil_r.
  - rewrite IH, <- app_assoc. reflexivity.
Qed.

Lemma fillRtxSsrcs_map encodings :
  forall v, fillRtxSsrcs encodings v = v ++ map rtxSsrc (List.filter hasRtx encodings).
Proof.
  induction encodings as [| e rest IH]; cbn; intros v.
  - now rewrite app_nil_r.
  - rewrite IH. destruct (hasRtx e); cbn; [rewrite <- app_assoc |]; reflexivity.
Qed.

Lemma fillSupportedCodecPayloadTypes_elem codecs :
  forall supported pt,
    pt ∈ fillSupportedCodecPayloadTypes codecs supported
    <-> pt ∈ supported
        \/ exists codec, In codec codecs
                         /\ IsMediaCodec (RtpCodecParameters.mimeType codec) = true
                         /\ RtpCodecParameters.payloadType codec = pt.
Proof.
  induction codecs as [| codec rest IH]; cbn; intros supported pt.
  - split; [auto | intros [Hin | (? & [] & _)]; exact Hin].
  - rewrite IH. destruct (IsMediaCodec (RtpCodecParameters.mimeType codec)) eqn:Hmedia.
    + rewrite elem_of_union, elem_of_singleton. split.
      * intros [[-> | Hin] | (c & Hc & Hm & Hpt)]; eauto 8.
      * intros [Hin | (c & [-> | Hc] & Hm & Hpt)]; eauto 8.
    + split.
      * intros [Hin | (c & Hc & Hm & Hpt)]; eauto 8.
      * intros [Hin | (c & [-> | Hc] & Hm & Hpt)]; eauto 8. congruence.
Qed.

Lemma firstWins_cons u exten rest current :
  RtpHeaderExtensionParameters.id exten <> 0 ->
  firstWins u rest
    (if (current =? 0)
        && RtpHeaderExtensionUri.eqb (RtpHeaderExtensionParameters.type exten) u
     then RtpHeaderExtensionParameters.id exten else current)
  = firstWins u (exten :: rest) current.
Proof.
  intros Hid. unfold firstWins, firstExtensionId. cbn.
  destruct (current =? 0) eqn:Hcur; cbn.
  - destruct (RtpHeaderExtensionUri.eqb _ u); [| now rewrite Hcur].
    apply Z.eqb_neq in Hid. now rewrite Hid.
  - now rewrite Hcur.
Qed.

Lemma fillHeaderExtensionIds_Done extens :
  forall ids r,
    fillHeaderExtensionIds extens ids = Done r ->
    Forall (fun e => RtpHeaderExtensionParameters.id e <> 0) extens
    /\ r = RtpHeaderExtensionIds.mk
             (firstWins RtpHeaderExtensionUri.SSRC_AUDIO_LEVEL extens
                (RtpHeaderExtensionIds.ssrcAudioLevel ids))
             (firstWins RtpHeaderExtensionUri.VIDEO_ORIENTATION extens
                (RtpHeaderExtensionIds.videoOrientation ids))
             (firstWins RtpHeaderExtensionUri.ABS_SEND_TIME extens
                (RtpHeaderExtensionIds.absSendTime ids))
             (firstWins RtpHeaderExtensionUri.TRANSPORT_WIDE_CC_01 extens
                (RtpHeaderExtensionIds.transportWideCc01 ids))
             (firstWins RtpHeaderExtensionUri.MID extens (RtpHeaderExtensionIds.mid ids))
             (firstWins RtpHeaderExtensionUri.RTP_STREAM_ID extens
                (RtpHeaderExtensionIds.rid ids))
             (firstWins RtpHeaderExtensionUri.REPAIRED_RTP_STREAM_ID extens
                (RtpHeaderExtensionIds.rrid ids)).
Proof.
  induction extens as [| exten rest IH]; intros ids r Hdone.
  - cbn in Hdone. inversion Hdone; subst. split; [constructor |].
    destruct r as [a b c d e f g]. unfold firstWins, firstExtensionId. cbn.
    destruct (a =? 0) eqn:Ha, (b =? 0) eqn:Hb, (c =? 0) eqn:Hc, (d =? 0) eqn:Hd,
             (e =? 0) eqn:He, (f =? 0) eqn:Hf, (g =? 0) eqn:Hg;
      repeat match goal with Hx : (_ =? 0) = true |- _ => apply Z.eqb_eq in Hx end;
      subst; reflexivity.
  - cbn [fillHeaderExtensionIds] in Hdone.
    destruct (RtpHeaderExtensionParameters.id exten =? 0) eqn:Hid; [discriminate Hdone |].
    apply Z.eqb_neq in Hid.
    destruct (IH _ _ Hdone) as [Hall ->]. split; [constructor; auto |].
    unfold fillHeaderExtensionId. cbn [RtpHeaderExtensionIds.ssrcAudioLevel
      RtpHeaderExtensionIds.videoOrientation RtpHeaderExtensionIds.absSendTime
      RtpHeaderExtensionIds.transportWideCc01 RtpHeaderExtensionIds.mid
      RtpHeaderExtensionIds.rid RtpHeaderExtensionIds.rrid].
    now rewrite !firstWins_cons.
Qed.

(** What a successful construction went through. *)
Lemma Consumer_construct_Done data m :
  Consumer_construct data = Done m ->
  exists kindName members entries,
    json_find "kind" data = Some (JString kindName)
    /\ GetKind kindName = Done (Constructed.kind m)
    /\ Constructed.kind m <> ALL
    /\ json_find "rtpParameters" data = Some (JObject members)
    /\ RtpParameters_parse (JObject members) = Done (Constructed.rtpParameters m)
    /\ RtpParameters.encodings (Constructed.rtpParameters m) <> []
    /\ checkEncodings (RtpParameters.encodings (Constructed.rtpParameters m)) = Done tt
    /\ json_find "consumableRtpEncodings" data = Some (JArray entries)
    /\ entries <> []
    /\ readConsumableRtpEncodings entries [] = Done (Constructed.consumableRtpEncodings m)
    /\ fillHeaderExtensionIds
         (RtpParameters.headerExtensions (Constructed.rtpParameters m))
         RtpHeaderExtensionIds.unassigned
       = Done (Constructed.rtpHeaderExtensionIds m)
    /\ Constructed.paused m
       = match json_find "paused" data with
         | Some (JBool b) => b
         | _ => pausedInitially
         end
    /\ Constructed.supportedCodecPayloadTypes m
       = fillSupportedCodecPayloadTypes
           (RtpParameters.codecs (Constructed.rtpParameters m)) ∅
    /\ Constructed.mediaSsrcs m
       = fillMediaSsrcs (RtpParameters.encodings (Constructed.rtpParameters m)) []
    /\ Constructed.rtxSsrcs m
       = fillRtxSsrcs (RtpParameters.encodings (Constructed.rtpParameters m)) []
    /\ Constructed.maxRtcpInterval m
       = match Constructed.kind m with
         | AUDIO => MaxAudioIntervalMs
         | _ => MaxVideoIntervalMs
         end.
Proof.
  unfold Consumer_construct. intros Hdone.
  destruct (json_find "kind" data) as [[| | | kindName | |] |]; try discriminate Hdone.
  destruct (GetKind kindName) as [kind | |] eqn:Hkind; cbn in Hdone; try discriminate Hdone.
  assert (Hall : kind <> ALL) by (intros ->; discriminate Hdone).
  assert (Hrest :
    match json_find "rtpParameters" data with
    | Some (JObject members) =>
        andThen (RtpParameters_parse (JObject members)) (fun rtpParameters =>
        match RtpParameters.encodings rtpParameters with
        | [] => Thrown (TypeError "empty rtpParameters.encodings")
        | _ :: _ =>
            andThen (checkEncodings (RtpParameters.encodings rtpParameters)) (fun _ =>
            match json_find "consumableRtpEncodings" data with
            | Some (JArray []) => Thrown (TypeError "empty consumableRtpEncodings")
            | Some (JArray entries) =>
                andThen (readConsumableRtpEncodings entries []) (fun consumable =>
                andThen (fillHeaderExtensionIds
                           (RtpParameters.headerExtensions rtpParameters)
                           RtpHeaderExtensionIds.unassigned) (fun ids =>
                let paused :=
                  match json_find "paused" data with
                  | Some (JBool b) => b
                  | _ => pausedInitially
                  end in
                Done (Constructed.mk kind rtpParameters consumable ids paused
                        (fillSupportedCodecPayloadTypes
                           (RtpParameters.codecs rtpParameters) ∅)
                        (fillMediaSsrcs (RtpParameters.encodings rtpParameters) [])
                        (fillRtxSsrcs (RtpParameters.encodings rtpParameters) [])
                        (match kind with
                         | AUDIO => MaxAudioIntervalMs
                         | _ => MaxVideoIntervalMs
                         end))))
            | _ => Thrown (TypeError "missing consumableRtpEncodings")
            end)
        end)
    | _ => Thrown (TypeError "missing rtpParameters")
    end = Done m) by (destruct kind; first [exact Hdone | contradiction]).
  clear Hdone.
  destruct (json_find "rtpParameters" data) as [[| | | | | members] |];
    try discriminate Hrest.
  destruct (RtpParameters_parse (JObject members)) as [rtpParameters | |] eqn:Hparse;
    cbn in Hrest; try discriminate Hrest.
  destruct (RtpParameters.encodings rtpParameters) as [| e rest] eqn:Hencodings;
    [discriminate Hrest |].
  destruct (checkEncodings (e :: rest)) as [[] | |] eqn:Hcheck;
    cbn [andThen] in Hrest; try discriminate Hrest.
  destruct (json_find "consumableRtpEncodings" data) as [[| | | | items |] |];
    try discriminate Hrest.
  destruct items as [| entry entries]; [discriminate Hrest |].
  destruct (readConsumableRtpEncodings (entry :: entries) []) as [consumable | |] eqn:Hread;
    cbn [andThen] in Hrest; try discriminate Hrest.
  destruct (fillHeaderExtensionIds (RtpParameters.headerExtensions rtpParameters)
              RtpHeaderExtensionIds.unassigned) as [ids | |] eqn:Hids;
    cbn [andThen] in Hrest; try discriminate Hrest.
  cbv zeta in Hrest. inversion Hrest; subst m; clear Hrest. cbn.
  exists kindName, members, (entry :: entries).
  rewrite Hencodings. repeat split; auto; discriminate.
Qed.

(** X19.  A Consumer that was constructed has a kind other than ALL, at
    least one encoding and at least one consumable encoding; its media
    SSRCs are the SSRCs of its encodings, in order, its RTX SSRCs those of
    the encodings with RTX, in order, and none of them is 0; there is one
    consumable encoding per entry of [consumableRtpEncodings], each with a
    non-zero SSRC; the RTCP interval is the audio one exactly for an audio
    Consumer; and [paused] is the boolean of the request when there is
    one. *)
Theorem X19_constructed_consumer data m :
  Consumer_construct data = Done m ->
  let rtpParameters := Constructed.rtpParameters m in
  Constructed.kind m <> ALL
  /\ RtpParameters.encodings rtpParameters <> []
  /\ Constructed.mediaSsrcs m = map encSsrc (RtpParameters.encodings rtpParameters)
  /\ Constructed.rtxSsrcs m
     = map rtxSsrc (List.filter hasRtx (RtpParameters.encodings rtpParameters))
  /\ Forall (fun ssrc => ssrc <> 0) (Constructed.mediaSsrcs m ++ Constructed.rtxSsrcs m)
  /\ Constructed.consumableRtpEncodings m <> []
  /\ (exists entries,
        json_find "consumableRtpEncodings" data = Some (JArray entries)
        /\ Forall2 (fun entry e => RtpEncodingParameters_parse entry = Done e)
             entries (Constructed.consumableRtpEncodings m))
  /\ Forall (fun e => encSsrc e <> 0) (Constructed.consumableRtpEncodings m)
  /\ Constructed.maxRtcpInterval m
     = match Constructed.kind m with
       | AUDIO => MaxAudioIntervalMs
       | _ => MaxVideoIntervalMs
       end
  /\ (forall b, json_find "paused" data = Some (JBool b) -> Constructed.paused m = b).
Proof.
  intros Hdone. cbv zeta.
  destruct (Consumer_construct_Done _ _ Hdone)
    as (kindName & members & entries & _ & _ & Hkind & _ & _ & Hnonempty & Hcheck
        & Hfind & Hentries & Hread & _ & Hpaused & _ & Hmedia & Hrtx & Hinterval).
  apply checkEncodings_Done in Hcheck.
  apply readConsumableRtpEncodings_Done in Hread as (placed & Hplaced & Hall & Hnz).
  cbn in Hplaced. rewrite fillMediaSsrcs_map in Hmedia. rewrite fillRtxSsrcs_map in Hrtx.
  cbn in Hmedia, Hrtx.
  split; [exact Hkind |]. split; [exact Hnonempty |].
  split; [exact Hmedia |]. split; [exact Hrtx |].
  split.
  { rewrite Hmedia, Hrtx. rewrite List.Forall_forall in Hcheck.
    apply Forall_app. split; apply List.Forall_forall; intros ssrc Hin;
      apply in_map_iff in Hin as (e & <- & He).
    - now apply Hcheck.
    - apply filter_In in He as [He Hhas]. now apply Hcheck. }
  split.
  { rewrite Hplaced. intros ->. inversion Hall; subst. contradiction. }
  split; [exists entries; rewrite Hplaced; auto |].
  split; [rewrite Hplaced; exact Hnz |].
  split; [exact Hinterval |].
  intros b Hb. rewrite Hpaused, Hb. reflexivity.
Qed.

(** X20.  After construction every header extension of the parameters has
    a non-zero id, and each of the seven known ids is the id of the first
    header extension of its type, or 0 when the parameters have none. *)
Theorem X20_header_extension_ids data m :
  Consumer_construct data = Done m ->
  let extens := RtpParameters.headerExtensions (Constructed.rtpParameters m) in
  let ids := Constructed.rtpHeaderExtensionIds m in
  Forall (fun e => RtpHeaderExtensionParameters.id e <> 0) extens
  /\ RtpHeaderExtensionIds.ssrcAudioLevel ids
     = firstExtensionId RtpHeaderExtensionUri.SSRC_AUDIO_LEVEL extens
  /\ RtpHeaderExtensionIds.videoOrientation ids
     = firstExtensionId RtpHeaderExtensionUri.VIDEO_ORIENTATION extens
  /\ RtpHeaderExtensionIds.absSendTime ids
     = firstExtensionId RtpHeaderExtensionUri.ABS_SEND_TIME extens
  /\ RtpHeaderExtensionIds.transportWideCc01 ids
     = firstExtensionId RtpHeaderExtensionUri.TRANSPORT_WIDE_CC_01 extens
  /\ RtpHeaderExtensionIds.mid ids = firstExtensionId RtpHeaderExtensionUri.MID extens
  /\ RtpHeaderExtensionIds.rid ids
     = firstExtensionId RtpHeaderExtensionUri.RTP_STREAM_ID extens
  /\ RtpHeaderExtensionIds.rrid ids
     = firstExtensionId RtpHeaderExtensionUri.REPAIRED_RTP_STREAM_ID extens.
Proof.
  intros Hdone. cbv zeta.
  destruct (Consumer_construct_Done _ _ Hdone)
    as (_ & _ & _ & _ & _ & _ & _ & _ & _ & _ & _ & _ & _ & Hids & _).
  apply fillHeaderExtensionIds_Done in Hids as [Hall ->].
  split; [exact Hall |]. repeat split.
Qed.

(** X21.  The supported payload types of a constructed Consumer are exactly
    the payload types of the media codecs among its codecs. *)
Theorem X21_supported_payload_types data m pt :
  Consumer_construct data = Done m ->
  pt ∈ Constructed.supportedCodecPayloadTypes m
  <-> exists codec,
        In codec (RtpParameters.codecs (Constructed.rtpParameters m))
        /\ IsMediaCodec (RtpCodecParameters.mimeType codec) = true
        /\ RtpCodecParameters.payloadType codec = pt.
Proof.
  intros Hdone.
  destruct (Consumer_construct_Done _ _ Hdone)
    as (_ & _ & _ & _ & _ & _ & _ & _ & _ & _ & _ & _ & _ & _ & _ & Hsupported & _).
  rewrite Hsupported, fillSupportedCodecPayloadTypes_elem.
  split; [intros [Hin | Hex]; [set_solver | exact Hex] | auto].
Qed.
End ConstructionProperties.

Section StreamCreation.

Lemma feedbackRound_flags fb useNack usePli useFir :
  feedbackRound fb (useNack, usePli, useFir)
  = (useNack || feedbackIs "nack" "" fb,
     usePli || feedbackIs "nack" "pli" fb,
     useFir || feedbackIs "ccm" "fir" fb).
Proof.
  unfold feedbackRound, feedbackIs.
  destruct (String.eqb (RtcpFeedback.type fb) "nack") eqn:Hnack;
    destruct (String.eqb (RtcpFeedback.type fb) "ccm") eqn:Hccm;
    destruct (String.eqb (RtcpFeedback.parameter fb) "") eqn:Hnone;
    destruct (String.eqb (RtcpFeedback.parameter fb) "pli") eqn:Hpli;
    destruct (String.eqb (RtcpFeedback.parameter fb) "fir") eqn:Hfir;
    repeat match goal with
           | Hx : String.eqb _ _ = true |- _ => apply String.eqb_eq in Hx
           end;
    try congruence;
    destruct useNack, usePli, useFir; reflexivity.
Qed.

Lemma feedbackRounds_flags fbs :
  forall useNack usePli useFir,
    fold_left (fun flags fb => feedbackRound fb flags) fbs (useNack, usePli, useFir)
    = (useNack || existsb (feedbackIs "nack" "") fbs,
       usePli || existsb (feedbackIs "nack" "pli") fbs,
       useFir || existsb (feedbackIs "ccm" "fir") fbs).
Proof.
  induction fbs as [| fb rest IH]; intros useNack usePli useFir.
  - cbn. now rewrite !orb_false_r.
  - cbn [fold_left existsb]. rewrite feedbackRound_flags, IH, !orb_assoc. reflexivity.
Qed.

Lemma existsb_same_elements {A} (f : A -> bool) (l l' : list A) :
  (forall a, In a l <-> In a l') -> existsb f l = existsb f l'.
Proof.
  intros Hsame. apply eq_true_iff_eq. rewrite !existsb_exists.
  split; intros (a & Hin & Hf); exists a; (split; [apply Hsame, Hin | exact Hf]).
Qed.

(** X22.  The stream [CreateRtpStream] asks for: it uses NACK, PLI and FIR
    exactly when the media codec lists the feedback (nack, no parameter),
    (nack, pli) and (ccm, fir); it keeps a retransmission buffer, of 600
    packets, exactly when it uses NACK; it uses DTX exactly when the
    encoding asks for it or the codec has the integer parameter usedtx
    equal to 1, and in-band FEC exactly when the codec has the integer
    parameter useinbandfec equal to 1; it starts paused exactly when the
    Consumer or its producer is paused; and RTX is set, with the payload
    type of the RTX codec and the RTX SSRC of the encoding, exactly when
    there is an RTX codec and the encoding has RTX. *)
Theorem X22_created_stream encoding encodingDtx mediaCodec rtxCodec cname
        (isPaused isProducerPaused : bool) :
  let setup :=
    CreateRtpStream encoding encodingDtx mediaCodec rtxCodec cname isPaused isProducerPaused in
  let feedback := RtpCodecParameters.rtcpFeedback mediaCodec in
  RtpStreamParams.useNack (params setup) = existsb (feedbackIs "nack" "") feedback
  /\ RtpStreamParams.usePli (params setup) = existsb (feedbackIs "nack" "pli") feedback
  /\ RtpStreamParams.useFir (params setup) = existsb (feedbackIs "ccm" "fir") feedback
  /\ bufferSize setup = (if RtpStreamParams.useNack (params setup) then 600 else 0)
  /\ (RtpStreamParams.useDtx (params setup) = true
      <-> encodingDtx = true
          \/ RtpCodecParameters.parameters mediaCodec !! "usedtx" = Some (PInteger 1))
  /\ (RtpStreamParams.useInBandFec (params setup) = true
      <-> RtpCodecParameters.parameters mediaCodec !! "useinbandfec" = Some (PInteger 1))
  /\ (pausedAtStart setup = true <-> isPaused = true \/ isProducerPaused = true)
  /\ (forall payloadType ssrc,
        rtxSetup setup = Some (payloadType, ssrc)
        <-> hasRtx encoding = true
            /\ ssrc = rtxSsrc encoding
            /\ exists codec, rtxCodec = Some codec
                             /\ payloadType = RtpCodecParameters.payloadType codec).
Proof.
  cbv zeta. unfold CreateRtpStream.
  rewrite feedbackRounds_flags. cbn.
  split; [reflexivity |]. split; [reflexivity |]. split; [reflexivity |].
  split; [reflexivity |].
  unfold RtpCodecParameters.HasInteger, RtpCodecParameters.GetInteger.
  split; [| split; [| split]].
  - destruct encodingDtx; [split; auto |].
    destruct (RtpCodecParameters.parameters mediaCodec !! "usedtx") as [[| n | | |] |];
      cbn; try (split; [discriminate | intros [Hx | Hx]; discriminate Hx]).
    rewrite Z.eqb_eq. split.
    + intros ->. auto.
    + intros [Hx | Hx]; [discriminate Hx | congruence].
  - destruct (RtpCodecParameters.parameters mediaCodec !! "useinbandfec")
      as [[| n | | |] |]; cbn; try (split; discriminate).
    rewrite Z.eqb_eq. split; [intros -> | intros Hx]; congruence.
  - rewrite orb_true_iff. reflexivity.
  - intros payloadType ssrc. destruct rtxCodec as [codec |], (hasRtx encoding); split;
      try discriminate;
      try (intros (Hx & _ & c & Hc & _); first [discriminate Hx | discriminate Hc]).
    + intros Heq. inversion Heq; subst. eauto.
    + intros (_ & -> & c & Hc & ->). congruence.
Qed.

(** X23.  Neither the order of the feedback entries of the media codec nor
    their repetition matters to [CreateRtpStream]: two codecs that differ
    only in their feedback lists, with the same entries in them, lead to
    the same stream. *)
Theorem X23_feedback_order_irrelevant encoding encodingDtx mediaCodec feedback rtxCodec
        cname (isPaused isProducerPaused : bool) :
  (forall fb, In fb (RtpCodecParameters.rtcpFeedback mediaCodec) <-> In fb feedback) ->
  CreateRtpStream encoding encodingDtx
    (RtpCodecParameters.mk (RtpCodecParameters.mimeType mediaCodec)
       (RtpCodecParameters.payloadType mediaCodec) (RtpCodecParameters.clockRate mediaCodec)
       (RtpCodecParameters.parameters mediaCodec) feedback)
    rtxCodec cname isPaused isProducerPaused
  = CreateRtpStream encoding encodingDtx mediaCodec rtxCodec cname isPaused isProducerPaused.
Proof.
  intros Hsame. unfold CreateRtpStream. rewrite !feedbackRounds_flags. cbn.
  rewrite !(existsb_same_elements _ _ _ Hsame). reflexivity.
Qed.
End StreamCreation.

(** ** Transport and score *)

Section TransportAndScore.
Context {S : Type} `{!RtpStreamSend.Ops S} `{!Environment} `{!Serialization S}.
Implicit Types (c : Consumer S).

Lemma TransportConnected_result c :
  TransportConnected c
  = (Done tt, set_syncRequired true (set_transportConnected true c),
     Virtual UserOnTransportConnected_
     :: (if IsActive (set_syncRequired true (set_transportConnected true c))
            && isVideo (kind c)
         then [OnConsumerKeyFrameRequested (encSsrc (consumableRtpEncodings c !!! 0%nat))]
         else [])).
Proof.
  exec_all.
  destruct (IsActive (set_syncRequired true (set_transportConnected true c)));
    cbn; [destruct (kind c) |]; reflexivity.
Qed.

(** X24.  Losing the transport clears [transportConnected], pauses the send
    stream, once, and leaves the Consumer inactive without asking for
    anything else.  Getting it back sets [transportConnected] and always
    sets [syncRequired], touches no other field, and asks the listener for
    a key frame, once and for the consumable SSRC, exactly when the
    Consumer is a video one and is active after it.  A disconnection
    followed by a connection leaves the Consumer as a connection alone
    would, but for the paused send stream. *)
Theorem X24_transport_cycle c :
  let down := TransportDisconnected c in
  let up := TransportConnected c in
  down = (Done tt,
          set_rtpStream (RtpStreamSend.Pause (rtpStream c)) (set_transportConnected false c),
          [Virtual UserOnTransportDisconnected_; RtpStream_Pause])
  /\ IsActive (after down) = false
  /\ outcome up = Done tt
  /\ after up = set_syncRequired true (set_transportConnected true c)
  /\ keyFrameRequests (calls up)
     = (if IsActive (after up) && isVideo (kind c)
        then [encSsrc (consumableRtpEncodings c !!! 0%nat)] else [])
  /\ transmitted (calls up) = []
  /\ after (TransportConnected (after down))
     = set_rtpStream (RtpStreamSend.Pause (rtpStream c)) (after up)
  /\ (transportConnected (after down) = false
      /\ rtpStream (after down) = RtpStreamSend.Pause (rtpStream c)
      /\ syncRequired (after down) = syncRequired c
      /\ paused (after down) = paused c
      /\ producerPaused (after down) = producerPaused c
      /\ producerClosed (after down) = producerClosed c)
  /\ (syncRequired (after up) = true
      /\ transportConnected (after up) = true
      /\ rtpStream (after up) = rtpStream c
      /\ paused (after up) = paused c
      /\ producerPaused (after up) = producerPaused c
      /\ producerClosed (after up) = producerClosed c
      /\ producerRtpStream (after up) = producerRtpStream c
      /\ rtpSeqManager (after up) = rtpSeqManager c
      /\ packetEventTypes (after up) = packetEventTypes c)
  /\ (IsActive (after up)
      = negb (paused c) && negb (producerPaused c) && negb (producerClosed c)
        && bool_decide (is_Some (producerRtpStream c)))
  /\ (syncRequired (after (TransportConnected (after down))) = true
      /\ transportConnected (after (TransportConnected (after down))) = true).
Proof.
  cbv zeta. split; [exec_all; reflexivity |]. split; [exec_all; reflexivity |].
  assert (Hdown : after (TransportDisconnected c)
                  = set_rtpStream (RtpStreamSend.Pause (rtpStream c))
                      (set_transportConnected false c)) by (exec_all; reflexivity).
  rewrite Hdown.
  rewrite !TransportConnected_result. unfold outcome, after, calls. cbn.
  split; [reflexivity |]. split; [reflexivity |].
  split; [destruct (IsActive _ && isVideo (kind c)); reflexivity |].
  split; [destruct (IsActive _ && isVideo (kind c)); reflexivity |].
  split; [reflexivity |].
  split; [repeat split |].
  split; [repeat split |].
  split; [reflexivity |].
  split; reflexivity.
Qed.

(** X25.  The score notification carries the score of the send stream and
    that of the producer stream announced last, 0 while none has been
    announced.  Announcing a producer stream, as a known or as a new one,
    records it and sends that notification; a change of score sends it and
    changes nothing. *)
Theorem X25_score_notification c (stream stream' : ProducerStream) :
  let scoreOf (known : option ProducerStream) :=
    NotifierEmit (id c) "score"
      (Some (JObject [("score", JNumber (RtpStreamSend.GetScore (rtpStream c)));
                      ("producerScore",
                       JNumber match known with
                               | Some s => ProducerStream_GetScore s
                               | None => 0
                               end)])) in
  ProducerRtpStreamScore c = (Done tt, c, [scoreOf (producerRtpStream c)])
  /\ ProducerRtpStream stream c
     = (Done tt, set_producerRtpStream (Some stream) c, [scoreOf (Some stream)])
  /\ ProducerNewRtpStream stream c = ProducerRtpStream stream c
  /\ calls (ProducerRtpStreamScore (after (ProducerNewRtpStream stream'
                                             (after (ProducerRtpStream stream c)))))
     = [scoreOf (Some stream')].
Proof.
  cbv zeta. repeat split; exec_more; reflexivity.
Qed.
End TransportAndScore.

(** ** The further properties at work *)


Lemma X11_witness :
  kind Scenario.video = VIDEO
  /\ IsActive (after (step (EvRequest (mkRequest CONSUMER_REQUEST_KEY_FRAME
                                         "consumer.requestKeyFrame" JNull))
                           Scenario.video)) = true
  /\ 2222 = encSsrc (consumableRtpEncodings Scenario.video !!! 0%nat).
Proof.
  apply (X11_key_frames_only_when_active_video
           (EvRequest (mkRequest CONSUMER_REQUEST_KEY_FRAME "consumer.requestKeyFrame" JNull))
           Scenario.video 2222).
  vm_compute. left. reflexivity.
Defined.

Lemma X12_witness :
  packetEventEnabled
    (packetEventTypes
       (after (Consumer_HandleRequest (Scenario.types [JString "rtp"]) Scenario.video)))
    (Some (JString "rtp")) = true.
Proof.
  apply (X12_only_enabled_packet_events
           (EvSendRtpPacket (Scenario.media 1000 true))
           (after (Consumer_HandleRequest (Scenario.types [JString "rtp"]) Scenario.video))
           (Some (JString "rtp"))).
  vm_compute. left. reflexivity.
Defined.

Lemma X13_witness :
  let r := run [EvSendRtpPacket (Scenario.media 1000 false); EvRequest Scenario.resume;
                EvTransportConnected; EvProducerResumed; EvReceiveNack [1000]]
             (after (ProducerClosed Scenario.audio)) in
  outcome r = Done tt
  /\ producerClosed (after r) = true
  /\ IsActive (after r) = false
  /\ transmitted (calls r) = []
  /\ retransmitted (calls r) = [].
Proof.
  apply (X13_producer_closed_is_final
           [EvSendRtpPacket (Scenario.media 1000 false); EvRequest Scenario.resume;
            EvTransportConnected; EvProducerResumed; EvReceiveNack [1000]]
           (after (ProducerClosed Scenario.audio))).
  vm_compute. reflexivity.
Defined.

Lemma X14_witness :
  let r := run [EvSendRtpPacket (Scenario.media 1000 false); EvProducerResumed;
                EvTransportConnected; EvRequest Scenario.pause; EvReceiveNack [1000]]
             (after (Consumer_HandleRequest Scenario.pause Scenario.audio)) in
  outcome r = Done tt
  /\ paused (after r) = true
  /\ transmitted (calls r) = []
  /\ retransmitted (calls r) = [].
Proof.
  apply (X14_paused_until_resumed
           [EvSendRtpPacket (Scenario.media 1000 false); EvProducerResumed;
            EvTransportConnected; EvRequest Scenario.pause; EvReceiveNack [1000]]
           (after (Consumer_HandleRequest Scenario.pause Scenario.audio)));
    vm_compute; reflexivity.
Defined.

Lemma X15_witness :
  transmitted (calls (SendRtpPacket (Scenario.media 1000 false) Scenario.audio))
  = [mkRtpPacket 1111 1000 90000 100 false 160].
Proof.
  apply (X15_transmitted_packet_shape Scenario.audio (Scenario.media 1000 false)
           (mkRtpPacket 1111 1000 90000 100 false 160)).
  vm_compute. do 3 right. left. reflexivity.
Defined.

Lemma X16_witness :
  let r := SendRtpPacket (Scenario.media 1000 true) Scenario.video in
  syncRequired Scenario.video = true
  /\ syncRequired (after r) = false
  /\ existsb isSync (calls (SendRtpPacket (Scenario.media 1001 false) (after r))) = false
  /\ syncRequired (after (TransportConnected (after r))) = true.
Proof.
  cbv zeta. split; [vm_compute; reflexivity |].
  apply (X16_resync_once_per_epoch Scenario.video (Scenario.media 1000 true)
           (mkRtpPacket 1111 1000 90000 100 true 160) true (Scenario.media 1001 false)).
  - vm_compute. reflexivity.
  - vm_compute. do 2 right. left. reflexivity.
Defined.

Lemma X19_witness :
  Consumer_construct ConstructionScenario.data = Done ConstructionScenario.constructed
  /\ Constructed.mediaSsrcs ConstructionScenario.constructed = [1111]
  /\ Constructed.rtxSsrcs ConstructionScenario.constructed = [1112]
  /\ Constructed.paused ConstructionScenario.constructed = true.
Proof.
  assert (Hdone : Consumer_construct ConstructionScenario.data
                  = Done ConstructionScenario.constructed) by (vm_compute; reflexivity).
  split; [exact Hdone |].
  destruct (X19_constructed_consumer _ _ Hdone)
    as (_ & _ & Hmedia & Hrtx & _ & _ & _ & _ & _ & Hpaused).
  split; [exact Hmedia |]. split; [exact Hrtx |].
  apply Hpaused. vm_compute. reflexivity.
Defined.

Lemma X20_witness :
  RtpHeaderExtensionIds.mid
    (Constructed.rtpHeaderExtensionIds ConstructionScenario.constructed) = 1
  /\ RtpHeaderExtensionIds.absSendTime
       (Constructed.rtpHeaderExtensionIds ConstructionScenario.constructed) = 4
  /\ RtpHeaderExtensionIds.rid
       (Constructed.rtpHeaderExtensionIds ConstructionScenario.constructed) = 0.
Proof.
  destruct (X20_header_extension_ids ConstructionScenario.data
              ConstructionScenario.constructed)
    as (_ & _ & _ & Habs & _ & Hmid & Hrid & _).
  - vm_compute. reflexivity.
  - rewrite Hmid, Habs, Hrid. vm_compute. auto.
Defined.

Lemma X21_witness :
  100 ∈ Constructed.supportedCodecPayloadTypes ConstructionScenario.constructed
  <-> exists codec,
        In codec [ConstructionScenario.opus; ConstructionScenario.rtx]
        /\ IsMediaCodec (RtpCodecParameters.mimeType codec) = true
        /\ RtpCodecParameters.payloadType codec = 100.
Proof.
  apply (X21_supported_payload_types ConstructionScenario.data
           ConstructionScenario.constructed 100).
  vm_compute. reflexivity.
Defined.

Lemma X23_witness :
  CreateRtpStream (mkEncoding 1111 false 0) false
    (RtpCodecParameters.mk "video/VP8" 96 90000 ∅
       [RtcpFeedback.mk "ccm" "fir"; RtcpFeedback.mk "nack" ""; RtcpFeedback.mk "nack" "";
        RtcpFeedback.mk "nack" "pli"])
    None "cname" false false
  = CreateRtpStream (mkEncoding 1111 false 0) false ConstructionScenario.vp8
      None "cname" false false.
Proof.
  apply (X23_feedback_order_irrelevant (mkEncoding 1111 false 0) false
           ConstructionScenario.vp8
           [RtcpFeedback.mk "ccm" "fir"; RtcpFeedback.mk "nack" ""; RtcpFeedback.mk "nack" "";
            RtcpFeedback.mk "nack" "pli"]
           None "cname" false false).
  intros fb. cbn. intuition.
Defined.
